(** * Orchestration engine of the LangChain web-search chatbot

    A shallow embedding of the JavaScript sources

    - [agents/searchAgent.js]   ([PerplexitySearchAgent], [SearchResult]),
    - [agents/chatAgent.js]     ([LangChainChatAgent]),
    - [tools/PerplexitySearchTool.js], [tools/GoogleGroundingTool.js],
    - [server.js]               (the [/chat] handler),

    followed by the properties of the event protocol, the search caches,
    the adapter dispatch and the streaming fallback.

    Conventions of the embedding.

    - JavaScript strings are [string]s; [toLowerCase] acts on the ASCII
      letters.  A value that may be [undefined] is an [option]; a string is
      truthy when it is not empty.
    - A plain object used as a dictionary ([this.models], [this.cache],
      [this.searchCache]) is a [gmap string _] of its own properties.
    - [async] functions are state-passing functions over a [Machine]: the
      receiver object ([this]), the outside world, and a log of the calls
      made so far.  The log is ghost state: it exists to count calls.
    - An async generator returns the list of the values it yields, each with
      the machine state at the moment of the [yield], and its completion.
    - A thrown error is its [message].  [Date.now()] reads the clock of the
      world; the world changes at the calls to the remote services, and
      between two requests.
    - The fields of a request body have the types the README gives them:
      [message], [modelProvider] and [modelName] are strings, [forceSearch]
      is a boolean, and each may be absent.
    - [console.log], [console.warn] and [console.error] are left out. *)

From Stdlib Require Import ZArith String Ascii List Bool Lia.
From stdpp Require Import base gmap strings list fin_maps pretty.

Local Open Scope Z_scope.

(** ** JavaScript strings *)

Module JS.

(** The double-quote character of template literals. *)
Definition dquote : string := String (ascii_of_nat 34) EmptyString.

(** Truthiness of a string: every string but the empty one. *)
Definition truthy (s : string) : bool :=
  match s with
  | EmptyString => false
  | String _ _ => true
  end.

(** Truthiness of a value that may be [undefined]. *)
Definition truthy_opt (o : option string) : bool :=
  match o with
  | Some s => truthy s
  | None => false
  end.

(** [a || b] on strings. *)
Definition or_else (a b : string) : string := if truthy a then a else b.

(** [o || d] where [o] may be [undefined]. *)
Definition opt_or_else (o : option string) (d : string) : string :=
  match o with
  | Some a => or_else a d
  | None => d
  end.

Definition toLowerCase_char (c : ascii) : ascii :=
  let n := nat_of_ascii c in
  if (Nat.leb 65 n && Nat.leb n 90)%bool then ascii_of_nat (n + 32) else c.

Fixpoint toLowerCase (s : string) : string :=
  match s with
  | EmptyString => EmptyString
  | String c s' => String (toLowerCase_char c) (toLowerCase s')
  end.

(** [s.includes(sub)] *)
Fixpoint includes (s sub : string) : bool :=
  (String.prefix sub s
   || match s with
      | EmptyString => false
      | String _ s' => includes s' sub
      end)%bool.

(** [array.filter(Boolean)] on strings that may be [undefined]. *)
Definition filter_Boolean (l : list (option string)) : list string :=
  omap (fun o => match o with
                 | Some a => if truthy a then Some a else None
                 | None => None
                 end) l.

(** [a && b] where [b] is an object that may be [undefined]. *)
Definition and_then {A} (a : bool) (b : option A) : option A :=
  if a then b else None.

(** The line feed of string literals. *)
Definition LF : string := String (ascii_of_nat 10) EmptyString.

(** [array.some(p)] *)
Definition some {A} (p : A -> bool) (l : list A) : bool := existsb p l.

End JS.

(** ** Values exchanged with the outside world *)

(** LangChain messages. *)
Inductive BaseMessage :=
| SystemMessage (content : string)
| HumanMessage (content : string).

(** The three chat model classes of LangChain the agent instantiates. *)
Inductive ChatModelClass := ChatOpenAI | ChatGoogleGenerativeAI | ChatAnthropic.

(** The fields passed to a chat model constructor.  The temperature is kept
    in tenths ([2] for [0.2], [7] for [0.7]). *)
Record ChatModel := {
  cls : ChatModelClass;
  llm_apiKey : option string;
  model : string;
  temperature_x10 : Z;
  streaming : bool
}.

(** What iterating [await llm.stream(messages)] gives: the [content] of the
    chunks received, in order (an [undefined] content is the empty string),
    and the message of the error that interrupted the stream, if one did.
    An error of [llm.stream] itself is a failure with nothing delivered. *)
Record StreamRun := {
  delivered : list string;
  failure : option string
}.

(** What the Perplexity completion endpoint answers through [axios]. *)
Module Perplexity.

Record Citation := { url : option string }.

(** [response.data], as far as [_parseSearchResult] reads it. *)
Record Data := {
  choices_0_message_content : option string;
  citations : option (list Citation)
}.

(** The error of a rejected [axios.post]. *)
Record Error := {
  response_status : option Z;
  message : string
}.

End Perplexity.

(** What the Gemini SDK answers. *)
Module Gemini.

Record CitationSource := { uri : option string; title : option string }.

Record CitationMetadata := { citationSources : option (list CitationSource) }.

(** The response, as far as [GoogleGroundingTool._call] reads it. *)
Record Response := {
  text : string;
  candidates_0_citationMetadata : option CitationMetadata
}.

(** An error thrown while generating grounded content; [isFetchError] is
    [error instanceof GoogleGenerativeAIFetchError]. *)
Record Error := {
  isFetchError : bool;
  message : string
}.

End Gemini.

(** The calls the log records. *)
Inductive Call :=
| ResolveModel (modelProvider modelName : string)
| ToolCall (tool query : string)
| AxiosPost (baseUrl query : string)
| GenerateContent (modelName query : string)
| LLMStream (llm : ChatModel) (messages : list BaseMessage).

(** The outside world: the clock and the three remote services.  A call to
    a service returns its answer and the world after the call. *)
Class External (World : Type) := {
  Date_now : World -> Z;
  llm_stream : ChatModel -> list BaseMessage -> World -> StreamRun * World;
  axios_post : string -> string -> string -> World ->
               (Perplexity.Data + Perplexity.Error) * World;
  generateContent : string -> string -> string -> World ->
                    (Gemini.Response + Gemini.Error) * World
}.

(** ** Async functions and async generators *)

Inductive Completion (A : Type) :=
| Normal (a : A)
| Throw (message : string).

Arguments Normal {A} a.
Arguments Throw {A} message.

Record Machine (World Self : Type) := {
  self : Self;
  world : World;
  calls : list Call
}.

Arguments self {World Self} _.
Arguments world {World Self} _.
Arguments calls {World Self} _.

Module Async.
Section WithState.

Context {S : Type}.

(** An async function. *)
Definition Eff (A : Type) : Type := S -> Completion A * S.

(** An async generator yielding values of type [Y]. *)
Definition Gen (Y A : Type) : Type := S -> list (Y * S) * Completion A * S.

Definition ret {A} (a : A) : Eff A := fun s => (Normal a, s).

Definition throw {A} (e : string) : Eff A := fun s => (Throw e, s).

Definition bind {A B} (m : Eff A) (k : A -> Eff B) : Eff B :=
fun s =>
  match m s with
  | (Normal a, s1) => k a s1
  | (Throw e, s1) => (Throw e, s1)
  end.

(** [try { m } catch (error) { h(error.message) }] *)
Definition try_catch {A} (m : Eff A) (h : string -> Eff A) : Eff A :=
fun s =>
  match m s with
  | (Normal a, s1) => (Normal a, s1)
  | (Throw e, s1) => h e s1
  end.

Definition gret {Y A} (a : A) : Gen Y A := fun s => ([], Normal a, s).

Definition gthrow {Y A} (e : string) : Gen Y A := fun s => ([], Throw e, s).

Definition yield {Y} (y : Y) : Gen Y unit := fun s => ([(y, s)], Normal tt, s).

Definition gbind {Y A B} (m : Gen Y A) (k : A -> Gen Y B) : Gen Y B :=
fun s =>
  match m s with
  | (ys1, Normal a, s1) =>
      match k a s1 with
      | (ys2, c, s2) => (ys1 ++ ys2, c, s2)
      end
  | (ys1, Throw e, s1) => (ys1, Throw e, s1)
  end.

(** [await] of an async function inside a generator. *)
Definition await {Y A} (m : Eff A) : Gen Y A :=
fun s => match m s with (c, s1) => ([], c, s1) end.

Definition gtry_catch {Y A} (m : Gen Y A) (h : string -> Gen Y A) : Gen Y A :=
fun s =>
  match m s with
  | (ys1, Normal a, s1) => (ys1, Normal a, s1)
  | (ys1, Throw e, s1) =>
      match h e s1 with
      | (ys2, c, s2) => (ys1 ++ ys2, c, s2)
      end
  end.

(** [try { m } finally { f }]: [f] runs on both completions of [m], and
  the completion of [m] stands unless [f] throws. *)
Definition gtry_finally {Y A} (m : Gen Y A) (f : Gen Y unit) : Gen Y A :=
fun s =>
  match m s with
  | (ys1, c1, s1) =>
      match f s1 with
      | (ys2, Normal _, s2) => (ys1 ++ ys2, c1, s2)
      | (ys2, Throw e, s2) => (ys1 ++ ys2, Throw e, s2)
      end
  end.

(** [for (const x of l) { body(x) }] *)
Fixpoint for_of {Y X} (l : list X) (body : X -> Gen Y unit) : Gen Y unit :=
match l with
| [] => gret tt
| x :: l' => gbind (body x) (fun _ => for_of l' body)
end.

(** [for await (const x of g) { yield f(x) }]: the body only yields, so
  the state at each yield is the one the inner generator was left in. *)
Definition for_await_yield {Y1 Y2 A} (g : Gen Y1 A) (f : Y1 -> Y2) : Gen Y2 A :=
fun s =>
  match g s with
  | (ys, c, s1) => (map (fun '(y, t) => (f y, t)) ys, c, s1)
  end.

End WithState.

Arguments Eff S A : clear implicits.
Arguments Gen S Y A : clear implicits.

End Async.

Import Async.

Declare Scope async_scope.
Delimit Scope async_scope with async.

Notation "'let*' x ':=' m 'in' k" := (bind m (fun x => k))
  (at level 10, x pattern, m at level 100, k at level 200) : async_scope.
Notation "m ';;' k" := (bind m (fun _ => k))
  (at level 100, k at level 200, right associativity) : async_scope.

Declare Scope gen_scope.
Delimit Scope gen_scope with gen.

Notation "'let*' x ':=' m 'in' k" := (gbind m (fun x => k))
  (at level 10, x pattern, m at level 100, k at level 200) : gen_scope.
Notation "m ';;' k" := (gbind m (fun _ => k))
  (at level 100, k at level 200, right associativity) : gen_scope.

Section MachineOps.

Context {World : Type} `{!External World} {Self : Type}.

(** [Date.now()] *)
Definition now : Eff (Machine World Self) Z :=
  fun s => (Normal (Date_now (world s)), s).

(** Ghost: record a call. *)
Definition log (c : Call) : Eff (Machine World Self) unit :=
  fun s => (Normal tt,
            {| self := self s; world := world s; calls := calls s ++ [c] |}).

(** A call to a remote service: it answers and moves the world. *)
Definition remote {R} (f : World -> R * World) : Eff (Machine World Self) R :=
  fun s =>
    match f (world s) with
    | (r, w) => (Normal r, {| self := self s; world := w; calls := calls s |})
    end.

Definition get_self : Eff (Machine World Self) Self :=
  fun s => (Normal (self s), s).

Definition set_self (x : Self) : Eff (Machine World Self) unit :=
  fun s => (Normal tt, {| self := x; world := world s; calls := calls s |}).

End MachineOps.

(** A method of a component [Part] of [Self], run on the part and written
    back: the part is an object shared by reference. *)
Definition on_part {World Self Part A}
    (part : Part) (put : Part -> Self -> Self)
    (m : Eff (Machine World Part) A) : Eff (Machine World Self) A :=
  fun s =>
    match m {| self := part; world := world s; calls := calls s |} with
    | (c, t) =>
        (c, {| self := put (self t) (self s); world := world t; calls := calls t |})
    end.

(** ** agents/searchAgent.js *)

Module SearchResult.

Record t := {
  content : string;
  sources : list string;
  citations : list Perplexity.Citation
}.

End SearchResult.

Module PerplexitySearchAgent.

Record t := {
  apiKey : option string;
  baseUrl : string
}.

Definition new (key : option string) : t :=
  {| apiKey := if JS.truthy_opt key then key else None;
     baseUrl := "https://api.perplexity.ai/chat/completions" |}.

Definition _parseSearchResult (data : Perplexity.Data) : SearchResult.t :=
  let content := JS.opt_or_else (Perplexity.choices_0_message_content data) EmptyString in
  let citations := default [] (Perplexity.citations data) in
  let sources :=
    List.filter JS.truthy
      (map (fun citation => JS.opt_or_else (Perplexity.url citation) EmptyString) citations) in
  {| SearchResult.content := content;
     SearchResult.sources := sources;
     SearchResult.citations := citations |}.

(** [error.response?.status || error.message], as interpolated in a
    template literal. *)
Definition status_or_message (error : Perplexity.Error) : string :=
  match Perplexity.response_status error with
  | Some status => if status =? 0 then Perplexity.message error else pretty status
  | None => Perplexity.message error
  end.

Section Methods.
Context {World : Type} `{!External World} {Self : Type}.

(** [searchWeb(query, model = 'sonar')].  The rejection of [axios.post]
    is the [inr] answer of the service; the [catch] clause turns it into
    the error thrown. *)
Definition searchWeb (this : t) (query : string)
  : Eff (Machine World Self) SearchResult.t :=
  (if negb (JS.truthy_opt (apiKey this)) then
     throw "Perplexity API key is not set. Cannot perform search."
   else
     log (AxiosPost (baseUrl this) query);;
     let* response :=
       remote (axios_post (baseUrl this) (default EmptyString (apiKey this))
                          ("Search for: " +:+ query)) in
     match response with
     | inl data => ret (_parseSearchResult data)
     | inr error => throw ("Perplexity API error: " +:+ status_or_message error)
     end)%async.

End Methods.

End PerplexitySearchAgent.

(** ** tools/PerplexitySearchTool.js *)

Module PerplexitySearchTool.

Record CacheEntry := {
  data : SearchResult.t;
  timestamp : Z
}.

Record t := {
  perplexityAgent : PerplexitySearchAgent.t;
  cache : gmap string CacheEntry;
  cacheTTL : Z
}.

Definition name : string := "perplexity_web_search".

Definition new (apiKey : option string) : t :=
  {| perplexityAgent := PerplexitySearchAgent.new apiKey;
     cache := ∅;
     cacheTTL := 5 * 60 * 1000 |}.

Definition set_cache (cacheKey : string) (entry : CacheEntry) (this : t) : t :=
  {| perplexityAgent := perplexityAgent this;
     cache := <[cacheKey := entry]> (cache this);
     cacheTTL := cacheTTL this |}.

Section Methods.
Context {World : Type} `{!External World}.

(** The part of [_call] after the cache check. *)
Definition _call_live (query cacheKey : string) : Eff (Machine World t) string :=
  (try_catch
     (let* this := get_self in
      let* result := PerplexitySearchAgent.searchWeb (perplexityAgent this) query in
      let outputContent := SearchResult.content result in
      let* timestamp := now in
      let* this := get_self in
      set_self (set_cache cacheKey {| data := result; timestamp := timestamp |} this);;
      ret outputContent)
     (fun message =>
        throw ("Failed to perform Perplexity search: " +:+ message)))%async.

Definition _call (query : string) : Eff (Machine World t) string :=
  (let cacheKey := JS.toLowerCase query in
   let* this := get_self in
   match cache this !! cacheKey with
   | Some cachedResult =>
       let* t := now in
       if t - timestamp cachedResult <? cacheTTL this
       then ret (SearchResult.content (data cachedResult))
       else _call_live query cacheKey
   | None => _call_live query cacheKey
   end)%async.

End Methods.

End PerplexitySearchTool.

(** ** tools/GoogleGroundingTool.js *)

Module GoogleGroundingTool.

Record CacheEntry := {
  data : string;
  timestamp : Z;
  citations : option Gemini.CitationMetadata
}.

Record t := {
  apiKey : option string;
  genAI : bool;
  modelName : string;
  cache : gmap string CacheEntry;
  cacheTTL : Z
}.

Definition name : string := "google_search_grounding".

Definition new (key : option string) : t :=
  {| apiKey := if JS.truthy_opt key then key else None;
     genAI := JS.truthy_opt key;
     modelName := "gemini-2.5-pro";
     cache := ∅;
     cacheTTL := 5 * 60 * 1000 |}.

Definition set_cache (cacheKey : string) (entry : CacheEntry) (this : t) : t :=
  {| apiKey := apiKey this;
     genAI := genAI this;
     modelName := modelName this;
     cache := <[cacheKey := entry]> (cache this);
     cacheTTL := cacheTTL this |}.

Record ParsedCitation := {
  url : option string;
  title : string
}.

Definition _parseCitations (citationMetadata : option Gemini.CitationMetadata)
  : list ParsedCitation :=
  match citationMetadata with
  | None => []
  | Some metadata =>
      match Gemini.citationSources metadata with
      | None => []
      | Some sources =>
          map (fun source =>
                 {| url := Gemini.uri source;
                    title := JS.opt_or_else (Gemini.title source) "Untitled Source" |})
              sources
      end
  end.

Section Methods.
Context {World : Type} `{!External World}.

(** The part of [_call] after the cache check.  An error of the Gemini
    call is the [inr] answer of the service; the [catch] clause wraps a
    fetch error and rethrows any other. *)
Definition _call_live (query cacheKey : string) : Eff (Machine World t) string :=
  (let* this := get_self in
   log (GenerateContent (modelName this) query);;
   let* result :=
     remote (generateContent (default EmptyString (apiKey this))
                             (modelName this) query) in
   match result with
   | inl response =>
       let content := Gemini.text response in
       let citationMetadata := Gemini.candidates_0_citationMetadata response in
       let* timestamp := now in
       let* this := get_self in
       set_self (set_cache cacheKey
                   {| data := content; timestamp := timestamp;
                      citations := citationMetadata |} this);;
       ret content
   | inr error =>
       if Gemini.isFetchError error
       then throw ("Google Grounding failed: " +:+ Gemini.message error +:+ ".")
       else throw (Gemini.message error)
   end)%async.

Definition _call (query : string) : Eff (Machine World t) string :=
  (let* this := get_self in
   if (negb (JS.truthy_opt (apiKey this)) || negb (genAI this))%bool then
     throw "Google API key is not set. Cannot perform Google Grounding."
   else
     let cacheKey := "grounded_" +:+ JS.toLowerCase query in
     match cache this !! cacheKey with
     | Some cachedResult =>
         let* t := now in
         if t - timestamp cachedResult <? cacheTTL this
         then ret (data cachedResult)
         else _call_live query cacheKey
     | None => _call_live query cacheKey
     end)%async.

End Methods.

End GoogleGroundingTool.

(** ** agents/chatAgent.js *)

(** [RAG_PROMPT_TEMPLATE.formatMessages({ search_context, user_input })] *)
Definition RAG_PROMPT_TEMPLATE (search_context user_input : string) : list BaseMessage :=
  [ SystemMessage
      ("You are a helpful AI assistant. Answer the user's questions truthfully and informatively based on the provided search context."
       +:+ "Cite your sources from the context clearly using numbers like [1], [2] next to the relevant information."
       +:+ "If the search context does not contain enough information to answer the question, state that you don't know."
       +:+ "Search Context:" +:+ JS.LF +:+ JS.LF +:+ search_context +:+ JS.LF +:+ JS.LF);
    HumanMessage user_input ].

(** [ERROR_FALLBACK_PROMPT.formatMessages({ original_query })] *)
Definition ERROR_FALLBACK_PROMPT (original_query : string) : list BaseMessage :=
  [ SystemMessage "You are an AI assistant. Explain politely that an error occurred.";
    HumanMessage
      ("I'm very sorry, but I encountered an internal error while processing your request. Please try again or rephrase your question. (Original user query: "
       +:+ original_query +:+ ")") ].

(** The objects [processMessage] serialises with [JSON.stringify], one per
    yielded line; the server frames each line as [data: ...]. *)
Module Metadata.

Record t := {
  usedSearch : bool;
  searchTool : string;
  searchSources : list string;
  isSearchSuccessful : bool
}.

End Metadata.

Inductive StreamEvent :=
| EvMetadata (data : Metadata.t)
| EvChunk (data : string)
| EvError (data : string)
| EvEnd.

Module LangChainChatAgent.

Record ApiKeys := {
  openai : option string;
  google : option string;
  anthropic : option string;
  perplexity : option string
}.

Record Tools := {
  perplexity_web_search : option PerplexitySearchTool.t;
  google_search_grounding : option GoogleGroundingTool.t
}.

Record CacheData := {
  content : string;
  sources : list string;
  toolUsed : string
}.

Record CacheEntry := {
  data : CacheData;
  timestamp : Z
}.

Record t := {
  apiKeys : ApiKeys;
  models : gmap string ChatModel;
  tools : Tools;
  searchCache : gmap string CacheEntry;
  searchCacheTTL : Z
}.

Definition mkChat (c : ChatModelClass) (key : option string) (name : string)
    (temperature : Z) : ChatModel :=
  {| cls := c; llm_apiKey := key; model := name;
     temperature_x10 := temperature; streaming := true |}.

Definition _initializeModels (keys : ApiKeys) (models : gmap string ChatModel)
  : gmap string ChatModel :=
  let models :=
    if JS.truthy_opt (openai keys) then
      <["openai_fast" := mkChat ChatOpenAI (openai keys) "gpt-3.5-turbo" 7]>
        (<["openai_capable" := mkChat ChatOpenAI (openai keys) "gpt-4-turbo" 2]> models)
    else models in
  let models :=
    if JS.truthy_opt (google keys) then
      <["google_fast" := mkChat ChatGoogleGenerativeAI (google keys) "gemini-2.5-pro" 7]>
        (<["google_capable" := mkChat ChatGoogleGenerativeAI (google keys) "gemini-2.5-pro" 2]> models)
    else models in
  if JS.truthy_opt (anthropic keys) then
    <["anthropic_fast" := mkChat ChatAnthropic (anthropic keys) "claude-3-haiku-20240307" 7]>
      (<["anthropic_capable" := mkChat ChatAnthropic (anthropic keys) "claude-3-sonnet-20240229" 2]> models)
  else models.

Definition _initializeTools (keys : ApiKeys) : Tools :=
  {| perplexity_web_search :=
       if JS.truthy_opt (perplexity keys)
       then Some (PerplexitySearchTool.new (perplexity keys)) else None;
     google_search_grounding :=
       if JS.truthy_opt (google keys)
       then Some (GoogleGroundingTool.new (google keys)) else None |}.

Definition new (keys : ApiKeys) : t :=
  {| apiKeys := keys;
     models := _initializeModels keys ∅;
     tools := _initializeTools keys;
     searchCache := ∅;
     searchCacheTTL := 5 * 60 * 1000 |}.

(** [null] and [undefined] are both [None]. *)
Definition _getLLM (this : t) (modelProvider modelName : string) : option ChatModel :=
  if (negb (bool_decide (is_Some (models this !! (modelProvider +:+ "_capable"))))
      && negb (bool_decide (is_Some (models this !! (modelProvider +:+ "_fast")))))%bool
  then None
  else if JS.includes modelName "fast"
  then models this !! (modelProvider +:+ "_fast")
  else if ((modelProvider =? "openai")%string
           && negb (modelName =? "gpt-4-turbo")%string
           && negb (modelName =? "gpt-3.5-turbo")%string)%bool
  then Some (mkChat ChatOpenAI (openai (apiKeys this)) modelName 2)
  else if ((modelProvider =? "google")%string
           && negb (modelName =? "gemini-2.5-pro")%string
           && negb (modelName =? "gemini-2.5-pro")%string)%bool
  then Some (mkChat ChatGoogleGenerativeAI (google (apiKeys this)) modelName 2)
  else if ((modelProvider =? "anthropic")%string
           && negb (modelName =? "claude-3-sonnet-20240229")%string
           && negb (modelName =? "claude-3-haiku-20240307")%string)%bool
  then Some (mkChat ChatAnthropic (anthropic (apiKeys this)) modelName 2)
  else models this !! (modelProvider +:+ "_capable").

Definition timeSensitiveKeywords : list string :=
  ["latest"; "current"; "recent"; "news"; "today"; "yesterday"; "now";
   "breaking"; "update"; "2024"; "2025"].

Definition shouldSearchWeb (userInput : string) : bool :=
  let lowerInput := JS.toLowerCase userInput in
  if (JS.includes lowerInput "search for" || JS.includes lowerInput "look up"
      || JS.includes lowerInput "find information on"
      || JS.includes lowerInput "web search for")%bool
  then true
  else if JS.some (fun keyword => JS.includes lowerInput keyword) timeSensitiveKeywords
  then true
  else if (JS.includes lowerInput "who is the current"
           || JS.includes lowerInput "what is the stock price"
           || JS.includes lowerInput "weather in"
           || JS.includes lowerInput "election results"
           || JS.includes lowerInput "current events"
           || JS.includes lowerInput "what's happening")%bool
  then true
  else false.

(** The local variables of [processMessage] that the search block sets. *)
Record Locals := {
  needsSearch : bool;
  searchToolUsed : string;
  searchContent : string;
  searchSources : list string;
  isSearchSuccessful : bool
}.

Definition set_searchCache (cacheKey : string) (entry : CacheEntry) (this : t) : t :=
  {| apiKeys := apiKeys this;
     models := models this;
     tools := tools this;
     searchCache := <[cacheKey := entry]> (searchCache this);
     searchCacheTTL := searchCacheTTL this |}.

(** Writing back [this.tools.google_search_grounding] and
    [this.tools.perplexity_web_search]. *)
Definition put_google (tool : GoogleGroundingTool.t) (this : t) : t :=
  {| apiKeys := apiKeys this;
     models := models this;
     tools := {| perplexity_web_search := perplexity_web_search (tools this);
                 google_search_grounding := Some tool |};
     searchCache := searchCache this;
     searchCacheTTL := searchCacheTTL this |}.

Definition put_perplexity (tool : PerplexitySearchTool.t) (this : t) : t :=
  {| apiKeys := apiKeys this;
     models := models this;
     tools := {| perplexity_web_search := Some tool;
                 google_search_grounding := google_search_grounding (tools this) |};
     searchCache := searchCache this;
     searchCacheTTL := searchCacheTTL this |}.

(** The adapter the condition chain of the live search picks:
    [modelProvider === "google" && this.tools.google_search_grounding],
    else [this.tools.perplexity_web_search], else none. *)
Inductive Adapter :=
| UseGoogleGrounding (tool : GoogleGroundingTool.t)
| UsePerplexity (tool : PerplexitySearchTool.t)
| NoAdapter.

Definition selectAdapter (modelProvider : string) (tools : Tools) : Adapter :=
  match JS.and_then (modelProvider =? "google")%string (google_search_grounding tools) with
  | Some tool => UseGoogleGrounding tool
  | None =>
      match perplexity_web_search tools with
      | Some tool => UsePerplexity tool
      | None => NoAdapter
      end
  end.

Section Methods.
Context {World : Type} `{!External World}.

(** [await llm.stream(messages)] *)
Definition stream {Self} (llm : ChatModel) (messages : list BaseMessage)
  : Eff (Machine World Self) StreamRun :=
  (log (LLMStream llm messages);; remote (llm_stream llm messages))%async.

(** [for await (const chunk of stream) { body(chunk.content) }] *)
Definition for_await_stream {Self Y} (run : StreamRun)
    (body : string -> Gen (Machine World Self) Y unit)
  : Gen (Machine World Self) Y unit :=
  (for_of (delivered run) body;;
   match failure run with
   | Some message => gthrow message
   | None => gret tt
   end)%gen.

(** [accumulatedContent] is written and never read; it is left out. *)
Definition _streamGenerate (llm : ChatModel) (promptMessages : list BaseMessage)
    (originalQuery : string) : Gen (Machine World t) string unit :=
  gtry_catch
    (let* stream := await (stream llm promptMessages) in
     for_await_stream stream
       (fun content => if JS.truthy content then yield content else gret tt))%gen
    (fun message =>
       let fallbackMessages := ERROR_FALLBACK_PROMPT originalQuery in
       let* this := await get_self in
       let* fallbackStream :=
         await
           match models this !! "openai_fast" with
           | Some openai_fast =>
               (let* s := stream openai_fast fallbackMessages in ret (Some s))%async
           | None =>
               match models this !! "google_fast" with
               | Some google_fast =>
                   (let* s := stream google_fast fallbackMessages in ret (Some s))%async
               | None => ret None
               end
           end in
       match fallbackStream with
       | Some fallbackStream =>
           for_await_stream fallbackStream
             (fun content => yield (JS.or_else content EmptyString))
       | None => yield ("Error generating response: " +:+ message)
       end)%gen.

(** The condition chain of the live search: the call of the adapter picked,
    inside its own [try]/[catch], or the placeholder when there is none. *)
Definition callAdapter (userMessage modelProvider : string)
  : Eff (Machine World t) Locals :=
  (let* this := get_self in
     match selectAdapter modelProvider (tools this) with
     | UseGoogleGrounding tool =>
         try_catch
           (log (ToolCall GoogleGroundingTool.name userMessage);;
            let* (groundedResult, sources) :=
              on_part tool put_google
                (let* groundedResult := GoogleGroundingTool._call userMessage in
                 let* tool := get_self in
                 ret (groundedResult,
                      JS.filter_Boolean
                        (map GoogleGroundingTool.url
                           (GoogleGroundingTool._parseCitations
                              (GoogleGroundingTool.cache tool
                                 !! ("grounded_" +:+ JS.toLowerCase userMessage)
                               ≫= GoogleGroundingTool.citations))))) in
            ret {| needsSearch := true;
                   searchToolUsed := "google_search_grounding";
                   searchContent := groundedResult;
                   searchSources := sources;
                   isSearchSuccessful := true |})
           (fun message =>
              ret {| needsSearch := true;
                     searchToolUsed := "google_search_grounding_failed";
                     searchContent :=
                       "Error: Google Grounding failed for " +:+ JS.dquote
                       +:+ userMessage +:+ JS.dquote +:+ ": " +:+ message;
                     searchSources := [];
                     isSearchSuccessful := false |})
     | UsePerplexity tool =>
         try_catch
           (log (ToolCall PerplexitySearchTool.name userMessage);;
            let* (perplexityResultContent, fullPerplexityResult) :=
              on_part tool put_perplexity
                (let* perplexityResultContent := PerplexitySearchTool._call userMessage in
                 let* tool := get_self in
                 ret (perplexityResultContent,
                      PerplexitySearchTool.data
                        <$> PerplexitySearchTool.cache tool !! JS.toLowerCase userMessage)) in
            ret {| needsSearch := true;
                   searchToolUsed := "perplexity_web_search";
                   searchContent := perplexityResultContent;
                   searchSources :=
                     default [] (SearchResult.sources <$> fullPerplexityResult);
                   isSearchSuccessful := true |})
           (fun message =>
              ret {| needsSearch := true;
                     searchToolUsed := "perplexity_web_search_failed";
                     searchContent :=
                       "Error: Perplexity search failed for " +:+ JS.dquote
                       +:+ userMessage +:+ JS.dquote +:+ ": " +:+ message;
                     searchSources := [];
                     isSearchSuccessful := false |})
     | NoAdapter =>
         ret {| needsSearch := false;
                searchToolUsed := "none";
                searchContent := "(No search tool available for your request.)";
                searchSources := [];
                isSearchSuccessful := false |}
     end)%async.

(** The live search on a cache miss (the [else] branch of the cache
    check): the adapter call, then the write to [this.searchCache]. *)
Definition liveSearch (userMessage modelProvider cacheKey : string)
  : Eff (Machine World t) Locals :=
  (let* locals := callAdapter userMessage modelProvider in
   if isSearchSuccessful locals then
     let* timestamp := now in
     let* this := get_self in
     set_self
       (set_searchCache cacheKey
          {| data := {| content := searchContent locals;
                        sources := searchSources locals;
                        toolUsed := searchToolUsed locals |};
             timestamp := timestamp |} this);;
     ret locals
   else ret locals)%async.

(** The search block of [processMessage]: from the declaration of the
    locals to the end of [if (needsSearch) { ... }]. *)
Definition searchStage (userMessage modelProvider : string) (needsSearch : bool)
  : Eff (Machine World t) Locals :=
  (if needsSearch then
     let cacheKey := JS.toLowerCase userMessage +:+ "-" +:+ modelProvider in
     let* this := get_self in
     match searchCache this !! cacheKey with
     | Some cachedResult =>
         let* t := now in
         if t - timestamp cachedResult <? searchCacheTTL this then
           ret {| needsSearch := true;
                  searchToolUsed := toolUsed (data cachedResult);
                  searchContent := content (data cachedResult);
                  searchSources := sources (data cachedResult);
                  isSearchSuccessful := true |}
         else liveSearch userMessage modelProvider cacheKey
     | None => liveSearch userMessage modelProvider cacheKey
     end
   else
     ret {| needsSearch := false;
            searchToolUsed := "none";
            searchContent := EmptyString;
            searchSources := [];
            isSearchSuccessful := false |})%async.

Definition metadata_of (locals : Locals) : StreamEvent :=
  EvMetadata {| Metadata.usedSearch := needsSearch locals;
                Metadata.searchTool := searchToolUsed locals;
                Metadata.searchSources := searchSources locals;
                Metadata.isSearchSuccessful := isSearchSuccessful locals |}.

Definition processMessage (userMessage modelProvider modelName : string)
    (forceSearch : bool) : Gen (Machine World t) StreamEvent unit :=
  (let* this := await get_self in
   await (log (ResolveModel modelProvider modelName));;
   match _getLLM this modelProvider modelName with
   | None =>
       yield (EvError ("Error: Model provider " +:+ JS.dquote +:+ modelProvider
                       +:+ JS.dquote +:+ " not initialized or model " +:+ JS.dquote
                       +:+ modelName +:+ JS.dquote +:+ " not found. Check API keys."));;
       yield EvEnd
   | Some llm =>
       let needsSearch := (forceSearch || shouldSearchWeb userMessage)%bool in
       gtry_finally
         (gtry_catch
            (let* locals := await (searchStage userMessage modelProvider needsSearch) in
             yield (metadata_of locals);;
             let messagesForLLM :=
               if (LangChainChatAgent.needsSearch locals && isSearchSuccessful locals)%bool
               then RAG_PROMPT_TEMPLATE (searchContent locals) userMessage
               else [ SystemMessage "You are a helpful AI assistant. Respond directly to the user's question.";
                      HumanMessage userMessage ] in
             for_await_yield (_streamGenerate llm messagesForLLM userMessage) EvChunk)
            (fun message =>
               yield (EvError (JS.or_else message
                                 "An unexpected error occurred during processing."))))
         (yield EvEnd)
   end)%gen.

End Methods.

End LangChainChatAgent.

(** ** server.js *)

Module Server.

(** [req.body]: a field that is absent is [None]. *)
Record Request := {
  message : option string;
  modelProvider : option string;
  modelName : option string;
  forceSearch : option bool
}.

(** The response stream [res]: the events of the frames written so far,
    and [res.writableEnded], which is true once [res.end()] was called. *)
Record Response := {
  frames : list StreamEvent;
  writableEnded : bool
}.

Definition fresh : Response := {| frames := []; writableEnded := false |}.

(** [res.write(`data: ${...}\n\n`)] *)
Definition write (event : StreamEvent) (res : Response) : Response :=
  {| frames := frames res ++ [event]; writableEnded := writableEnded res |}.

(** [res.end()] *)
Definition end_ (res : Response) : Response :=
  {| frames := frames res; writableEnded := true |}.

Section Handler.
Context {World : Type} `{!External World}.

Abbreviation machine := (Machine World LangChainChatAgent.t).

(** The body of [for await (const chunk of ...)] over the values the
    generator yields.  On [break] the generator is left where it last
    yielded: the state returned is the one of that yield. *)
Fixpoint for_await (chunks : list (StreamEvent * machine)) (res : Response)
  : Response * option machine :=
  match chunks with
  | [] => (res, None)
  | (chunk, s) :: chunks' =>
      if writableEnded res then (res, Some s)
      else for_await chunks' (write chunk res)
  end.

(** [app.post('/chat', async (req, res) => ...)] on the agent
    [chatAgent]. *)
Definition post_chat (req : Request) (res : Response) (s : machine)
  : Response * machine :=
  let message := message req in
  let modelProvider := default "openai" (modelProvider req) in
  let modelName := default "gpt-4-turbo" (modelName req) in
  let forceSearch := default false (forceSearch req) in
  if negb (JS.truthy_opt message) then
    let res := write (EvError "Message is required.") res in
    let res := write EvEnd res in
    (end_ res, s)
  else
    match LangChainChatAgent.processMessage
            (default EmptyString message) modelProvider modelName forceSearch s with
    | (chunks, completion, s') =>
        let '(res, s'') :=
          match for_await chunks res with
          | (res, Some broken) => (res, broken)
          | (res, None) =>
              match completion with
              | Normal _ => (res, s')
              | Throw error_message =>
                  if negb (writableEnded res) then
                    let res :=
                      write (EvError (JS.or_else error_message
                                        "An unknown streaming error occurred.")) res in
                    (write EvEnd res, s')
                  else (res, s')
              end
          end in
        (if negb (writableEnded res) then end_ res else res, s'')
    end.

End Handler.

End Server.

(** ** A scripted world

    A world whose services answer from scripts: each call takes the next
    answer of its script (a fixed answer once the script is used up) and
    advances the clock by [tick]. *)

Module Scripted.

Record World := {
  clock : Z;
  tick : Z;
  llm_script : list StreamRun;
  axios_script : list (Perplexity.Data + Perplexity.Error);
  gemini_script : list (Gemini.Response + Gemini.Error)
}.

Definition next_llm (w : World) : StreamRun * World :=
  (default {| delivered := []; failure := None |} (head (llm_script w)),
   {| clock := clock w + tick w; tick := tick w;
      llm_script := tail (llm_script w);
      axios_script := axios_script w;
      gemini_script := gemini_script w |}).

Definition next_axios (w : World) : (Perplexity.Data + Perplexity.Error) * World :=
  (default (inr {| Perplexity.response_status := None;
                   Perplexity.message := "Network Error" |})
           (head (axios_script w)),
   {| clock := clock w + tick w; tick := tick w;
      llm_script := llm_script w;
      axios_script := tail (axios_script w);
      gemini_script := gemini_script w |}).

Definition next_gemini (w : World) : (Gemini.Response + Gemini.Error) * World :=
  (default (inr {| Gemini.isFetchError := true;
                   Gemini.message := "fetch failed" |})
           (head (gemini_script w)),
   {| clock := clock w + tick w; tick := tick w;
      llm_script := llm_script w;
      axios_script := axios_script w;
      gemini_script := tail (gemini_script w) |}).

#[global] Instance external : External World := {|
  Date_now := clock;
  llm_stream := fun _ _ => next_llm;
  axios_post := fun _ _ _ => next_axios;
  generateContent := fun _ _ _ => next_gemini
|}.

(** The same world at a later time. *)
Definition at_time (t : Z) (w : World) : World :=
  {| clock := t; tick := tick w;
     llm_script := llm_script w;
     axios_script := axios_script w;
     gemini_script := gemini_script w |}.

Definition boot (keys : LangChainChatAgent.ApiKeys) (w : World)
  : Machine World LangChainChatAgent.t :=
  {| self := LangChainChatAgent.new keys; world := w; calls := [] |}.

(** A world at time [t] with the given scripts. *)
Definition scripted (t : Z) (llm : list StreamRun)
    (axios : list (Perplexity.Data + Perplexity.Error))
    (gemini : list (Gemini.Response + Gemini.Error)) : World :=
  {| clock := t; tick := 1;
     llm_script := llm; axios_script := axios; gemini_script := gemini |}.

(** Every credential configured. *)
Definition all_keys : LangChainChatAgent.ApiKeys :=
  {| LangChainChatAgent.openai := Some "sk-openai";
     LangChainChatAgent.google := Some "google-key";
     LangChainChatAgent.anthropic := Some "sk-ant";
     LangChainChatAgent.perplexity := Some "pplx-key" |}.

(** An answer of the Perplexity endpoint with one citation. *)
Definition answer (content source : string) : Perplexity.Data + Perplexity.Error :=
  inl {| Perplexity.choices_0_message_content := Some content;
         Perplexity.citations := Some [ {| Perplexity.url := Some source |} ] |}.

(** An answer of Gemini with one citation source. *)
Definition grounded (content source : string) : Gemini.Response + Gemini.Error :=
  inl {| Gemini.text := content;
         Gemini.candidates_0_citationMetadata :=
           Some {| Gemini.citationSources :=
                     Some [ {| Gemini.uri := Some source; Gemini.title := None |} ] |} |}.

(** A request with only [message] and [modelProvider]. *)
Definition ask (message modelProvider : string) : Server.Request :=
  {| Server.message := Some message;
     Server.modelProvider := Some modelProvider;
     Server.modelName := None;
     Server.forceSearch := None |}.

End Scripted.

(** * Vocabulary of the properties

    The notions the statements below are written in: kinds of events,
    the machines before and after a step, and the outcome of a run. *)

(** The kind of an event. *)
Definition is_end (e : StreamEvent) : bool :=
  match e with EvEnd => true | _ => false end.

Definition is_metadata (e : StreamEvent) : bool :=
  match e with EvMetadata _ => true | _ => false end.

Definition is_chunk (e : StreamEvent) : bool :=
  match e with EvChunk _ => true | _ => false end.

Definition is_error (e : StreamEvent) : bool :=
  match e with EvError _ => true | _ => false end.

(** The number of events of a kind in a sequence of frames. *)
Definition count (kind : StreamEvent -> bool) (l : list StreamEvent) : nat :=
  length (List.filter kind l).

(** The messages [processMessage] sends to the model, from the locals. *)
Definition messagesForLLM (locals : LangChainChatAgent.Locals) (userMessage : string)
  : list BaseMessage :=
  if (LangChainChatAgent.needsSearch locals
      && LangChainChatAgent.isSearchSuccessful locals)%bool
  then RAG_PROMPT_TEMPLATE (LangChainChatAgent.searchContent locals) userMessage
  else [ SystemMessage "You are a helpful AI assistant. Respond directly to the user's question.";
         HumanMessage userMessage ].

(** The [error] event of the top-level [catch] of [processMessage]. *)
Definition error_tail {S} (c : Completion unit) (s : S) : list (StreamEvent * S) :=
  match c with
  | Normal _ => []
  | Throw message =>
      [(EvError (JS.or_else message "An unexpected error occurred during processing."), s)]
  end.

(** The machine after a call was logged. *)
Definition logged {World Self} (c : Call) (s : Machine World Self) : Machine World Self :=
  {| self := self s; world := world s; calls := calls s ++ [c] |}.

(** The [error] event of a model that does not resolve. *)
Definition unresolved_error (modelProvider modelName : string) : StreamEvent :=
  EvError ("Error: Model provider " +:+ JS.dquote +:+ modelProvider
           +:+ JS.dquote +:+ " not initialized or model " +:+ JS.dquote
           +:+ modelName +:+ JS.dquote +:+ " not found. Check API keys.").

(** The request a handler passes to [processMessage], once [message] is
    known to be present. *)
Definition run_agent {World} `{!External World} (req : Server.Request)
    (s : Machine World LangChainChatAgent.t) :=
  LangChainChatAgent.processMessage (default EmptyString (Server.message req))
    (default "openai" (Server.modelProvider req))
    (default "gpt-4-turbo" (Server.modelName req))
    (default false (Server.forceSearch req)) s.

(** The two shapes the frames of a request can take: the abort, an [error]
    then [end]; or the pipeline, [metadata], the chunks, at most one
    [error], then [end]. *)
Inductive request_frames : list StreamEvent -> Prop :=
| frames_abort (message : string) :
    request_frames [EvError message; EvEnd]
| frames_pipeline (data : Metadata.t) (chunks : list string) (errors : list StreamEvent) :
    errors = [] \/ (exists message, errors = [EvError message]) ->
    request_frames (EvMetadata data :: map EvChunk chunks ++ errors ++ [EvEnd]).

(** The key of the dispatcher-level cache. *)
Definition cacheKey (userMessage modelProvider : string) : string :=
  JS.toLowerCase userMessage +:+ "-" +:+ modelProvider.

(** The entry [liveSearch] writes for the locals of a successful search. *)
Definition entry_of (locals : LangChainChatAgent.Locals) (timestamp : Z)
  : LangChainChatAgent.CacheEntry :=
  {| LangChainChatAgent.data :=
       {| LangChainChatAgent.content := LangChainChatAgent.searchContent locals;
          LangChainChatAgent.sources := LangChainChatAgent.searchSources locals;
          LangChainChatAgent.toolUsed := LangChainChatAgent.searchToolUsed locals |};
     LangChainChatAgent.timestamp := timestamp |}.

(** The machine after the cache write of [liveSearch]. *)
Definition stored {World} `{!External World} (key : string)
    (locals : LangChainChatAgent.Locals) (s : Machine World LangChainChatAgent.t)
  : Machine World LangChainChatAgent.t :=
  {| self := LangChainChatAgent.set_searchCache key
               (entry_of locals (Date_now (world s))) (self s);
     world := world s;
     calls := calls s |}.

(** The same machine in another world: time has passed and the services
    may have changed. *)
Definition later {World Self} (w : World) (s : Machine World Self) : Machine World Self :=
  {| self := self s; world := w; calls := calls s |}.

(** Two runs with the same observable outcome: the same completion, the
    same world afterwards and the same calls. *)
Definition same_outcome {World Self A} (r1 r2 : Completion A * Machine World Self) : Prop :=
  fst r1 = fst r2 /\ world (snd r1) = world (snd r2) /\ calls (snd r1) = calls (snd r2).

(** The machines in which the entry under a key was never stored. *)
Definition perplexity_without {World} (key : string)
    (s : Machine World PerplexitySearchTool.t) : Machine World PerplexitySearchTool.t :=
  {| self := {| PerplexitySearchTool.perplexityAgent :=
                  PerplexitySearchTool.perplexityAgent (self s);
                PerplexitySearchTool.cache := delete key (PerplexitySearchTool.cache (self s));
                PerplexitySearchTool.cacheTTL := PerplexitySearchTool.cacheTTL (self s) |};
     world := world s;
     calls := calls s |}.

Definition google_without {World} (key : string)
    (s : Machine World GoogleGroundingTool.t) : Machine World GoogleGroundingTool.t :=
  {| self := {| GoogleGroundingTool.apiKey := GoogleGroundingTool.apiKey (self s);
                GoogleGroundingTool.genAI := GoogleGroundingTool.genAI (self s);
                GoogleGroundingTool.modelName := GoogleGroundingTool.modelName (self s);
                GoogleGroundingTool.cache := delete key (GoogleGroundingTool.cache (self s));
                GoogleGroundingTool.cacheTTL := GoogleGroundingTool.cacheTTL (self s) |};
     world := world s;
     calls := calls s |}.

Definition agent_without {World} (key : string)
    (s : Machine World LangChainChatAgent.t) : Machine World LangChainChatAgent.t :=
  {| self := {| LangChainChatAgent.apiKeys := LangChainChatAgent.apiKeys (self s);
                LangChainChatAgent.models := LangChainChatAgent.models (self s);
                LangChainChatAgent.tools := LangChainChatAgent.tools (self s);
                LangChainChatAgent.searchCache :=
                  delete key (LangChainChatAgent.searchCache (self s));
                LangChainChatAgent.searchCacheTTL :=
                  LangChainChatAgent.searchCacheTTL (self s) |};
     world := world s;
     calls := calls s |}.

(** The key of the cache of the Google grounding tool. *)
Definition grounded_key (query : string) : string :=
  "grounded_" +:+ JS.toLowerCase query.

(** A computation that does not look at [this.searchCache]: with the entry
    removed beforehand it answers the same and leaves the same machine, but
    for that entry. *)
Definition cache_blind {World A} (key : string)
    (m : Eff (Machine World LangChainChatAgent.t) A) : Prop :=
  forall s, m (agent_without key s) = (fst (m s), agent_without key (snd (m s))).

(** The machine an adapter runs on when the dispatcher calls it: the tool,
    the world of the agent, and the log with the call recorded. *)
Definition tool_machine {World Tool} (tool : Tool) (name userMessage : string)
    (s : Machine World LangChainChatAgent.t) : Machine World Tool :=
  {| self := tool; world := world s; calls := calls s ++ [ToolCall name userMessage] |}.

(** The identifier of an adapter, and the name the failure note gives it. *)
Definition adapter_id (a : LangChainChatAgent.Adapter) : string :=
  match a with
  | LangChainChatAgent.UseGoogleGrounding _ => GoogleGroundingTool.name
  | LangChainChatAgent.UsePerplexity _ => PerplexitySearchTool.name
  | LangChainChatAgent.NoAdapter => "none"
  end.

Definition adapter_label (a : LangChainChatAgent.Adapter) : string :=
  match a with
  | LangChainChatAgent.UseGoogleGrounding _ => "Google Grounding"
  | LangChainChatAgent.UsePerplexity _ => "Perplexity search"
  | LangChainChatAgent.NoAdapter => EmptyString
  end.

(** The completion of the [_call] of the adapter picked, if one is. *)
Definition adapter_completion {World} `{!External World}
    (a : LangChainChatAgent.Adapter) (userMessage : string)
    (s : Machine World LangChainChatAgent.t) : option (Completion string) :=
  match a with
  | LangChainChatAgent.UseGoogleGrounding tool =>
      Some (fst (GoogleGroundingTool._call userMessage
                   (tool_machine tool GoogleGroundingTool.name userMessage s)))
  | LangChainChatAgent.UsePerplexity tool =>
      Some (fst (PerplexitySearchTool._call userMessage
                   (tool_machine tool PerplexitySearchTool.name userMessage s)))
  | LangChainChatAgent.NoAdapter => None
  end.

(** The locals after the adapter [a] failed with the error [message]. *)
Definition failed_locals (a : LangChainChatAgent.Adapter) (userMessage message : string)
  : LangChainChatAgent.Locals :=
  {| LangChainChatAgent.needsSearch := true;
     LangChainChatAgent.searchToolUsed := adapter_id a +:+ "_failed";
     LangChainChatAgent.searchContent :=
       "Error: " +:+ adapter_label a +:+ " failed for " +:+ JS.dquote
       +:+ userMessage +:+ JS.dquote +:+ ": " +:+ message;
     LangChainChatAgent.searchSources := [];
     LangChainChatAgent.isSearchSuccessful := false |}.

(** The locals after a run of the Google grounding tool. *)
Definition google_locals {World} (userMessage : string)
    (tool : GoogleGroundingTool.t)
    (r : Completion string * Machine World GoogleGroundingTool.t)
  : LangChainChatAgent.Locals :=
  match fst r with
  | Normal groundedResult =>
      {| LangChainChatAgent.needsSearch := true;
         LangChainChatAgent.searchToolUsed := "google_search_grounding";
         LangChainChatAgent.searchContent := groundedResult;
         LangChainChatAgent.searchSources :=
           JS.filter_Boolean
             (map GoogleGroundingTool.url
                (GoogleGroundingTool._parseCitations
                   (GoogleGroundingTool.cache (self (snd r))
                      !! ("grounded_" +:+ JS.toLowerCase userMessage)
                    ≫= GoogleGroundingTool.citations)));
         LangChainChatAgent.isSearchSuccessful := true |}
  | Throw message =>
      failed_locals (LangChainChatAgent.UseGoogleGrounding tool) userMessage message
  end.

(** The locals after a run of the Perplexity tool. *)
Definition perplexity_locals {World} (userMessage : string)
    (tool : PerplexitySearchTool.t)
    (r : Completion string * Machine World PerplexitySearchTool.t)
  : LangChainChatAgent.Locals :=
  match fst r with
  | Normal perplexityResultContent =>
      {| LangChainChatAgent.needsSearch := true;
         LangChainChatAgent.searchToolUsed := "perplexity_web_search";
         LangChainChatAgent.searchContent := perplexityResultContent;
         LangChainChatAgent.searchSources :=
           default [] (SearchResult.sources
                         <$> (PerplexitySearchTool.data
                                <$> PerplexitySearchTool.cache (self (snd r))
                                      !! JS.toLowerCase userMessage));
         LangChainChatAgent.isSearchSuccessful := true |}
  | Throw message =>
      failed_locals (LangChainChatAgent.UsePerplexity tool) userMessage message
  end.

(** The agent machine once a tool run is written back. *)
Definition back {World Tool} (put : Tool -> LangChainChatAgent.t -> LangChainChatAgent.t)
    (t : Machine World Tool) (s : Machine World LangChainChatAgent.t)
  : Machine World LangChainChatAgent.t :=
  {| self := put (self t) (self s); world := world t; calls := calls t |}.

(** The calls to the remote search services. *)
Definition is_GenerateContent (c : Call) : Prop :=
  exists modelName query, c = GenerateContent modelName query.

Definition is_AxiosPost (c : Call) : Prop :=
  exists baseUrl query, c = AxiosPost baseUrl query.

(** A computation that only adds calls of a kind to the log. *)
Definition emits {World Self A} (P : Call -> Prop) (m : Eff (Machine World Self) A) : Prop :=
  forall s, exists rest, calls (snd (m s)) = calls s ++ rest /\ Forall P rest.

(** Whether the dispatcher-level cache holds an entry for the key that is
    within its TTL: the condition of the cache check of [processMessage]. *)
Definition fresh_hit {World} `{!External World} (key : string)
    (s : Machine World LangChainChatAgent.t) : bool :=
  match LangChainChatAgent.searchCache (self s) !! key with
  | Some cachedResult =>
      Date_now (world s) - LangChainChatAgent.timestamp cachedResult
      <? LangChainChatAgent.searchCacheTTL (self s)
  | None => false
  end.

(** The prompt without search context. *)
Definition direct_prompt (userMessage : string) : list BaseMessage :=
  [ SystemMessage "You are a helpful AI assistant. Respond directly to the user's question.";
    HumanMessage userMessage ].

(** The fallback model as the specification words it: the fast client of
    the provider of the failed stream when there is one, otherwise a fast
    client of some other provider. *)
Definition spec_fallback (modelProvider : string) (models : gmap string ChatModel)
    (fallback : ChatModel) : Prop :=
  match models !! (modelProvider +:+ "_fast") with
  | Some fast => fallback = fast
  | None => exists other, models !! (other +:+ "_fast") = Some fallback
  end.

(** The specified behaviour on one run: the apology was streamed through a
    fallback model the specification allows. *)
Definition fallback_as_specified {World} `{!External World}
    (modelProvider : string) (llm : ChatModel) (promptMessages : list BaseMessage)
    (originalQuery : string) (s : Machine World LangChainChatAgent.t) : Prop :=
  exists fallback,
    spec_fallback modelProvider (LangChainChatAgent.models (self s)) fallback
    /\ In (LLMStream fallback (ERROR_FALLBACK_PROMPT originalQuery))
          (calls (snd (LangChainChatAgent._streamGenerate
                         llm promptMessages originalQuery s))).

(** The completion of a stream that was iterated to its end. *)
Definition stream_completion (run : StreamRun) : Completion unit :=
  match failure run with
  | Some message => Throw message
  | None => Normal tt
  end.

(** The machine after [llm.stream(messages)] answered. *)
Definition streamed {World} `{!External World} (llm : ChatModel)
    (messages : list BaseMessage) (s : Machine World LangChainChatAgent.t)
  : Machine World LangChainChatAgent.t :=
  {| self := self s;
     world := snd (llm_stream llm messages (world s));
     calls := calls s ++ [LLMStream llm messages] |}.

(** * Properties *)


(** ** The event protocol *)

Lemma count_app kind l1 l2 : count kind (l1 ++ l2) = (count kind l1 + count kind l2)%nat.
Proof. unfold count. rewrite List.filter_app, length_app. reflexivity. Qed.

Section Protocol.

Context {World : Type} `{!External World}.

Import LangChainChatAgent.

Abbreviation machine := (Machine World LangChainChatAgent.t).

(** *** The search block always completes normally *)

Lemma try_catch_ret {S A} (m : Eff S A) (h : string -> A) (s : S) :
  exists a s', try_catch m (fun e => ret (h e)) s = (Normal a, s').
Proof. unfold try_catch, ret. destruct (m s) as [[a|e] s1]; eauto. Qed.

Lemma callAdapter_total userMessage modelProvider (s : machine) :
  exists locals s', callAdapter userMessage modelProvider s = (Normal locals, s').
Proof.
  unfold callAdapter. unfold bind at 1. unfold get_self.
  destruct (selectAdapter modelProvider (tools (self s))) as [tool|tool|].
  - apply try_catch_ret.
  - apply try_catch_ret.
  - unfold ret; eauto.
Qed.

Lemma liveSearch_total userMessage modelProvider cacheKey (s : machine) :
  exists locals s', liveSearch userMessage modelProvider cacheKey s = (Normal locals, s').
Proof.
  unfold liveSearch, bind.
  destruct (callAdapter_total userMessage modelProvider s) as (l & s1 & ->).
  destruct (isSearchSuccessful l); unfold now, get_self, set_self, ret; eauto.
Qed.

Lemma searchStage_total userMessage modelProvider needs (s : machine) :
  exists locals s', searchStage userMessage modelProvider needs s = (Normal locals, s').
Proof.
  unfold searchStage. destruct needs; [|unfold ret; eauto].
  unfold bind, get_self.
  destruct (searchCache (self s) !! _) as [cachedResult|];
    [|apply liveSearch_total].
  unfold now. destruct (_ <? _); [unfold ret; eauto|apply liveSearch_total].
Qed.

(** *** The two shapes of a run of [processMessage] *)

Lemma processMessage_unresolved userMessage modelProvider modelName forceSearch
    (s : machine) :
  _getLLM (self s) modelProvider modelName = None ->
  let s1 := logged (ResolveModel modelProvider modelName) s in
  processMessage userMessage modelProvider modelName forceSearch s
  = ([(unresolved_error modelProvider modelName, s1); (EvEnd, s1)], Normal tt, s1).
Proof.
  intros Hllm. unfold processMessage, gbind, await, get_self, log. simpl.
  rewrite Hllm. reflexivity.
Qed.

Lemma processMessage_resolved userMessage modelProvider modelName forceSearch
    (s : machine) llm :
  _getLLM (self s) modelProvider modelName = Some llm ->
  exists locals s1 chunks c s2,
    searchStage userMessage modelProvider (forceSearch || shouldSearchWeb userMessage)
      (logged (ResolveModel modelProvider modelName) s) = (Normal locals, s1)
    /\ _streamGenerate llm (messagesForLLM locals userMessage) userMessage s1
       = (chunks, c, s2)
    /\ processMessage userMessage modelProvider modelName forceSearch s
       = ((metadata_of locals, s1)
            :: map (fun '(y, t) => (EvChunk y, t)) chunks
            ++ error_tail c s2 ++ [(EvEnd, s2)],
          Normal tt, s2).
Proof.
  intros Hllm.
  destruct (searchStage_total userMessage modelProvider
              (forceSearch || shouldSearchWeb userMessage)
              (logged (ResolveModel modelProvider modelName) s))
    as (locals & s1 & Hsearch).
  destruct (_streamGenerate llm (messagesForLLM locals userMessage) userMessage s1)
    as [[chunks c] s2] eqn:Hgen.
  exists locals, s1, chunks, c, s2. split; [exact Hsearch|]. split; [exact Hgen|].
  unfold processMessage, gbind at 1 2. unfold await at 1 2, get_self, log. simpl.
  rewrite Hllm.
  unfold gtry_finally, gtry_catch, gbind at 1, await.
  unfold logged in Hsearch. rewrite Hsearch.
  unfold gbind, yield, for_await_yield. fold (messagesForLLM locals userMessage).
  rewrite Hgen.
  destruct c as [[]|e]; simpl; rewrite <- ?app_assoc; reflexivity.
Qed.

(** *** The handler on an open response *)

Lemma for_await_open (chunks : list (StreamEvent * machine)) (res : Server.Response) :
  Server.writableEnded res = false ->
  Server.for_await chunks res
  = ({| Server.frames := Server.frames res ++ map fst chunks;
        Server.writableEnded := false |}, None).
Proof.
  revert res. induction chunks as [|[chunk t] chunks IH]; intros res Hopen; simpl.
  - rewrite app_nil_r. destruct res; simpl in *; subst; reflexivity.
  - rewrite Hopen. rewrite IH by exact Hopen. simpl.
    rewrite <- app_assoc. reflexivity.
Qed.

Lemma post_chat_missing (req : Server.Request) (s : machine) :
  JS.truthy_opt (Server.message req) = false ->
  Server.post_chat req Server.fresh s
  = ({| Server.frames := [EvError "Message is required."; EvEnd];
        Server.writableEnded := true |}, s).
Proof. intros Hm. unfold Server.post_chat. rewrite Hm. reflexivity. Qed.

Lemma post_chat_present (req : Server.Request) (s : machine) chunks s' :
  JS.truthy_opt (Server.message req) = true ->
  run_agent req s = (chunks, Normal tt, s') ->
  Server.post_chat req Server.fresh s
  = ({| Server.frames := map fst chunks; Server.writableEnded := true |}, s').
Proof.
  intros Hm Hrun. unfold Server.post_chat. rewrite Hm. simpl.
  unfold run_agent in Hrun. rewrite Hrun.
  rewrite for_await_open by reflexivity. reflexivity.
Qed.

(** *** The frames of a request *)

Lemma map_fst_chunks {S} (chunks : list (string * S)) :
  map fst (map (fun '(y, t) => (EvChunk y, t)) chunks) = map EvChunk (map fst chunks).
Proof. induction chunks as [|[y t] chunks IH]; simpl; [reflexivity|]. by rewrite IH. Qed.

Lemma error_tail_cases {S} (c : Completion unit) (s : S) :
  map fst (error_tail c s) = [] \/ exists message, map fst (error_tail c s) = [EvError message].
Proof. destruct c as [[]|e]; simpl; eauto. Qed.

Lemma post_chat_resolved (req : Server.Request) (s : machine) llm :
  JS.truthy_opt (Server.message req) = true ->
  _getLLM (self s) (default "openai" (Server.modelProvider req))
    (default "gpt-4-turbo" (Server.modelName req)) = Some llm ->
  exists locals chunks errors,
    Server.frames (fst (Server.post_chat req Server.fresh s))
    = metadata_of locals :: map EvChunk chunks ++ errors ++ [EvEnd]
    /\ (errors = [] \/ exists message, errors = [EvError message]).
Proof.
  intros Hm Hllm.
  destruct (processMessage_resolved (default EmptyString (Server.message req)) _ _
              (default false (Server.forceSearch req)) s llm Hllm)
    as (locals & s1 & chunks & c & s2 & _ & _ & Hrun).
  rewrite (post_chat_present req s _ s2 Hm Hrun). simpl.
  exists locals, (map fst chunks), (map fst (error_tail c s2)).
  split; [|apply error_tail_cases].
  rewrite !map_app, map_fst_chunks. reflexivity.
Qed.

Lemma post_chat_frames (req : Server.Request) (s : machine) :
  request_frames (Server.frames (fst (Server.post_chat req Server.fresh s))).
Proof.
  destruct (JS.truthy_opt (Server.message req)) eqn:Hm.
  - destruct (_getLLM (self s) (default "openai" (Server.modelProvider req))
                (default "gpt-4-turbo" (Server.modelName req))) as [llm|] eqn:Hllm.
    + destruct (post_chat_resolved req s llm Hm Hllm) as (l & cs & es & -> & Hes).
      apply frames_pipeline, Hes.
    + pose proof (processMessage_unresolved (default EmptyString (Server.message req)) _ _
                    (default false (Server.forceSearch req)) s Hllm) as Hrun.
      simpl in Hrun. rewrite (post_chat_present req s _ _ Hm Hrun). simpl.
      apply frames_abort.
  - rewrite (post_chat_missing req s Hm). simpl. apply frames_abort.
Qed.

Lemma count_chunks kind (chunks : list string) :
  (forall y, kind (EvChunk y) = false) -> count kind (map EvChunk chunks) = 0%nat.
Proof.
  intros Hk. unfold count.
  induction chunks as [|y chunks IH]; simpl; [reflexivity|].
  rewrite Hk. exact IH.
Qed.

Lemma request_frames_end (l : list StreamEvent) :
  request_frames l -> count is_end l = 1%nat /\ last l = Some EvEnd.
Proof.
  destruct 1 as [message|data chunks errors Herr].
  - split; reflexivity.
  - split.
    + change (EvMetadata data :: map EvChunk chunks ++ errors ++ [EvEnd])
        with ([EvMetadata data] ++ map EvChunk chunks ++ errors ++ [EvEnd]).
      rewrite !count_app, count_chunks by reflexivity.
      destruct Herr as [->|[message ->]]; reflexivity.
    + rewrite app_comm_cons, app_assoc. apply last_snoc.
Qed.

End Protocol.

(** ** C1: one [end], last *)

(** C1. For every request, whatever the world answers, the frames written
    to a fresh response hold exactly one [end] event, and it is the last
    frame.  The statement covers the four paths: streaming to the end, the
    model that does not resolve, the missing [message], and the exception
    caught by the top-level [catch] of [processMessage]. *)
Theorem C1_one_end_last {World : Type} `{!External World}
    (req : Server.Request) (s : Machine World LangChainChatAgent.t) :
  let frames := Server.frames (fst (Server.post_chat req Server.fresh s)) in
  count is_end frames = 1%nat /\ last frames = Some EvEnd.
Proof. apply request_frames_end, post_chat_frames. Qed.

(** The four paths, in the scripted world: the missing [message]; a
    provider without credential; a stream that runs to its end; and a stream
    that breaks, followed by a fallback stream that breaks too, which the
    top-level [catch] of [processMessage] turns into an [error] event. *)
Example path_missing_message :
  Server.frames
    (fst (Server.post_chat
            {| Server.message := None; Server.modelProvider := None;
               Server.modelName := None; Server.forceSearch := None |}
            Server.fresh
            (Scripted.boot Scripted.all_keys (Scripted.scripted 0 [] [] []))))
  = [EvError "Message is required."; EvEnd].
Proof. vm_compute. reflexivity. Qed.

Example path_unresolved_model :
  map is_end
    (Server.frames
       (fst (Server.post_chat (Scripted.ask "hi" "unknown_provider") Server.fresh
               (Scripted.boot Scripted.all_keys (Scripted.scripted 0 [] [] [])))))
  = [false; true].
Proof. vm_compute. reflexivity. Qed.

Example path_streaming :
  Server.frames
    (fst (Server.post_chat (Scripted.ask "hi" "anthropic") Server.fresh
            (Scripted.boot Scripted.all_keys
               (Scripted.scripted 0
                  [ {| delivered := ["Hel"; ""; "lo"]; failure := None |} ] [] []))))
  = [ EvMetadata {| Metadata.usedSearch := false; Metadata.searchTool := "none";
                    Metadata.searchSources := []; Metadata.isSearchSuccessful := false |};
      EvChunk "Hel"; EvChunk "lo"; EvEnd ].
Proof. vm_compute. reflexivity. Qed.

Example path_top_level_catch :
  Server.frames
    (fst (Server.post_chat (Scripted.ask "hi" "anthropic") Server.fresh
            (Scripted.boot Scripted.all_keys
               (Scripted.scripted 0
                  [ {| delivered := ["Hel"]; failure := Some "overloaded" |};
                    {| delivered := ["Sor"]; failure := Some "rate limit" |} ] [] []))))
  = [ EvMetadata {| Metadata.usedSearch := false; Metadata.searchTool := "none";
                    Metadata.searchSources := []; Metadata.isSearchSuccessful := false |};
      EvChunk "Hel"; EvChunk "Sor"; EvError "rate limit"; EvEnd ].
Proof. vm_compute. reflexivity. Qed.

(** ** C2: one [metadata], before the chunks *)

(** C2. A request with a [message] whose model resolves reaches the search
    decision; its frames then start with a [metadata] event, and no other
    frame is a [metadata] event: there is exactly one, and it comes before
    every [chunk]. *)
Theorem C2_one_metadata_first {World : Type} `{!External World}
    (req : Server.Request) (s : Machine World LangChainChatAgent.t) (llm : ChatModel) :
  JS.truthy_opt (Server.message req) = true ->
  LangChainChatAgent._getLLM (self s)
    (default "openai" (Server.modelProvider req))
    (default "gpt-4-turbo" (Server.modelName req)) = Some llm ->
  let frames := Server.frames (fst (Server.post_chat req Server.fresh s)) in
  count is_metadata frames = 1%nat
  /\ exists data rest,
       frames = EvMetadata data :: rest
       /\ count is_metadata rest = 0%nat.
Proof.
  intros Hm Hllm frames. subst frames.
  destruct (post_chat_resolved req s llm Hm Hllm) as (l & cs & es & -> & Hes).
  assert (Hrest : count is_metadata (map EvChunk cs ++ es ++ [EvEnd]) = 0%nat).
  { rewrite !count_app, count_chunks by reflexivity.
    destruct Hes as [->|[message ->]]; reflexivity. }
  split.
  - change (LangChainChatAgent.metadata_of l :: map EvChunk cs ++ es ++ [EvEnd])
      with ([LangChainChatAgent.metadata_of l] ++ (map EvChunk cs ++ es ++ [EvEnd])).
    rewrite count_app, Hrest. reflexivity.
  - eexists _, _. split; [reflexivity|exact Hrest].
Qed.

Lemma C2_one_metadata_first_witness :
  let req := Scripted.ask "hi" "openai" in
  let s := Scripted.boot Scripted.all_keys
             (Scripted.scripted 0 [ {| delivered := ["Hello"; "!"]; failure := None |} ] [] []) in
  Server.frames (fst (Server.post_chat req Server.fresh s))
  = [ EvMetadata {| Metadata.usedSearch := false; Metadata.searchTool := "none";
                    Metadata.searchSources := []; Metadata.isSearchSuccessful := false |};
      EvChunk "Hello"; EvChunk "!"; EvEnd ]
  /\ count is_metadata (Server.frames (fst (Server.post_chat req Server.fresh s))) = 1%nat.
Proof.
  intros req s. split; [vm_compute; reflexivity|].
  apply (C2_one_metadata_first req s
           (LangChainChatAgent.mkChat ChatOpenAI (Some "sk-openai") "gpt-4-turbo" 2));
    vm_compute; reflexivity.
Defined.

(** ** C3: the missing [message] *)

(** C3. When [message] is missing or empty the handler writes exactly
    [error] then [end], closes the response and leaves the agent, the world
    and the call log as they were: no model is resolved and no search is
    made. *)
Theorem C3_missing_message {World : Type} `{!External World}
    (req : Server.Request) (s : Machine World LangChainChatAgent.t) :
  Server.message req = None \/ Server.message req = Some EmptyString ->
  let '(res, s') := Server.post_chat req Server.fresh s in
  Server.frames res = [EvError "Message is required."; EvEnd]
  /\ count is_metadata (Server.frames res) = 0%nat
  /\ count is_chunk (Server.frames res) = 0%nat
  /\ Server.writableEnded res = true
  /\ s' = s
  /\ calls s' = calls s.
Proof.
  intros Hm. rewrite post_chat_missing.
  - repeat split; reflexivity.
  - destruct Hm as [-> | ->]; reflexivity.
Qed.

Lemma C3_missing_message_witness :
  let req := {| Server.message := Some EmptyString;
                Server.modelProvider := Some "google";
                Server.modelName := None;
                Server.forceSearch := Some true |} in
  let s := Scripted.boot Scripted.all_keys (Scripted.scripted 0 [] [] []) in
  Server.frames (fst (Server.post_chat req Server.fresh s))
  = [EvError "Message is required."; EvEnd]
  /\ calls (snd (Server.post_chat req Server.fresh s)) = [].
Proof.
  intros req s.
  pose proof (C3_missing_message req s (or_intror eq_refl)) as H.
  destruct (Server.post_chat req Server.fresh s) as [res s'].
  destruct H as (Hf & _ & _ & _ & _ & Hc). split; [exact Hf|exact Hc].
Defined.

(** ** C9: the search decision *)

(** C9. [shouldSearchWeb] is a function of the message text alone, and on
    the three sample messages it answers true, false and true. *)
Theorem C9_shouldSearchWeb_samples :
  LangChainChatAgent.shouldSearchWeb "search for the capital of France" = true
  /\ LangChainChatAgent.shouldSearchWeb "explain quantum entanglement" = false
  /\ LangChainChatAgent.shouldSearchWeb "latest news today" = true.
Proof. repeat split; vm_compute; reflexivity. Qed.

(** ** The dispatcher-level cache *)

Section DispatcherCache.

Context {World : Type} `{!External World}.

Import LangChainChatAgent.

Abbreviation machine := (Machine World LangChainChatAgent.t).

Lemma searchStage_hit userMessage modelProvider (s : machine) cachedResult :
  searchCache (self s) !! cacheKey userMessage modelProvider = Some cachedResult ->
  Date_now (world s) - timestamp cachedResult < searchCacheTTL (self s) ->
  searchStage userMessage modelProvider true s
  = (Normal {| needsSearch := true;
               searchToolUsed := toolUsed (data cachedResult);
               searchContent := content (data cachedResult);
               searchSources := sources (data cachedResult);
               isSearchSuccessful := true |}, s).
Proof.
  intros Hlook Hfresh. unfold searchStage, bind, get_self, now.
  fold (cacheKey userMessage modelProvider). rewrite Hlook.
  apply Z.ltb_lt in Hfresh. rewrite Hfresh. reflexivity.
Qed.

Lemma searchStage_absent userMessage modelProvider (s : machine) :
  searchCache (self s) !! cacheKey userMessage modelProvider = None ->
  searchStage userMessage modelProvider true s
  = liveSearch userMessage modelProvider (cacheKey userMessage modelProvider) s.
Proof.
  intros Hlook. unfold searchStage, bind at 1, get_self.
  fold (cacheKey userMessage modelProvider). rewrite Hlook. reflexivity.
Qed.

Lemma searchStage_expired userMessage modelProvider (s : machine) cachedResult :
  searchCache (self s) !! cacheKey userMessage modelProvider = Some cachedResult ->
  searchCacheTTL (self s) <= Date_now (world s) - timestamp cachedResult ->
  searchStage userMessage modelProvider true s
  = liveSearch userMessage modelProvider (cacheKey userMessage modelProvider) s.
Proof.
  intros Hlook Hold. unfold searchStage, bind at 1 2, get_self, now.
  fold (cacheKey userMessage modelProvider). rewrite Hlook.
  apply Z.ltb_ge in Hold. rewrite Hold. reflexivity.
Qed.

Lemma liveSearch_stored userMessage modelProvider key (s : machine) locals s1 :
  callAdapter userMessage modelProvider s = (Normal locals, s1) ->
  liveSearch userMessage modelProvider key s
  = (Normal locals, if isSearchSuccessful locals then stored key locals s1 else s1).
Proof.
  intros Hcall. unfold liveSearch, bind at 1. rewrite Hcall.
  destruct (isSearchSuccessful locals); reflexivity.
Qed.

(** What a run of the search block leaves in the cache under its key when
    it reports success: the content and the sources it returned. *)
Lemma searchStage_success_cached userMessage modelProvider needs (s : machine) locals s1 :
  searchStage userMessage modelProvider needs s = (Normal locals, s1) ->
  isSearchSuccessful locals = true ->
  exists cachedResult,
    searchCache (self s1) !! cacheKey userMessage modelProvider = Some cachedResult
    /\ content (data cachedResult) = searchContent locals
    /\ sources (data cachedResult) = searchSources locals
    /\ toolUsed (data cachedResult) = searchToolUsed locals.
Proof.
  intros Hrun Hok.
  assert (Hlive : liveSearch userMessage modelProvider
                    (cacheKey userMessage modelProvider) s = (Normal locals, s1) ->
                  exists cachedResult,
                    searchCache (self s1) !! cacheKey userMessage modelProvider
                    = Some cachedResult
                    /\ content (data cachedResult) = searchContent locals
                    /\ sources (data cachedResult) = searchSources locals
                    /\ toolUsed (data cachedResult) = searchToolUsed locals).
  { intros Hl.
    destruct (callAdapter_total userMessage modelProvider s) as (l & s0 & Hcall).
    rewrite (liveSearch_stored _ _ _ _ _ _ Hcall) in Hl.
    injection Hl as -> <-. rewrite Hok. simpl.
    eexists. split; [apply lookup_insert_eq|]. simpl. auto. }
  destruct needs.
  - destruct (searchCache (self s) !! cacheKey userMessage modelProvider)
      as [cachedResult|] eqn:Hlook.
    + destruct (Z.lt_ge_cases (Date_now (world s) - timestamp cachedResult)
                  (searchCacheTTL (self s))) as [Hfresh|Hold].
      * rewrite (searchStage_hit _ _ _ _ Hlook Hfresh) in Hrun.
        injection Hrun as <- <-. exists cachedResult. simpl. auto.
      * rewrite (searchStage_expired _ _ _ _ Hlook Hold) in Hrun. auto.
    + rewrite (searchStage_absent _ _ _ Hlook) in Hrun. auto.
  - unfold searchStage, ret in Hrun. injection Hrun as <- <-. discriminate Hok.
Qed.

End DispatcherCache.

(** ** C5: the second dispatch within the TTL *)

(** C5. Let a dispatch of [(query, provider)] report success.  Its result
    is then in the dispatcher-level cache, and a second dispatch of the same
    pair, in any later world whose clock is within the TTL of the stored
    entry, reports success with the same [content] and [sources] and leaves
    the machine as it found it: the call log does not grow, so no adapter
    was called, and the world was not touched. *)
Theorem C5_second_dispatch_cached {World : Type} `{!External World}
    (query provider : string) (needs : bool)
    (s s1 : Machine World LangChainChatAgent.t) (first : LangChainChatAgent.Locals) :
  LangChainChatAgent.searchStage query provider needs s = (Normal first, s1) ->
  LangChainChatAgent.isSearchSuccessful first = true ->
  (exists stored_entry,
     LangChainChatAgent.searchCache (self s1) !! cacheKey query provider
     = Some stored_entry)
  /\ forall stored_entry w2,
       LangChainChatAgent.searchCache (self s1) !! cacheKey query provider
       = Some stored_entry ->
       Date_now w2 - LangChainChatAgent.timestamp stored_entry
       < LangChainChatAgent.searchCacheTTL (self s1) ->
       exists second,
         LangChainChatAgent.searchStage query provider true (later w2 s1)
         = (Normal second, later w2 s1)
         /\ LangChainChatAgent.searchContent second
            = LangChainChatAgent.searchContent first
         /\ LangChainChatAgent.searchSources second
            = LangChainChatAgent.searchSources first
         /\ LangChainChatAgent.isSearchSuccessful second = true
         /\ calls (later w2 s1) = calls s1.
Proof.
  intros Hrun Hok.
  destruct (searchStage_success_cached _ _ _ _ _ _ Hrun Hok)
    as (cachedResult & Hlook & Hcontent & Hsources & _).
  split; [eauto|].
  intros stored_entry w2 Hlook2 Hfresh.
  rewrite Hlook in Hlook2. injection Hlook2 as <-.
  eexists. split.
  - apply (searchStage_hit query provider (later w2 s1) cachedResult Hlook Hfresh).
  - simpl. auto.
Qed.

(** ** Expired entries *)

Section Expiry.

Context {World : Type} `{!External World}.

(** *** The cache of the Perplexity tool *)

Lemma perplexity_call_absent query (s : Machine World PerplexitySearchTool.t) :
  PerplexitySearchTool.cache (self s) !! JS.toLowerCase query = None ->
  PerplexitySearchTool._call query s
  = PerplexitySearchTool._call_live query (JS.toLowerCase query) s.
Proof.
  intros Hlook. unfold PerplexitySearchTool._call, bind at 1, get_self.
  rewrite Hlook. reflexivity.
Qed.

Lemma perplexity_call_expired query (s : Machine World PerplexitySearchTool.t) cachedResult :
  PerplexitySearchTool.cache (self s) !! JS.toLowerCase query = Some cachedResult ->
  PerplexitySearchTool.cacheTTL (self s)
  <= Date_now (world s) - PerplexitySearchTool.timestamp cachedResult ->
  PerplexitySearchTool._call query s
  = PerplexitySearchTool._call_live query (JS.toLowerCase query) s.
Proof.
  intros Hlook Hold. unfold PerplexitySearchTool._call, bind at 1 2, get_self, now.
  rewrite Hlook. apply Z.ltb_ge in Hold. rewrite Hold. reflexivity.
Qed.

Lemma perplexity_live_without query key (s : Machine World PerplexitySearchTool.t) :
  same_outcome (PerplexitySearchTool._call_live query key s)
               (PerplexitySearchTool._call_live query key (perplexity_without key s)).
Proof.
  unfold same_outcome, PerplexitySearchTool._call_live, PerplexitySearchAgent.searchWeb.
  unfold try_catch, bind, get_self, set_self, now, log, remote, throw, ret. simpl.
  destruct (negb _); simpl; [auto|].
  destruct (axios_post _ _ _ _) as [[data|error] w]; simpl; auto.
Qed.

(** *** The cache of the Google grounding tool *)

Lemma google_call_absent query (s : Machine World GoogleGroundingTool.t) :
  GoogleGroundingTool.cache (self s) !! grounded_key query = None ->
  GoogleGroundingTool._call query s
  = if (negb (JS.truthy_opt (GoogleGroundingTool.apiKey (self s)))
        || negb (GoogleGroundingTool.genAI (self s)))%bool
    then (Throw "Google API key is not set. Cannot perform Google Grounding.", s)
    else GoogleGroundingTool._call_live query (grounded_key query) s.
Proof.
  intros Hlook. unfold GoogleGroundingTool._call, bind at 1, get_self.
  destruct (_ || _)%bool; [reflexivity|].
  fold (grounded_key query). rewrite Hlook. reflexivity.
Qed.

Lemma google_call_expired query (s : Machine World GoogleGroundingTool.t) cachedResult :
  GoogleGroundingTool.cache (self s) !! grounded_key query = Some cachedResult ->
  GoogleGroundingTool.cacheTTL (self s)
  <= Date_now (world s) - GoogleGroundingTool.timestamp cachedResult ->
  GoogleGroundingTool._call query s
  = if (negb (JS.truthy_opt (GoogleGroundingTool.apiKey (self s)))
        || negb (GoogleGroundingTool.genAI (self s)))%bool
    then (Throw "Google API key is not set. Cannot perform Google Grounding.", s)
    else GoogleGroundingTool._call_live query (grounded_key query) s.
Proof.
  intros Hlook Hold. unfold GoogleGroundingTool._call, bind at 1, get_self.
  destruct (_ || _)%bool; [reflexivity|].
  fold (grounded_key query). rewrite Hlook. unfold bind at 1, now.
  apply Z.ltb_ge in Hold. rewrite Hold. reflexivity.
Qed.

Lemma google_live_without query key (s : Machine World GoogleGroundingTool.t) :
  same_outcome (GoogleGroundingTool._call_live query key s)
               (GoogleGroundingTool._call_live query key (google_without key s)).
Proof.
  unfold same_outcome, GoogleGroundingTool._call_live.
  unfold bind, get_self, set_self, now, log, remote, throw, ret. simpl.
  destruct (generateContent _ _ _ _) as [[response|error] w]; simpl; [auto|].
  destruct (Gemini.isFetchError error); simpl; auto.
Qed.

(** *** The dispatcher-level cache *)

Lemma bind_get_self {Self A} (k : Self -> Eff (Machine World Self) A) s :
  bind get_self k s = k (self s) s.
Proof. reflexivity. Qed.

Lemma blind_ret {A} key (a : A) : cache_blind (World := World) key (ret a).
Proof. intros s. reflexivity. Qed.

Lemma blind_log key c : cache_blind (World := World) key (log c).
Proof. intros s. reflexivity. Qed.

Lemma blind_bind {A B} key (m : Eff _ A) (k : A -> Eff _ B) :
  cache_blind (World := World) key m -> (forall a, cache_blind key (k a)) -> cache_blind key (bind m k).
Proof.
  intros Hm Hk s. unfold bind. rewrite Hm.
  destruct (m s) as [[a|e] s1]; simpl; [apply Hk|reflexivity].
Qed.

Lemma blind_try_catch {A} key (m : Eff _ A) (h : string -> Eff _ A) :
  cache_blind (World := World) key m -> (forall e, cache_blind key (h e)) -> cache_blind key (try_catch m h).
Proof.
  intros Hm Hh s. unfold try_catch. rewrite Hm.
  destruct (m s) as [[a|e] s1]; simpl; [reflexivity|apply Hh].
Qed.

Lemma blind_on_google {A} key tool (m : Eff (Machine World GoogleGroundingTool.t) A) :
  cache_blind key (on_part tool LangChainChatAgent.put_google m).
Proof. intros s. unfold on_part. simpl. destruct (m _) as [c t]. reflexivity. Qed.

Lemma blind_on_perplexity {A} key tool (m : Eff (Machine World PerplexitySearchTool.t) A) :
  cache_blind key (on_part tool LangChainChatAgent.put_perplexity m).
Proof. intros s. unfold on_part. simpl. destruct (m _) as [c t]. reflexivity. Qed.

Lemma callAdapter_without userMessage modelProvider key :
  cache_blind key (LangChainChatAgent.callAdapter userMessage modelProvider).
Proof.
  intros s. unfold LangChainChatAgent.callAdapter. rewrite !bind_get_self.
  change (LangChainChatAgent.tools (self (agent_without key s)))
    with (LangChainChatAgent.tools (self s)).
  destruct (LangChainChatAgent.selectAdapter modelProvider
              (LangChainChatAgent.tools (self s))) as [tool|tool|].
  - apply blind_try_catch; [|intros; apply blind_ret].
    apply blind_bind; [apply blind_log|intros _].
    apply blind_bind; [apply blind_on_google|intros [r src]; apply blind_ret].
  - apply blind_try_catch; [|intros; apply blind_ret].
    apply blind_bind; [apply blind_log|intros _].
    apply blind_bind; [apply blind_on_perplexity|intros [r src]; apply blind_ret].
  - apply blind_ret.
Qed.

Lemma liveSearch_without userMessage modelProvider key
    (s : Machine World LangChainChatAgent.t) :
  same_outcome (LangChainChatAgent.liveSearch userMessage modelProvider key s)
               (LangChainChatAgent.liveSearch userMessage modelProvider key
                  (agent_without key s)).
Proof.
  unfold same_outcome, LangChainChatAgent.liveSearch, bind.
  rewrite callAdapter_without.
  destruct (LangChainChatAgent.callAdapter userMessage modelProvider s) as [[locals|e] s1];
    simpl; [|auto].
  destruct (LangChainChatAgent.isSearchSuccessful locals); simpl; auto.
Qed.

End Expiry.

(** ** C6: an expired entry is a miss *)

(** C6. In each of the three caches (the Perplexity tool, the Google
    grounding tool, the dispatcher), a lookup that finds an entry with
    [ttl <= now - timestamp] has the outcome of the same lookup on a machine
    in which the entry was never stored: the same completion, the same
    world, the same calls.  The stored value is therefore not what is
    returned.  The bound is inclusive: at [now - timestamp = ttl] the entry is
    expired. *)
Theorem C6_expired_entry_is_miss {World : Type} `{!External World} :
  (forall (s : Machine World PerplexitySearchTool.t) query cachedResult,
      PerplexitySearchTool.cache (self s) !! JS.toLowerCase query = Some cachedResult ->
      PerplexitySearchTool.cacheTTL (self s)
      <= Date_now (world s) - PerplexitySearchTool.timestamp cachedResult ->
      same_outcome (PerplexitySearchTool._call query s)
                   (PerplexitySearchTool._call query
                      (perplexity_without (JS.toLowerCase query) s)))
  /\ (forall (s : Machine World GoogleGroundingTool.t) query cachedResult,
        GoogleGroundingTool.cache (self s) !! grounded_key query = Some cachedResult ->
        GoogleGroundingTool.cacheTTL (self s)
        <= Date_now (world s) - GoogleGroundingTool.timestamp cachedResult ->
        same_outcome (GoogleGroundingTool._call query s)
                     (GoogleGroundingTool._call query
                        (google_without (grounded_key query) s)))
  /\ (forall (s : Machine World LangChainChatAgent.t) userMessage modelProvider cachedResult,
        LangChainChatAgent.searchCache (self s) !! cacheKey userMessage modelProvider
        = Some cachedResult ->
        LangChainChatAgent.searchCacheTTL (self s)
        <= Date_now (world s) - LangChainChatAgent.timestamp cachedResult ->
        same_outcome (LangChainChatAgent.searchStage userMessage modelProvider true s)
                     (LangChainChatAgent.searchStage userMessage modelProvider true
                        (agent_without (cacheKey userMessage modelProvider) s))).
Proof.
  split; [|split].
  - intros s query cachedResult Hlook Hold.
    rewrite (perplexity_call_expired query s cachedResult Hlook Hold).
    rewrite (perplexity_call_absent query (perplexity_without _ s))
      by (simpl; apply lookup_delete_eq).
    apply perplexity_live_without.
  - intros s query cachedResult Hlook Hold.
    rewrite (google_call_expired query s cachedResult Hlook Hold).
    rewrite (google_call_absent query (google_without _ s))
      by (simpl; apply lookup_delete_eq).
    simpl. destruct (_ || _)%bool.
    + repeat split.
    + apply google_live_without.
  - intros s userMessage modelProvider cachedResult Hlook Hold.
    rewrite (searchStage_expired userMessage modelProvider s cachedResult Hlook Hold).
    rewrite (searchStage_absent userMessage modelProvider (agent_without _ s))
      by (simpl; apply lookup_delete_eq).
    apply liveSearch_without.
Qed.

Lemma C6_expired_entry_is_miss_witness :
  let stale_p := {| PerplexitySearchTool.data :=
                      {| SearchResult.content := "stale"; SearchResult.sources := [];
                         SearchResult.citations := [] |};
                    PerplexitySearchTool.timestamp := 1000 |} in
  let sp : Machine Scripted.World PerplexitySearchTool.t :=
    {| self := PerplexitySearchTool.set_cache "q" stale_p
                 (PerplexitySearchTool.new (Some "pplx-key"));
       world := Scripted.scripted 301000 [] [Scripted.answer "fresh" "https://a.example"] [];
       calls := [] |} in
  let stale_g := {| GoogleGroundingTool.data := "stale";
                    GoogleGroundingTool.timestamp := 1000;
                    GoogleGroundingTool.citations := None |} in
  let sg : Machine Scripted.World GoogleGroundingTool.t :=
    {| self := GoogleGroundingTool.set_cache "grounded_q" stale_g
                 (GoogleGroundingTool.new (Some "google-key"));
       world := Scripted.scripted 301000 [] [] [Scripted.grounded "fresh" "https://g.example"];
       calls := [] |} in
  let stale_d := {| LangChainChatAgent.data :=
                      {| LangChainChatAgent.content := "stale";
                         LangChainChatAgent.sources := [];
                         LangChainChatAgent.toolUsed := "perplexity_web_search" |};
                    LangChainChatAgent.timestamp := 1000 |} in
  let sd : Machine Scripted.World LangChainChatAgent.t :=
    {| self := LangChainChatAgent.set_searchCache "q-openai" stale_d
                 (LangChainChatAgent.new Scripted.all_keys);
       world := Scripted.scripted 301000 [] [Scripted.answer "fresh" "https://a.example"] [];
       calls := [] |} in
  fst (PerplexitySearchTool._call "Q" sp) = Normal "fresh"
  /\ fst (GoogleGroundingTool._call "Q" sg) = Normal "fresh"
  /\ LangChainChatAgent.searchContent
       <$> match fst (LangChainChatAgent.searchStage "Q" "openai" true sd) with
           | Normal locals => Some locals
           | Throw _ => None
           end = Some "fresh".
Proof.
  intros stale_p sp stale_g sg stale_d sd.
  destruct (@C6_expired_entry_is_miss Scripted.World _) as (HP & HG & HD).
  split; [|split].
  - destruct (HP sp "Q" stale_p) as (-> & _);
      [vm_compute; reflexivity | vm_compute; discriminate | vm_compute; reflexivity].
  - destruct (HG sg "Q" stale_g) as (-> & _);
      [vm_compute; reflexivity | vm_compute; discriminate | vm_compute; reflexivity].
  - destruct (HD sd "Q" "openai" stale_d) as (-> & _);
      [vm_compute; reflexivity | vm_compute; discriminate | vm_compute; reflexivity].
Defined.

Lemma C5_second_dispatch_cached_witness :
  let s := Scripted.boot Scripted.all_keys
             (Scripted.scripted 1000 [] [Scripted.answer "Paris" "https://a.example"] []) in
  let s1 := snd (LangChainChatAgent.searchStage "Capital of France" "openai" true s) in
  let w2 := Scripted.at_time 300000 (world s1) in
  exists second,
    LangChainChatAgent.searchStage "Capital of France" "openai" true (later w2 s1)
    = (Normal second, later w2 s1)
    /\ LangChainChatAgent.searchContent second = "Paris"
    /\ LangChainChatAgent.searchSources second = ["https://a.example"]
    /\ LangChainChatAgent.isSearchSuccessful second = true
    /\ calls (later w2 s1) = calls s1.
Proof.
  intros s s1 w2.
  set (first := {| LangChainChatAgent.needsSearch := true;
                   LangChainChatAgent.searchToolUsed := "perplexity_web_search";
                   LangChainChatAgent.searchContent := "Paris";
                   LangChainChatAgent.searchSources := ["https://a.example"];
                   LangChainChatAgent.isSearchSuccessful := true |}).
  assert (Hrun : LangChainChatAgent.searchStage "Capital of France" "openai" true s
                 = (Normal first, s1)) by (vm_compute; reflexivity).
  destruct (C5_second_dispatch_cached "Capital of France" "openai" true s s1 first
              Hrun eq_refl) as [_ Hsecond].
  apply (Hsecond (entry_of first 1001) w2).
  - vm_compute. reflexivity.
  - vm_compute. reflexivity.
Defined.

(** ** The adapter call *)

Section AdapterCall.

Context {World : Type} `{!External World}.

Import LangChainChatAgent.

Abbreviation machine := (Machine World LangChainChatAgent.t).

Lemma callAdapter_google userMessage modelProvider (s : machine) tool :
  selectAdapter modelProvider (tools (self s)) = UseGoogleGrounding tool ->
  let r := GoogleGroundingTool._call userMessage
             (tool_machine tool GoogleGroundingTool.name userMessage s) in
  callAdapter userMessage modelProvider s
  = (Normal (google_locals userMessage tool r), back put_google (snd r) s).
Proof.
  intros Hsel r. unfold callAdapter. rewrite bind_get_self, Hsel.
  unfold try_catch, bind, log, on_part, get_self, ret.
  change (GoogleGroundingTool._call userMessage _) with r.
  unfold google_locals, back. destruct r as [[groundedResult|message] t]; reflexivity.
Qed.

Lemma callAdapter_perplexity userMessage modelProvider (s : machine) tool :
  selectAdapter modelProvider (tools (self s)) = UsePerplexity tool ->
  let r := PerplexitySearchTool._call userMessage
             (tool_machine tool PerplexitySearchTool.name userMessage s) in
  callAdapter userMessage modelProvider s
  = (Normal (perplexity_locals userMessage tool r), back put_perplexity (snd r) s).
Proof.
  intros Hsel r. unfold callAdapter. rewrite bind_get_self, Hsel.
  unfold try_catch, bind, log, on_part, get_self, ret.
  change (PerplexitySearchTool._call userMessage _) with r.
  unfold perplexity_locals, back. destruct r as [[content|message] t]; reflexivity.
Qed.

Lemma callAdapter_none userMessage modelProvider (s : machine) :
  selectAdapter modelProvider (tools (self s)) = NoAdapter ->
  callAdapter userMessage modelProvider s
  = (Normal {| needsSearch := false;
               searchToolUsed := "none";
               searchContent := "(No search tool available for your request.)";
               searchSources := [];
               isSearchSuccessful := false |}, s).
Proof. intros Hsel. unfold callAdapter. rewrite bind_get_self, Hsel. reflexivity. Qed.

(** *** What the tools add to the log *)

Lemma google_call_emits query :
  emits is_GenerateContent (GoogleGroundingTool._call (World := World) query).
Proof.
  intros s.
  assert (Hlive : exists rest,
             calls (snd (GoogleGroundingTool._call_live query (grounded_key query) s))
             = calls s ++ rest /\ Forall is_GenerateContent rest).
  { unfold GoogleGroundingTool._call_live, bind, get_self, set_self, now, log, remote,
      throw, ret. simpl.
    exists [GenerateContent (GoogleGroundingTool.modelName (self s)) query].
    split; [|repeat constructor; eexists _, _; reflexivity].
    destruct (generateContent _ _ _ _) as [[response|error] w]; simpl; [reflexivity|].
    destruct (Gemini.isFetchError error); reflexivity. }
  unfold GoogleGroundingTool._call, bind at 1, get_self.
  destruct (_ || _)%bool; [exists []; rewrite app_nil_r; split; [reflexivity|constructor]|].
  fold (grounded_key query).
  destruct (GoogleGroundingTool.cache (self s) !! grounded_key query) as [cachedResult|];
    [|exact Hlive].
  unfold bind at 1, now. destruct (_ <? _); [|exact Hlive].
  exists []. rewrite app_nil_r. split; [reflexivity|constructor].
Qed.

Lemma perplexity_call_emits query :
  emits is_AxiosPost (PerplexitySearchTool._call (World := World) query).
Proof.
  intros s.
  assert (Hlive : exists rest,
             calls (snd (PerplexitySearchTool._call_live query (JS.toLowerCase query) s))
             = calls s ++ rest /\ Forall is_AxiosPost rest).
  { unfold PerplexitySearchTool._call_live, PerplexitySearchAgent.searchWeb.
    unfold try_catch, bind, get_self, set_self, now, log, remote, throw, ret. simpl.
    destruct (negb _); simpl.
    - exists []. rewrite app_nil_r. split; [reflexivity|constructor].
    - eexists [AxiosPost _ query].
      split; [|repeat constructor; eexists _, _; reflexivity].
      destruct (axios_post _ _ _ _) as [[data|error] w]; reflexivity. }
  unfold PerplexitySearchTool._call, bind at 1, get_self.
  destruct (PerplexitySearchTool.cache (self s) !! JS.toLowerCase query) as [cachedResult|];
    [|exact Hlive].
  unfold bind at 1, now. destruct (_ <? _); [|exact Hlive].
  exists []. rewrite app_nil_r. split; [reflexivity|constructor].
Qed.

End AdapterCall.

(** ** Dispatch *)

Section Dispatch.

Context {World : Type} `{!External World}.

Import LangChainChatAgent.

Abbreviation machine := (Machine World LangChainChatAgent.t).

Lemma searchStage_miss userMessage modelProvider (s : machine) :
  fresh_hit (cacheKey userMessage modelProvider) s = false ->
  searchStage userMessage modelProvider true s
  = liveSearch userMessage modelProvider (cacheKey userMessage modelProvider) s.
Proof.
  unfold fresh_hit. intros Hmiss.
  destruct (searchCache (self s) !! cacheKey userMessage modelProvider)
    as [cachedResult|] eqn:Hlook.
  - apply (searchStage_expired _ _ _ _ Hlook). apply Z.ltb_ge, Hmiss.
  - apply (searchStage_absent _ _ _ Hlook).
Qed.

Lemma searchStage_fresh userMessage modelProvider (s : machine) :
  fresh_hit (cacheKey userMessage modelProvider) s = true ->
  exists locals,
    searchStage userMessage modelProvider true s = (Normal locals, s)
    /\ isSearchSuccessful locals = true.
Proof.
  unfold fresh_hit. intros Hhit.
  destruct (searchCache (self s) !! cacheKey userMessage modelProvider)
    as [cachedResult|] eqn:Hlook; [|discriminate].
  eexists. split; [|shelve].
  apply (searchStage_hit _ _ _ _ Hlook). apply Z.ltb_lt, Hhit.
  Unshelve. reflexivity.
Qed.

(** The adapter call leaves the dispatcher-level cache and its TTL alone,
    and logs the call of the adapter it picked, followed only by calls to
    the remote search services. *)
Lemma callAdapter_frame userMessage modelProvider (s : machine) :
  let adapter := selectAdapter modelProvider (tools (self s)) in
  let s1 := snd (callAdapter userMessage modelProvider s) in
  searchCache (self s1) = searchCache (self s)
  /\ searchCacheTTL (self s1) = searchCacheTTL (self s)
  /\ adapter_id (selectAdapter modelProvider (tools (self s1))) = adapter_id adapter
  /\ exists rest,
       calls s1
       = calls s ++ match adapter with
                    | NoAdapter => []
                    | _ => ToolCall (adapter_id adapter) userMessage :: rest
                    end
       /\ Forall (fun c => is_GenerateContent c \/ is_AxiosPost c) rest.
Proof.
  intros adapter s1. subst adapter s1.
  destruct (selectAdapter modelProvider (tools (self s))) as [tool|tool|] eqn:Hsel.
  - rewrite (callAdapter_google _ _ _ _ Hsel). simpl.
    repeat split.
    + unfold selectAdapter in *.
      destruct (modelProvider =? "google")%string; simpl in *; [reflexivity|].
      destruct (perplexity_web_search (tools (self s))); discriminate.
    + destruct (google_call_emits userMessage
                  (tool_machine tool GoogleGroundingTool.name userMessage s))
        as (rest & -> & Hrest).
      exists rest. simpl. rewrite <- app_assoc. split; [reflexivity|].
      eapply Forall_impl; [exact Hrest|]. auto.
  - rewrite (callAdapter_perplexity _ _ _ _ Hsel). simpl.
    repeat split.
    + unfold selectAdapter in *. simpl.
      destruct (JS.and_then _ _); [discriminate|reflexivity].
    + destruct (perplexity_call_emits userMessage
                  (tool_machine tool PerplexitySearchTool.name userMessage s))
        as (rest & -> & Hrest).
      exists rest. simpl. rewrite <- app_assoc. split; [reflexivity|].
      eapply Forall_impl; [exact Hrest|]. auto.
  - rewrite (callAdapter_none _ _ _ Hsel). simpl. rewrite Hsel.
    repeat split. exists []. rewrite app_nil_r. split; [reflexivity|constructor].
Qed.

Lemma callAdapter_failed userMessage modelProvider (s : machine) message :
  adapter_completion (selectAdapter modelProvider (tools (self s))) userMessage s
  = Some (Throw message) ->
  fst (callAdapter userMessage modelProvider s)
  = Normal (failed_locals (selectAdapter modelProvider (tools (self s)))
              userMessage message).
Proof.
  destruct (selectAdapter modelProvider (tools (self s))) as [tool|tool|] eqn:Hsel;
    simpl; intros Hfail; [| |discriminate].
  - rewrite (callAdapter_google _ _ _ _ Hsel). simpl. unfold google_locals.
    injection Hfail as ->. reflexivity.
  - rewrite (callAdapter_perplexity _ _ _ _ Hsel). simpl. unfold perplexity_locals.
    injection Hfail as ->. reflexivity.
Qed.

End Dispatch.

(** ** C8: the grounding adapter comes first *)

(** C8. When the Google grounding tool is configured, a dispatch for the
    provider [google] picks it, whether or not the Perplexity tool is
    configured too: the live search logs the call of the grounding tool and,
    after it, only calls to Gemini.  The Perplexity tool is picked only when
    the provider is not [google] or no grounding tool is configured. *)
Theorem C8_google_uses_grounding {World : Type} `{!External World}
    (s : Machine World LangChainChatAgent.t) (userMessage : string)
    (grounding : GoogleGroundingTool.t) :
  LangChainChatAgent.google_search_grounding (LangChainChatAgent.tools (self s))
  = Some grounding ->
  LangChainChatAgent.selectAdapter "google" (LangChainChatAgent.tools (self s))
  = LangChainChatAgent.UseGoogleGrounding grounding
  /\ (exists rest,
        calls (snd (LangChainChatAgent.callAdapter userMessage "google" s))
        = calls s ++ ToolCall "google_search_grounding" userMessage :: rest
        /\ Forall is_GenerateContent rest)
  /\ (forall modelProvider tools tool,
        LangChainChatAgent.selectAdapter modelProvider tools
        = LangChainChatAgent.UsePerplexity tool ->
        modelProvider <> "google"
        \/ LangChainChatAgent.google_search_grounding tools = None).
Proof.
  intros Hconf.
  assert (Hsel : LangChainChatAgent.selectAdapter "google" (LangChainChatAgent.tools (self s))
                 = LangChainChatAgent.UseGoogleGrounding grounding).
  { unfold LangChainChatAgent.selectAdapter. rewrite Hconf. reflexivity. }
  split; [exact Hsel|]. split.
  - rewrite (callAdapter_google _ _ _ _ Hsel). simpl.
    destruct (google_call_emits userMessage
                (tool_machine grounding GoogleGroundingTool.name userMessage s))
      as (rest & -> & Hrest).
    exists rest. simpl. rewrite <- app_assoc. split; [reflexivity|exact Hrest].
  - intros modelProvider tools tool. unfold LangChainChatAgent.selectAdapter.
    destruct (String.eqb_spec modelProvider "google") as [->|Hne]; [|auto].
    simpl. destruct (LangChainChatAgent.google_search_grounding tools); [discriminate|auto].
Qed.

Lemma C8_google_uses_grounding_witness :
  let s := Scripted.boot Scripted.all_keys
             (Scripted.scripted 0 [] [Scripted.answer "from perplexity" "https://a.example"]
                                     [Scripted.grounded "from gemini" "https://g.example"]) in
  LangChainChatAgent.perplexity_web_search (LangChainChatAgent.tools (self s))
  = Some (PerplexitySearchTool.new (Some "pplx-key"))
  /\ LangChainChatAgent.selectAdapter "google" (LangChainChatAgent.tools (self s))
     = LangChainChatAgent.UseGoogleGrounding (GoogleGroundingTool.new (Some "google-key"))
  /\ calls (snd (LangChainChatAgent.callAdapter "weather in Paris" "google" s))
     = [ToolCall "google_search_grounding" "weather in Paris";
        GenerateContent "gemini-2.5-pro" "weather in Paris"].
Proof.
  intros s. split; [reflexivity|].
  destruct (C8_google_uses_grounding s "weather in Paris"
              (GoogleGroundingTool.new (Some "google-key")) eq_refl) as (Hsel & _ & _).
  split; [exact Hsel|]. vm_compute. reflexivity.
Defined.

(** ** C7: a failing adapter *)

(** C7. Let the model resolve, the request need a search, the dispatcher
    cache hold no fresh entry, and the [_call] of the adapter picked throw
    an error with [message].  Then the search block completes normally with
    [isSearchSuccessful = false], [searchToolUsed] the identifier of the
    adapter followed by [_failed], no sources, and a [searchContent] that
    ends with [message]; the [metadata] event reports it, and generation
    runs on the direct prompt.  The frames hold an [error] event only if
    generation itself throws. *)
Theorem C7_adapter_failure_is_soft {World : Type} `{!External World}
    (s : Machine World LangChainChatAgent.t)
    (userMessage modelProvider modelName : string) (forceSearch : bool)
    (llm : ChatModel) (message : string) :
  LangChainChatAgent._getLLM (self s) modelProvider modelName = Some llm ->
  (forceSearch || LangChainChatAgent.shouldSearchWeb userMessage)%bool = true ->
  let s0 := logged (ResolveModel modelProvider modelName) s in
  let adapter :=
    LangChainChatAgent.selectAdapter modelProvider (LangChainChatAgent.tools (self s0)) in
  fresh_hit (cacheKey userMessage modelProvider) s0 = false ->
  adapter_completion adapter userMessage s0 = Some (Throw message) ->
  exists s1 chunks c s2,
    LangChainChatAgent.searchStage userMessage modelProvider true s0
    = (Normal (failed_locals adapter userMessage message), s1)
    /\ LangChainChatAgent._streamGenerate llm (direct_prompt userMessage) userMessage s1
       = (chunks, c, s2)
    /\ LangChainChatAgent.processMessage userMessage modelProvider modelName forceSearch s
       = ((EvMetadata {| Metadata.usedSearch := true;
                         Metadata.searchTool := adapter_id adapter +:+ "_failed";
                         Metadata.searchSources := [];
                         Metadata.isSearchSuccessful := false |}, s1)
            :: map (fun '(y, t) => (EvChunk y, t)) chunks
            ++ error_tail c s2 ++ [(EvEnd, s2)],
          Normal tt, s2)
    /\ (c = Normal tt ->
        count is_error
          (map fst (fst (fst (LangChainChatAgent.processMessage
                                userMessage modelProvider modelName forceSearch s))))
        = 0%nat).
Proof.
  intros Hllm Hneeds s0 adapter Hmiss Hfail.
  destruct (processMessage_resolved userMessage modelProvider modelName forceSearch s llm Hllm)
    as (locals & s1 & chunks & c & s2 & Hsearch & Hgen & Hrun).
  rewrite Hneeds in Hsearch. fold s0 in Hsearch.
  assert (Hlocals : locals = failed_locals adapter userMessage message).
  { rewrite (searchStage_miss _ _ _ Hmiss) in Hsearch.
    destruct (callAdapter_total userMessage modelProvider s0) as (l & t & Hcall).
    rewrite (liveSearch_stored _ _ _ _ _ _ Hcall) in Hsearch.
    pose proof (callAdapter_failed userMessage modelProvider s0 message Hfail) as Hl.
    rewrite Hcall in Hl. simpl in Hl. injection Hl as ->.
    injection Hsearch as <- _. reflexivity. }
  subst locals. exists s1, chunks, c, s2.
  split; [exact Hsearch|]. split; [exact Hgen|]. split; [exact Hrun|].
  intros ->. rewrite Hrun. simpl.
  rewrite map_app, map_fst_chunks. simpl.
  change (count is_error ([] ++ map EvChunk (map fst chunks) ++ [EvEnd]) = 0%nat).
  rewrite !count_app, count_chunks by reflexivity. reflexivity.
Qed.

Lemma C7_adapter_failure_is_soft_witness :
  let s := Scripted.boot Scripted.all_keys
             (Scripted.scripted 0 [ {| delivered := ["I cannot "; "browse."]; failure := None |} ]
                [ inr {| Perplexity.response_status := Some 503;
                         Perplexity.message := "Request failed" |} ] []) in
  map fst (fst (fst (LangChainChatAgent.processMessage
                       "latest news" "openai" "gpt-4-turbo" false s)))
  = [ EvMetadata {| Metadata.usedSearch := true;
                    Metadata.searchTool := "perplexity_web_search_failed";
                    Metadata.searchSources := [];
                    Metadata.isSearchSuccessful := false |};
      EvChunk "I cannot "; EvChunk "browse."; EvEnd ]
  /\ fst (LangChainChatAgent.searchStage "latest news" "openai" true
            (logged (ResolveModel "openai" "gpt-4-turbo") s))
     = Normal (failed_locals
                 (LangChainChatAgent.UsePerplexity (PerplexitySearchTool.new (Some "pplx-key")))
                 "latest news"
                 "Failed to perform Perplexity search: Perplexity API error: 503").
Proof.
  intros s.
  destruct (C7_adapter_failure_is_soft s "latest news" "openai" "gpt-4-turbo" false
              (LangChainChatAgent.mkChat ChatOpenAI (Some "sk-openai") "gpt-4-turbo" 2)
              "Failed to perform Perplexity search: Perplexity API error: 503")
    as (s1 & chunks & c & s2 & Hsearch & _ & _ & _);
    [vm_compute; reflexivity .. |].
  split; [vm_compute; reflexivity|].
  rewrite Hsearch. reflexivity.
Defined.

(** ** C10: only successes are cached *)

Section OnlySuccess.

Context {World : Type} `{!External World}.

Import LangChainChatAgent.

(** The write of the search block: it happens exactly when the search was
    needed, the cache check missed, and the live search succeeded. *)
Lemma searchStage_write userMessage modelProvider needs
    (s s1 : Machine World LangChainChatAgent.t) locals :
  searchStage userMessage modelProvider needs s = (Normal locals, s1) ->
  searchCache (self s1)
  = if (needs && negb (fresh_hit (cacheKey userMessage modelProvider) s)
        && isSearchSuccessful locals)%bool
    then <[cacheKey userMessage modelProvider := entry_of locals (Date_now (world s1))]>
           (searchCache (self s))
    else searchCache (self s).
Proof.
  intros Hrun. destruct needs; simpl.
  - destruct (fresh_hit (cacheKey userMessage modelProvider) s) eqn:Hhit; simpl.
    + destruct (searchStage_fresh _ _ _ Hhit) as (l & Hl & _).
      rewrite Hl in Hrun. injection Hrun as _ <-. reflexivity.
    + rewrite (searchStage_miss _ _ _ Hhit) in Hrun.
      destruct (callAdapter_total userMessage modelProvider s) as (l & t & Hcall).
      rewrite (liveSearch_stored _ _ _ _ _ _ Hcall) in Hrun.
      injection Hrun as -> <-.
      destruct (callAdapter_frame userMessage modelProvider s) as (Hcache & _).
      rewrite Hcall in Hcache. simpl in Hcache.
      destruct (isSearchSuccessful locals); simpl; rewrite Hcache; reflexivity.
  - unfold searchStage, ret in Hrun. injection Hrun as _ <-. reflexivity.
Qed.

(** After a failed adapter call, the same request in a later world calls
    the adapter again. *)
Lemma searchStage_retry userMessage modelProvider
    (s s1 : Machine World LangChainChatAgent.t) locals (w2 : World) :
  searchStage userMessage modelProvider true s = (Normal locals, s1) ->
  needsSearch locals = true ->
  isSearchSuccessful locals = false ->
  Date_now (world s) <= Date_now w2 ->
  exists rest,
    calls (snd (searchStage userMessage modelProvider true (later w2 s1)))
    = calls s1
      ++ ToolCall (adapter_id (selectAdapter modelProvider (tools (self s)))) userMessage
      :: rest.
Proof.
  intros Hrun Hneeds Hfail Hmono.
  destruct (fresh_hit (cacheKey userMessage modelProvider) s) eqn:Hhit.
  { destruct (searchStage_fresh _ _ _ Hhit) as (l & Hl & Hok).
    rewrite Hl in Hrun. injection Hrun as -> _. congruence. }
  rewrite (searchStage_miss _ _ _ Hhit) in Hrun.
  destruct (callAdapter_total userMessage modelProvider s) as (l & t & Hcall).
  rewrite (liveSearch_stored _ _ _ _ _ _ Hcall) in Hrun.
  injection Hrun as -> Hs1. rewrite Hfail in Hs1. subst t.
  destruct (callAdapter_frame userMessage modelProvider s) as (Hcache & Httl & Hid & _).
  rewrite Hcall in Hcache, Httl, Hid. simpl in Hcache, Httl, Hid.
  assert (Hhit2 : fresh_hit (cacheKey userMessage modelProvider) (later w2 s1) = false).
  { unfold fresh_hit in *. simpl. rewrite Hcache, Httl.
    destruct (searchCache (self s) !! cacheKey userMessage modelProvider)
      as [cachedResult|]; [|reflexivity].
    apply Z.ltb_ge. apply Z.ltb_ge in Hhit. lia. }
  rewrite (searchStage_miss _ _ _ Hhit2).
  destruct (callAdapter_total userMessage modelProvider (later w2 s1)) as (l2 & t2 & Hcall2).
  rewrite (liveSearch_stored _ _ _ _ _ _ Hcall2).
  destruct (callAdapter_frame userMessage modelProvider (later w2 s1))
    as (_ & _ & _ & rest & Hcalls & _).
  rewrite Hcall2 in Hcalls. simpl in Hcalls.
  assert (Hadapter : selectAdapter modelProvider (tools (self s1)) <> NoAdapter).
  { intros Hnone.
    assert (Hs : selectAdapter modelProvider (tools (self s)) = NoAdapter).
    { rewrite Hnone in Hid. simpl in Hid.
      destruct (selectAdapter modelProvider (tools (self s))); [discriminate ..|reflexivity]. }
    rewrite (callAdapter_none _ _ _ Hs) in Hcall. injection Hcall as <- _.
    discriminate Hneeds. }
  exists rest. rewrite <- Hid.
  assert (Hgoal : calls t2
                  = calls s1
                    ++ ToolCall (adapter_id (selectAdapter modelProvider (tools (self s1))))
                         userMessage :: rest).
  { destruct (selectAdapter modelProvider (tools (self s1))); [exact Hcalls ..|congruence]. }
  destruct (isSearchSuccessful l2); simpl; exact Hgoal.
Qed.

End OnlySuccess.

(** C10. The search block writes the dispatcher-level cache exactly when it
    ran a live search that succeeded; a failed adapter call and the
    placeholder for no adapter leave the cache as it was.  After a failed
    adapter call, the same request in any later world calls the adapter
    again. *)
Theorem C10_only_success_is_cached {World : Type} `{!External World}
    (userMessage modelProvider : string) (needs : bool)
    (s s1 : Machine World LangChainChatAgent.t) (locals : LangChainChatAgent.Locals) :
  LangChainChatAgent.searchStage userMessage modelProvider needs s = (Normal locals, s1) ->
  LangChainChatAgent.searchCache (self s1)
  = (if (needs && negb (fresh_hit (cacheKey userMessage modelProvider) s)
         && LangChainChatAgent.isSearchSuccessful locals)%bool
     then <[cacheKey userMessage modelProvider := entry_of locals (Date_now (world s1))]>
            (LangChainChatAgent.searchCache (self s))
     else LangChainChatAgent.searchCache (self s))
  /\ (LangChainChatAgent.isSearchSuccessful locals = false ->
      LangChainChatAgent.searchCache (self s1) = LangChainChatAgent.searchCache (self s))
  /\ (forall w2,
        needs = true ->
        LangChainChatAgent.needsSearch locals = true ->
        LangChainChatAgent.isSearchSuccessful locals = false ->
        Date_now (world s) <= Date_now w2 ->
        exists rest,
          calls (snd (LangChainChatAgent.searchStage userMessage modelProvider true
                        (later w2 s1)))
          = calls s1
            ++ ToolCall (adapter_id (LangChainChatAgent.selectAdapter modelProvider
                                       (LangChainChatAgent.tools (self s))))
                        userMessage
            :: rest).
Proof.
  intros Hrun.
  pose proof (searchStage_write _ _ _ _ _ _ Hrun) as Hwrite.
  split; [exact Hwrite|]. split.
  - intros Hfail. rewrite Hwrite, Hfail, andb_false_r. reflexivity.
  - intros w2 -> Hneeds Hfail Hmono.
    apply (searchStage_retry _ _ _ _ _ _ Hrun Hneeds Hfail Hmono).
Qed.

Lemma C10_only_success_is_cached_witness :
  let failing := inr {| Perplexity.response_status := None;
                        Perplexity.message := "timeout" |} in
  let s := Scripted.boot Scripted.all_keys (Scripted.scripted 0 [] [failing; failing] []) in
  let s1 := snd (LangChainChatAgent.searchStage "latest news" "anthropic" true s) in
  LangChainChatAgent.searchCache (self s1) = ∅
  /\ calls s1
     = [ToolCall "perplexity_web_search" "latest news";
        AxiosPost "https://api.perplexity.ai/chat/completions" "latest news"]
  /\ exists rest,
       calls (snd (LangChainChatAgent.searchStage "latest news" "anthropic" true
                     (later (Scripted.at_time 5 (world s1)) s1)))
       = calls s1 ++ ToolCall "perplexity_web_search" "latest news" :: rest.
Proof.
  intros failing s s1.
  set (locals := failed_locals
                   (LangChainChatAgent.UsePerplexity (PerplexitySearchTool.new (Some "pplx-key")))
                   "latest news"
                   "Failed to perform Perplexity search: Perplexity API error: timeout").
  assert (Hrun : LangChainChatAgent.searchStage "latest news" "anthropic" true s
                 = (Normal locals, s1)) by (vm_compute; reflexivity).
  destruct (C10_only_success_is_cached "latest news" "anthropic" true s s1 locals Hrun)
    as (_ & Hkeep & Hretry).
  split; [exact (Hkeep eq_refl)|]. split; [vm_compute; reflexivity|].
  apply (Hretry (Scripted.at_time 5 (world s1)) eq_refl eq_refl eq_refl).
  vm_compute. discriminate.
Defined.

(** ** C4: the fallback of the streaming generator *)

Section Fallback.

Context {World : Type} `{!External World}.

Import LangChainChatAgent.

Abbreviation machine := (Machine World LangChainChatAgent.t).

Lemma for_of_yield {X Y} (f : X -> Y) (l : list X) (s : machine) :
  for_of l (fun x => yield (f x)) s = (map (fun x => (f x, s)) l, Normal tt, s).
Proof.
  induction l as [|x l IH]; cbn [for_of]; [reflexivity|].
  unfold gbind at 1, yield at 1. rewrite IH. reflexivity.
Qed.

Lemma for_of_truthy (l : list string) (s : machine) :
  for_of l (fun content => if JS.truthy content then yield content else gret tt) s
  = (map (fun content => (content, s)) (List.filter JS.truthy l), Normal tt, s).
Proof.
  induction l as [|x l IH]; cbn [for_of List.filter]; [reflexivity|].
  unfold gbind at 1. destruct (JS.truthy x); [unfold yield at 1|unfold gret at 1];
    rewrite IH; reflexivity.
Qed.

Lemma for_await_stream_run {Y} (run : StreamRun)
    (body : string -> Gen machine Y unit) (s : machine) ys :
  for_of (delivered run) body s = (ys, Normal tt, s) ->
  for_await_stream run body s = (ys, stream_completion run, s).
Proof.
  intros Hbody. unfold for_await_stream, gbind. rewrite Hbody.
  unfold stream_completion. destruct (failure run); unfold gthrow, gret;
    rewrite app_nil_r; reflexivity.
Qed.

Lemma stream_run {Self} llm messages (s : Machine World Self) :
  stream llm messages s
  = (Normal (fst (llm_stream llm messages (world s))),
     {| self := self s;
        world := snd (llm_stream llm messages (world s));
        calls := calls s ++ [LLMStream llm messages] |}).
Proof.
  unfold stream, bind, log, remote. simpl.
  destruct (llm_stream llm messages (world s)); reflexivity.
Qed.

(** A run of [_streamGenerate] whose first stream fails, when a fallback
    model [fast] is picked. *)
Lemma streamGenerate_fallback llm promptMessages originalQuery (s : machine) message fast :
  failure (fst (llm_stream llm promptMessages (world s))) = Some message ->
  (models (self s) !! "openai_fast" = Some fast
   \/ (models (self s) !! "openai_fast" = None
       /\ models (self s) !! "google_fast" = Some fast)) ->
  let s1 := streamed llm promptMessages s in
  let fallbackMessages := ERROR_FALLBACK_PROMPT originalQuery in
  let s2 := streamed fast fallbackMessages s1 in
  _streamGenerate llm promptMessages originalQuery s
  = (map (fun content => (content, s1))
       (List.filter JS.truthy (delivered (fst (llm_stream llm promptMessages (world s)))))
     ++ map (fun content => (JS.or_else content EmptyString, s2))
          (delivered (fst (llm_stream fast fallbackMessages (world s1)))),
     stream_completion (fst (llm_stream fast fallbackMessages (world s1))),
     s2).
Proof.
  intros Hfail Hfast s1 fallbackMessages s2.
  unfold _streamGenerate, gtry_catch.
  unfold gbind at 1, await at 1. rewrite stream_run. fold (streamed llm promptMessages s).
  fold s1.
  rewrite (for_await_stream_run _ _ s1 _ (for_of_truthy _ s1)).
  unfold stream_completion at 1. rewrite Hfail.
  unfold gbind at 1, await at 1, get_self.
  assert (Hpick : (match models (self s1) !! "openai_fast" with
                   | Some openai_fast =>
                       (let* s := stream openai_fast fallbackMessages in ret (Some s))%async
                   | None =>
                       match models (self s1) !! "google_fast" with
                       | Some google_fast =>
                           (let* s := stream google_fast fallbackMessages in ret (Some s))%async
                       | None => ret None
                       end
                   end) s1
                  = (Normal (Some (fst (llm_stream fast fallbackMessages (world s1)))), s2)).
  { change (self s1) with (self s).
    destruct Hfast as [-> | [-> ->]];
      unfold bind; rewrite stream_run; reflexivity. }
  unfold gbind at 1, await at 1. fold fallbackMessages. rewrite Hpick.
  rewrite (for_await_stream_run _ _ s2 _ (for_of_yield _ _ s2)).
  rewrite app_nil_l. reflexivity.
Qed.

End Fallback.

(** C4, as stated, fails.  Every credential is configured, so the agent has
    an [anthropic_fast] client.  A stream of the Anthropic capable model
    breaks after one chunk; the apology is then streamed through
    [openai_fast], and no call goes to [anthropic_fast]. *)
Lemma C4_fallback_counterexample :
  let s := Scripted.boot Scripted.all_keys
             (Scripted.scripted 0
                [ {| delivered := ["Par"]; failure := Some "overloaded" |};
                  {| delivered := ["Sorry."]; failure := None |} ] [] []) in
  let anthropic_capable :=
    LangChainChatAgent.mkChat ChatAnthropic (Some "sk-ant") "claude-3-sonnet-20240229" 2 in
  let anthropic_fast :=
    LangChainChatAgent.mkChat ChatAnthropic (Some "sk-ant") "claude-3-haiku-20240307" 7 in
  let openai_fast :=
    LangChainChatAgent.mkChat ChatOpenAI (Some "sk-openai") "gpt-3.5-turbo" 7 in
  LangChainChatAgent._getLLM (self s) "anthropic" "claude-3-sonnet-20240229"
  = Some anthropic_capable
  /\ LangChainChatAgent.models (self s) !! "anthropic_fast" = Some anthropic_fast
  /\ calls (snd (LangChainChatAgent._streamGenerate
                   anthropic_capable (direct_prompt "hi") "hi" s))
     = [ LLMStream anthropic_capable (direct_prompt "hi");
         LLMStream openai_fast (ERROR_FALLBACK_PROMPT "hi") ]
  /\ ~ fallback_as_specified "anthropic" anthropic_capable (direct_prompt "hi") "hi" s.
Proof.
  intros s anthropic_capable anthropic_fast openai_fast.
  split; [vm_compute; reflexivity|]. split; [vm_compute; reflexivity|].
  assert (Hcalls : calls (snd (LangChainChatAgent._streamGenerate
                                 anthropic_capable (direct_prompt "hi") "hi" s))
                   = [ LLMStream anthropic_capable (direct_prompt "hi");
                       LLMStream openai_fast (ERROR_FALLBACK_PROMPT "hi") ])
    by (vm_compute; reflexivity).
  split; [exact Hcalls|].
  intros (fallback & Hspec & Hin). rewrite Hcalls in Hin.
  assert (Hfast : LangChainChatAgent.models (self s) !! ("anthropic" +:+ "_fast")
                  = Some anthropic_fast) by (vm_compute; reflexivity).
  unfold spec_fallback in Hspec. rewrite Hfast in Hspec. subst fallback.
  destruct Hin as [Hin|[Hin|[]]]; discriminate Hin.
Qed.

(** C4, amended.  When the first stream fails, the generator has yielded
    the non-empty chunks received so far and goes on with the apology for
    the original query, streamed through [openai_fast] when that client is
    configured and through [google_fast] when it is not and [google_fast]
    is; the model of the failed stream plays no part in the choice.  The
    log shows the two calls. *)
Theorem C4_fallback_openai_then_google {World : Type} `{!External World}
    (s : Machine World LangChainChatAgent.t) (llm : ChatModel)
    (promptMessages : list BaseMessage) (originalQuery message : string)
    (fast : ChatModel) :
  failure (fst (llm_stream llm promptMessages (world s))) = Some message ->
  (LangChainChatAgent.models (self s) !! "openai_fast" = Some fast
   \/ (LangChainChatAgent.models (self s) !! "openai_fast" = None
       /\ LangChainChatAgent.models (self s) !! "google_fast" = Some fast)) ->
  let primary := fst (llm_stream llm promptMessages (world s)) in
  let s1 := streamed llm promptMessages s in
  let apology := fst (llm_stream fast (ERROR_FALLBACK_PROMPT originalQuery) (world s1)) in
  let r := LangChainChatAgent._streamGenerate llm promptMessages originalQuery s in
  map fst (fst (fst r))
  = List.filter JS.truthy (delivered primary)
    ++ map (fun content => JS.or_else content EmptyString) (delivered apology)
  /\ snd (fst r) = stream_completion apology
  /\ calls (snd r)
     = calls s ++ [ LLMStream llm promptMessages;
                    LLMStream fast (ERROR_FALLBACK_PROMPT originalQuery) ].
Proof.
  intros Hfail Hfast primary s1 apology r. subst r.
  rewrite (streamGenerate_fallback llm promptMessages originalQuery s message fast Hfail Hfast).
  simpl. split; [|split].
  - rewrite map_app, !map_map. simpl. rewrite map_id. reflexivity.
  - reflexivity.
  - rewrite <- app_assoc. reflexivity.
Qed.

Lemma C4_fallback_openai_then_google_witness :
  let s := Scripted.boot Scripted.all_keys
             (Scripted.scripted 0
                [ {| delivered := ["Par"; ""]; failure := Some "overloaded" |};
                  {| delivered := ["Sorry."; ""]; failure := None |} ] [] []) in
  let anthropic_capable :=
    LangChainChatAgent.mkChat ChatAnthropic (Some "sk-ant") "claude-3-sonnet-20240229" 2 in
  let openai_fast :=
    LangChainChatAgent.mkChat ChatOpenAI (Some "sk-openai") "gpt-3.5-turbo" 7 in
  let r := LangChainChatAgent._streamGenerate anthropic_capable (direct_prompt "hi") "hi" s in
  map fst (fst (fst r)) = ["Par"; "Sorry."; EmptyString]
  /\ snd (fst r) = Normal tt
  /\ calls (snd r) = [ LLMStream anthropic_capable (direct_prompt "hi");
                       LLMStream openai_fast (ERROR_FALLBACK_PROMPT "hi") ].
Proof.
  intros s anthropic_capable openai_fast r.
  assert (Hfail : failure (fst (llm_stream anthropic_capable (direct_prompt "hi") (world s)))
                  = Some "overloaded") by (vm_compute; reflexivity).
  assert (Hfast : LangChainChatAgent.models (self s) !! "openai_fast" = Some openai_fast)
    by (vm_compute; reflexivity).
  pose proof (C4_fallback_openai_then_google s anthropic_capable (direct_prompt "hi") "hi"
                "overloaded" openai_fast Hfail (or_introl Hfast)) as H.
  subst r. vm_compute in H. vm_compute. exact H.
Defined.

(** * Further properties of the code *)

(** ** Vocabulary *)

(** Every phrase [shouldSearchWeb] looks for: the explicit commands, the
    time-sensitive keywords, the dynamic-fact phrasings. *)
Definition triggers : list string :=
  ["search for"; "look up"; "find information on"; "web search for"]
  ++ LangChainChatAgent.timeSensitiveKeywords
  ++ ["who is the current"; "what is the stock price"; "weather in";
      "election results"; "current events"; "what's happening"].


(** The credential of a provider. *)
Definition key_of (keys : LangChainChatAgent.ApiKeys) (modelProvider : string)
  : option string :=
  if (modelProvider =? "openai")%string then LangChainChatAgent.openai keys
  else if (modelProvider =? "google")%string then LangChainChatAgent.google keys
  else if (modelProvider =? "anthropic")%string then LangChainChatAgent.anthropic keys
  else None.

(** The class of the clients of a provider. *)
Definition class_of (modelProvider : string) : ChatModelClass :=
  if (modelProvider =? "openai")%string then ChatOpenAI
  else if (modelProvider =? "google")%string then ChatGoogleGenerativeAI
  else ChatAnthropic.

(** The model identifiers of the capable and of the fast client. *)
Definition capable_id (modelProvider : string) : string :=
  if (modelProvider =? "openai")%string then "gpt-4-turbo"
  else if (modelProvider =? "google")%string then "gemini-2.5-pro"
  else "claude-3-sonnet-20240229".

Definition fast_id (modelProvider : string) : string :=
  if (modelProvider =? "openai")%string then "gpt-3.5-turbo"
  else if (modelProvider =? "google")%string then "gemini-2.5-pro"
  else "claude-3-haiku-20240307".

(** The entry a [_call] of the Perplexity tool is answered from, if there is
    one: the entry under the lowercased query, when within its TTL. *)
Definition perplexity_fresh_entry {World} `{!External World} (query : string)
    (s : Machine World PerplexitySearchTool.t) : option PerplexitySearchTool.CacheEntry :=
  match PerplexitySearchTool.cache (self s) !! JS.toLowerCase query with
  | Some cachedResult =>
      if Date_now (world s) - PerplexitySearchTool.timestamp cachedResult
         <? PerplexitySearchTool.cacheTTL (self s)
      then Some cachedResult else None
  | None => None
  end.

(** The same for the Google grounding tool. *)
Definition google_fresh_entry {World} `{!External World} (query : string)
    (s : Machine World GoogleGroundingTool.t) : option GoogleGroundingTool.CacheEntry :=
  match GoogleGroundingTool.cache (self s) !! grounded_key query with
  | Some cachedResult =>
      if Date_now (world s) - GoogleGroundingTool.timestamp cachedResult
         <? GoogleGroundingTool.cacheTTL (self s)
      then Some cachedResult else None
  | None => None
  end.

(** A tool machine. *)
Definition tool_at {World Tool} (tool : Tool) (w : World) (log : list Call)
  : Machine World Tool :=
  {| self := tool; world := w; calls := log |}.

(** Two agents with the same configuration: the same keys, the same models,
    the same TTL, and the same tools configured; only caches may differ. *)
Definition same_config (a b : LangChainChatAgent.t) : Prop :=
  LangChainChatAgent.apiKeys a = LangChainChatAgent.apiKeys b
  /\ LangChainChatAgent.models a = LangChainChatAgent.models b
  /\ LangChainChatAgent.searchCacheTTL a = LangChainChatAgent.searchCacheTTL b
  /\ (is_Some (LangChainChatAgent.perplexity_web_search (LangChainChatAgent.tools a))
      <-> is_Some (LangChainChatAgent.perplexity_web_search (LangChainChatAgent.tools b)))
  /\ (is_Some (LangChainChatAgent.google_search_grounding (LangChainChatAgent.tools a))
      <-> is_Some (LangChainChatAgent.google_search_grounding (LangChainChatAgent.tools b))).

(** The [metadata] event of a request answered without search context. *)
Definition no_search_metadata : StreamEvent :=
  EvMetadata {| Metadata.usedSearch := false; Metadata.searchTool := "none";
                Metadata.searchSources := []; Metadata.isSearchSuccessful := false |}.

(** A call to a model. *)
Definition is_LLMStream (c : Call) : Prop :=
  exists llm messages, c = LLMStream llm messages.

(** ** Strings *)

Lemma string_app_cons (x : ascii) (a b : string) :
  String x a +:+ b = String x (a +:+ b).
Proof. reflexivity. Qed.

Lemma string_app_nil_l (b : string) : EmptyString +:+ b = b.
Proof. reflexivity. Qed.

Lemma string_length_app (a b : string) :
  String.length (a +:+ b) = (String.length a + String.length b)%nat.
Proof.
  induction a as [|c a IH]; [reflexivity|].
  rewrite string_app_cons. simpl. by rewrite IH.
Qed.

Lemma string_app_assoc (a b c : string) : (a +:+ b) +:+ c = a +:+ (b +:+ c).
Proof.
  induction a as [|x a IH]; [reflexivity|].
  rewrite !string_app_cons. by rewrite IH.
Qed.

Lemma string_app_inv_tail (a b t : string) : a +:+ t = b +:+ t -> a = b.
Proof.
  revert b. induction a as [|x a IH]; intros [|y b] H;
    rewrite ?string_app_cons, ?string_app_nil_l in H.
  - reflexivity.
  - apply (f_equal String.length) in H. simpl in H.
    rewrite string_length_app in H. lia.
  - apply (f_equal String.length) in H. simpl in H.
    rewrite string_length_app in H. lia.
  - injection H as -> H. f_equal. apply IH, H.
Qed.

(** Two strings that end with different characters differ. *)
Lemma string_snoc_inj (a b : string) (c d : ascii) :
  a +:+ String c EmptyString = b +:+ String d EmptyString -> a = b /\ c = d.
Proof.
  revert b. induction a as [|x a IH]; intros [|y b] H;
    rewrite ?string_app_cons, ?string_app_nil_l in H.
  - injection H as ->. auto.
  - injection H as -> H. destruct b; discriminate H.
  - injection H as -> H. destruct a; discriminate H.
  - injection H as -> H. destruct (IH b H) as [-> ->]. auto.
Qed.

Lemma toLowerCase_app (a b : string) :
  JS.toLowerCase (a +:+ b) = JS.toLowerCase a +:+ JS.toLowerCase b.
Proof.
  induction a as [|c a IH]; [reflexivity|].
  rewrite string_app_cons. simpl. rewrite string_app_cons. by rewrite IH.
Qed.

Lemma toLowerCase_char_idem (c : ascii) :
  JS.toLowerCase_char (JS.toLowerCase_char c) = JS.toLowerCase_char c.
Proof.
  destruct c as [[] [] [] [] [] [] [] []]; vm_compute; reflexivity.
Qed.

Lemma toLowerCase_idem (a : string) :
  JS.toLowerCase (JS.toLowerCase a) = JS.toLowerCase a.
Proof.
  induction a as [|c a IH]; simpl; [reflexivity|].
  rewrite toLowerCase_char_idem. by rewrite IH.
Qed.

Lemma prefix_app (k post : string) : String.prefix k (k +:+ post) = true.
Proof.
  induction k as [|c k IH]; [by destruct post|].
  rewrite string_app_cons. simpl.
  destruct (ascii_dec c c); [exact IH|congruence].
Qed.

Lemma includes_head (s k : string) :
  String.prefix k s = true -> JS.includes s k = true.
Proof. intros H. destruct s; cbn [JS.includes]; rewrite H; reflexivity. Qed.

Lemma includes_app (pre k post : string) :
  JS.includes (pre +:+ k +:+ post) k = true.
Proof.
  induction pre as [|c pre IH].
  - rewrite string_app_nil_l. apply includes_head, prefix_app.
  - rewrite string_app_cons. cbn [JS.includes]. rewrite IH. apply orb_true_r.
Qed.

(** ** The search decision *)

Ltac on_phrase t :=
  destruct (JS.includes (JS.toLowerCase _) t);
  [cbn [orb]; rewrite ?orb_true_r; reflexivity | cbn [orb]].

Lemma shouldSearchWeb_existsb (userInput : string) :
  LangChainChatAgent.shouldSearchWeb userInput
  = existsb (fun phrase => JS.includes (JS.toLowerCase userInput) phrase) triggers.
Proof.
  unfold LangChainChatAgent.shouldSearchWeb, triggers, JS.some,
    LangChainChatAgent.timeSensitiveKeywords.
  cbn [app existsb].
  on_phrase "search for".
  on_phrase "look up".
  on_phrase "find information on".
  on_phrase "web search for".
  on_phrase "latest".
  on_phrase "current".
  on_phrase "recent".
  on_phrase "news".
  on_phrase "today".
  on_phrase "yesterday".
  on_phrase "now".
  on_phrase "breaking".
  on_phrase "update".
  on_phrase "2024".
  on_phrase "2025".
  on_phrase "who is the current".
  on_phrase "what is the stock price".
  on_phrase "weather in".
  on_phrase "election results".
  on_phrase "current events".
  on_phrase "what's happening".
  reflexivity.
Qed.

(** X1. [shouldSearchWeb] answers true exactly when the lowercased message
    contains one of the twenty-one phrases; the order of the three groups
    of rules has no effect on the answer. *)
Theorem shouldSearchWeb_iff_trigger (userInput : string) :
  LangChainChatAgent.shouldSearchWeb userInput = true
  <-> exists phrase,
        In phrase triggers
        /\ JS.includes (JS.toLowerCase userInput) phrase = true.
Proof. rewrite shouldSearchWeb_existsb. apply existsb_exists. Qed.

(** X2. The match is on substrings and ignores letter case: a message that
    holds a phrase anywhere, also inside a longer word and in any mix of
    upper and lower case, asks for a search. *)
Theorem shouldSearchWeb_anywhere (before phrase after : string) :
  In (JS.toLowerCase phrase) triggers ->
  LangChainChatAgent.shouldSearchWeb (before +:+ phrase +:+ after) = true.
Proof.
  intros Hin. rewrite shouldSearchWeb_existsb. apply existsb_exists.
  exists (JS.toLowerCase phrase). split; [exact Hin|].
  rewrite !toLowerCase_app. apply includes_app.
Qed.

Lemma shouldSearchWeb_anywhere_witness :
  LangChainChatAgent.shouldSearchWeb "I KNOW nothing" = true.
Proof.
  apply (shouldSearchWeb_anywhere "I K" "NOW" " nothing").
  vm_compute. auto 20.
Defined.

(** ** The Perplexity agent and tool *)

(** X3. The sources [_parseSearchResult] extracts are the non-empty [url]s of
    the citations: no source is the empty string, every source is the [url]
    of a citation, every non-empty [url] of a citation is a source, and
    there are at most as many sources as citations.  A response without
    [citations] has no sources, and one without content has content [''];
    the citations themselves are kept as they came. *)
Theorem parseSearchResult_sources (data : Perplexity.Data) :
  let result := PerplexitySearchAgent._parseSearchResult data in
  let citations := default [] (Perplexity.citations data) in
  SearchResult.citations result = citations
  /\ SearchResult.content result
     = default EmptyString (Perplexity.choices_0_message_content data)
  /\ (forall source,
        In source (SearchResult.sources result)
        <-> source <> EmptyString
            /\ exists citation,
                 In citation citations /\ Perplexity.url citation = Some source)
  /\ (length (SearchResult.sources result) <= length citations)%nat.
Proof.
  intros result citations. subst result.
  unfold PerplexitySearchAgent._parseSearchResult. simpl.
  fold citations. split; [reflexivity|]. split; [|split].
  - destruct (Perplexity.choices_0_message_content data) as [[|c content]|]; reflexivity.
  - intros source. rewrite List.filter_In, in_map_iff. split.
    + intros [(citation & Hurl & Hin) Htruthy]. split.
      * intros ->. discriminate Htruthy.
      * exists citation. split; [exact Hin|].
        destruct (Perplexity.url citation) as [[|c u]|]; simpl in Hurl; subst source;
          try discriminate Htruthy; reflexivity.
    + intros [Hne (citation & Hin & Hurl)]. split.
      * exists citation. split; [|exact Hin]. rewrite Hurl.
        destruct source; [congruence|reflexivity].
      * destruct source; [congruence|reflexivity].
  - etransitivity; [apply List.filter_length_le|]. by rewrite length_map.
Qed.

Section PerplexityTool.

Context {World : Type} `{!External World}.

Abbreviation tool_state := (Machine World PerplexitySearchTool.t).

(** The live part of [_call] by cases on the credential and on the answer of
    the endpoint. *)
Lemma perplexity_live_cases query key (s : tool_state) :
  let agent := PerplexitySearchTool.perplexityAgent (self s) in
  let posted := logged (AxiosPost (PerplexitySearchAgent.baseUrl agent) query) s in
  let answer :=
    axios_post (PerplexitySearchAgent.baseUrl agent)
      (default EmptyString (PerplexitySearchAgent.apiKey agent))
      ("Search for: " +:+ query) (world s) in
  PerplexitySearchTool._call_live query key s
  = if negb (JS.truthy_opt (PerplexitySearchAgent.apiKey agent)) then
      (Throw ("Failed to perform Perplexity search: "
              +:+ "Perplexity API key is not set. Cannot perform search."), s)
    else
      match fst answer with
      | inl data =>
          let result := PerplexitySearchAgent._parseSearchResult data in
          (Normal (SearchResult.content result),
           {| self := PerplexitySearchTool.set_cache key
                        {| PerplexitySearchTool.data := result;
                           PerplexitySearchTool.timestamp := Date_now (snd answer) |}
                        (self s);
              world := snd answer;
              calls := calls posted |})
      | inr error =>
          (Throw ("Failed to perform Perplexity search: "
                  +:+ ("Perplexity API error: "
                       +:+ PerplexitySearchAgent.status_or_message error)),
           {| self := self s; world := snd answer; calls := calls posted |})
      end.
Proof.
  intros agent posted answer. subst agent posted answer.
  unfold PerplexitySearchTool._call_live, PerplexitySearchAgent.searchWeb.
  unfold try_catch, bind, get_self, set_self, now, log, remote, throw, ret. simpl.
  destruct (negb _); [reflexivity|]. simpl.
  destruct (axios_post _ _ _ _) as [[data|error] w]; reflexivity.
Qed.

End PerplexityTool.

Section PerplexityCall.

Context {World : Type} `{!External World}.

Abbreviation tool_state := (Machine World PerplexitySearchTool.t).

Lemma perplexity_call_cases query (s : tool_state) :
  PerplexitySearchTool._call query s
  = match perplexity_fresh_entry query s with
    | Some cachedResult =>
        (Normal (SearchResult.content (PerplexitySearchTool.data cachedResult)), s)
    | None => PerplexitySearchTool._call_live query (JS.toLowerCase query) s
    end.
Proof.
  unfold perplexity_fresh_entry, PerplexitySearchTool._call, bind at 1, get_self.
  destruct (PerplexitySearchTool.cache (self s) !! JS.toLowerCase query)
    as [cachedResult|]; [|reflexivity].
  unfold bind at 1, now. destruct (_ <? _); reflexivity.
Qed.

Lemma perplexity_success_cached query (s s1 : tool_state) answer :
  PerplexitySearchTool._call query s = (Normal answer, s1) ->
  exists cachedResult,
    PerplexitySearchTool.cache (self s1) !! JS.toLowerCase query = Some cachedResult
    /\ SearchResult.content (PerplexitySearchTool.data cachedResult) = answer
    /\ PerplexitySearchTool.cacheTTL (self s1) = PerplexitySearchTool.cacheTTL (self s).
Proof.
  rewrite perplexity_call_cases. unfold perplexity_fresh_entry.
  destruct (PerplexitySearchTool.cache (self s) !! JS.toLowerCase query)
    as [cachedResult|] eqn:Hlook.
  - destruct (_ <? _).
    + intros H. injection H as <- <-. eauto.
    + rewrite perplexity_live_cases. destruct (negb _); [discriminate|].
      destruct (fst _) as [data|error]; [|discriminate].
      intros H. injection H as <- <-. simpl.
      eexists. split; [apply lookup_insert_eq|]. auto.
  - rewrite perplexity_live_cases. destruct (negb _); [discriminate|].
    destruct (fst _) as [data|error]; [|discriminate].
    intros H. injection H as <- <-. simpl.
    eexists. split; [apply lookup_insert_eq|]. auto.
Qed.

End PerplexityCall.

(** X4. A Perplexity tool built without a key (absent or empty) fails every
    call with the same error, before any request to the network, and stays
    as it was. *)
Theorem perplexity_tool_without_key {World : Type} `{!External World}
    (key : option string) (query : string) (w : World) (log : list Call) :
  JS.truthy_opt key = false ->
  PerplexitySearchTool._call query (tool_at (PerplexitySearchTool.new key) w log)
  = (Throw "Failed to perform Perplexity search: Perplexity API key is not set. Cannot perform search.",
     tool_at (PerplexitySearchTool.new key) w log).
Proof.
  intros Hkey. rewrite perplexity_call_cases.
  unfold perplexity_fresh_entry. simpl. rewrite lookup_empty.
  rewrite perplexity_live_cases. simpl. rewrite Hkey. reflexivity.
Qed.

Lemma perplexity_tool_without_key_witness :
  fst (PerplexitySearchTool._call "weather in Paris"
         (tool_at (PerplexitySearchTool.new (Some EmptyString))
            (Scripted.scripted 0 [] [Scripted.answer "sunny" "https://a.example"] []) []))
  = Throw "Failed to perform Perplexity search: Perplexity API key is not set. Cannot perform search.".
Proof.
  rewrite (perplexity_tool_without_key (Some EmptyString) "weather in Paris"); reflexivity.
Defined.

(** X5. A successful call of the Perplexity tool leaves its answer in the
    cache under the lowercased query.  A later call with a query that
    differs at most in letter case, at a time within the TTL of that entry,
    returns the same answer, makes no request and changes nothing. *)
Theorem perplexity_call_round_trip {World : Type} `{!External World}
    (query query' answer : string) (s s1 : Machine World PerplexitySearchTool.t) :
  PerplexitySearchTool._call query s = (Normal answer, s1) ->
  JS.toLowerCase query' = JS.toLowerCase query ->
  (exists cachedResult,
     PerplexitySearchTool.cache (self s1) !! JS.toLowerCase query = Some cachedResult)
  /\ forall cachedResult w2,
       PerplexitySearchTool.cache (self s1) !! JS.toLowerCase query = Some cachedResult ->
       Date_now w2 - PerplexitySearchTool.timestamp cachedResult
       < PerplexitySearchTool.cacheTTL (self s1) ->
       PerplexitySearchTool._call query' (later w2 s1) = (Normal answer, later w2 s1).
Proof.
  intros Hcall Hcase.
  destruct (perplexity_success_cached _ _ _ _ Hcall) as (e & Hlook & Hanswer & _).
  split; [eauto|]. intros cachedResult w2 Hlook2 Hfresh.
  rewrite Hlook in Hlook2. injection Hlook2 as <-.
  rewrite perplexity_call_cases. unfold perplexity_fresh_entry. simpl.
  rewrite Hcase, Hlook. apply Z.ltb_lt in Hfresh. rewrite Hfresh, Hanswer. reflexivity.
Qed.

Lemma perplexity_call_round_trip_witness :
  let s := tool_at (PerplexitySearchTool.new (Some "pplx-key"))
             (Scripted.scripted 1000 [] [Scripted.answer "Paris" "https://a.example"] []) [] in
  let s1 := snd (PerplexitySearchTool._call "Capital of France" s) in
  let w2 := Scripted.at_time 300000 (world s1) in
  PerplexitySearchTool._call "CAPITAL of france" (later w2 s1) = (Normal "Paris", later w2 s1).
Proof.
  intros s s1 w2.
  assert (Hcall : PerplexitySearchTool._call "Capital of France" s = (Normal "Paris", s1))
    by (vm_compute; reflexivity).
  destruct (perplexity_call_round_trip "Capital of France" "CAPITAL of france" "Paris"
              s s1 Hcall eq_refl) as [_ Hagain].
  apply (Hagain {| PerplexitySearchTool.data :=
                     {| SearchResult.content := "Paris";
                        SearchResult.sources := ["https://a.example"];
                        SearchResult.citations :=
                          [ {| Perplexity.url := Some "https://a.example" |} ] |};
                   PerplexitySearchTool.timestamp := 1001 |} w2);
    vm_compute; reflexivity.
Defined.



(** ** The Google grounding tool *)

Section GoogleCall.

Context {World : Type} `{!External World}.

Abbreviation tool_state := (Machine World GoogleGroundingTool.t).

(** The live part of [_call] by cases on the answer of Gemini. *)
Lemma google_live_cases query key (s : tool_state) :
  let asked := logged (GenerateContent (GoogleGroundingTool.modelName (self s)) query) s in
  let answer :=
    generateContent (default EmptyString (GoogleGroundingTool.apiKey (self s)))
      (GoogleGroundingTool.modelName (self s)) query (world s) in
  GoogleGroundingTool._call_live query key s
  = match fst answer with
    | inl response =>
        (Normal (Gemini.text response),
         {| self := GoogleGroundingTool.set_cache key
                      {| GoogleGroundingTool.data := Gemini.text response;
                         GoogleGroundingTool.timestamp := Date_now (snd answer);
                         GoogleGroundingTool.citations :=
                           Gemini.candidates_0_citationMetadata response |}
                      (self s);
            world := snd answer;
            calls := calls asked |})
    | inr error =>
        (Throw (if Gemini.isFetchError error
                then "Google Grounding failed: " +:+ Gemini.message error +:+ "."
                else Gemini.message error),
         {| self := self s; world := snd answer; calls := calls asked |})
    end.
Proof.
  intros asked answer. subst asked answer.
  unfold GoogleGroundingTool._call_live.
  unfold bind, get_self, set_self, now, log, remote, throw, ret. simpl.
  destruct (generateContent _ _ _ _) as [[response|error] w]; simpl; [reflexivity|].
  destruct (Gemini.isFetchError error); reflexivity.
Qed.

Lemma google_call_cases query (s : tool_state) :
  GoogleGroundingTool._call query s
  = if (negb (JS.truthy_opt (GoogleGroundingTool.apiKey (self s)))
        || negb (GoogleGroundingTool.genAI (self s)))%bool
    then (Throw "Google API key is not set. Cannot perform Google Grounding.", s)
    else match google_fresh_entry query s with
         | Some cachedResult => (Normal (GoogleGroundingTool.data cachedResult), s)
         | None => GoogleGroundingTool._call_live query (grounded_key query) s
         end.
Proof.
  unfold google_fresh_entry, GoogleGroundingTool._call, bind at 1, get_self.
  destruct (_ || _)%bool; [reflexivity|]. fold (grounded_key query).
  destruct (GoogleGroundingTool.cache (self s) !! grounded_key query)
    as [cachedResult|]; [|reflexivity].
  unfold bind at 1, now. destruct (_ <? _); reflexivity.
Qed.

Lemma google_success_cached query (s s1 : tool_state) answer :
  GoogleGroundingTool._call query s = (Normal answer, s1) ->
  exists cachedResult,
    GoogleGroundingTool.cache (self s1) !! grounded_key query = Some cachedResult
    /\ GoogleGroundingTool.data cachedResult = answer
    /\ GoogleGroundingTool.cacheTTL (self s1) = GoogleGroundingTool.cacheTTL (self s)
    /\ GoogleGroundingTool.apiKey (self s1) = GoogleGroundingTool.apiKey (self s)
    /\ GoogleGroundingTool.genAI (self s1) = GoogleGroundingTool.genAI (self s)
    /\ (negb (JS.truthy_opt (GoogleGroundingTool.apiKey (self s)))
        || negb (GoogleGroundingTool.genAI (self s)))%bool = false.
Proof.
  rewrite google_call_cases. destruct (_ || _)%bool eqn:Hkey; [discriminate|].
  unfold google_fresh_entry.
  destruct (GoogleGroundingTool.cache (self s) !! grounded_key query)
    as [cachedResult|] eqn:Hlook.
  - destruct (_ <? _).
    + intros H. injection H as <- <-. eexists. repeat split; eauto.
    + rewrite google_live_cases. destruct (fst _) as [response|error]; [|discriminate].
      intros H. injection H as <- <-. simpl.
      eexists. split; [apply lookup_insert_eq|]. auto.
  - rewrite google_live_cases. destruct (fst _) as [response|error]; [|discriminate].
    intros H. injection H as <- <-. simpl.
    eexists. split; [apply lookup_insert_eq|]. auto.
Qed.

End GoogleCall.

(** A Google grounding tool without a key fails every call with the
    same error before it looks at its cache or calls Gemini: even an entry
    that is within its TTL is not served, and nothing changes. *)
Theorem google_tool_without_key {World : Type} `{!External World}
    (query : string) (s : Machine World GoogleGroundingTool.t) :
  JS.truthy_opt (GoogleGroundingTool.apiKey (self s)) = false ->
  GoogleGroundingTool._call query s
  = (Throw "Google API key is not set. Cannot perform Google Grounding.", s).
Proof. intros Hkey. rewrite google_call_cases, Hkey. reflexivity. Qed.

Lemma google_tool_without_key_witness :
  let fresh := {| GoogleGroundingTool.data := "cached answer";
                  GoogleGroundingTool.timestamp := 0;
                  GoogleGroundingTool.citations := None |} in
  let s := tool_at (GoogleGroundingTool.set_cache "grounded_q" fresh
                      (GoogleGroundingTool.new None))
             (Scripted.scripted 5 [] [] [Scripted.grounded "live answer" "https://g.example"])
             [] in
  google_fresh_entry "q" s = Some fresh
  /\ GoogleGroundingTool._call "q" s
     = (Throw "Google API key is not set. Cannot perform Google Grounding.", s).
Proof.
  intros fresh s. split; [vm_compute; reflexivity|].
  apply (google_tool_without_key "q" s). reflexivity.
Defined.

(** X7. A successful call of the Google grounding tool leaves its answer in
    the cache under [grounded_] followed by the lowercased query.  A later
    call with a query that differs at most in letter case, at a time within
    the TTL of that entry, returns the same answer, does not call Gemini and
    changes nothing. *)
Theorem google_call_round_trip {World : Type} `{!External World}
    (query query' answer : string) (s s1 : Machine World GoogleGroundingTool.t) :
  GoogleGroundingTool._call query s = (Normal answer, s1) ->
  JS.toLowerCase query' = JS.toLowerCase query ->
  (exists cachedResult,
     GoogleGroundingTool.cache (self s1) !! grounded_key query = Some cachedResult)
  /\ forall cachedResult w2,
       GoogleGroundingTool.cache (self s1) !! grounded_key query = Some cachedResult ->
       Date_now w2 - GoogleGroundingTool.timestamp cachedResult
       < GoogleGroundingTool.cacheTTL (self s1) ->
       GoogleGroundingTool._call query' (later w2 s1) = (Normal answer, later w2 s1).
Proof.
  intros Hcall Hcase.
  destruct (google_success_cached _ _ _ _ Hcall)
    as (e & Hlook & Hanswer & _ & Hkey & Hgen & Hok).
  split; [eauto|]. intros cachedResult w2 Hlook2 Hfresh.
  rewrite Hlook in Hlook2. injection Hlook2 as <-.
  rewrite google_call_cases. simpl. rewrite Hkey, Hgen, Hok.
  unfold google_fresh_entry, grounded_key in *. simpl.
  rewrite Hcase, Hlook. apply Z.ltb_lt in Hfresh. rewrite Hfresh, Hanswer. reflexivity.
Qed.

Lemma google_call_round_trip_witness :
  let s := tool_at (GoogleGroundingTool.new (Some "google-key"))
             (Scripted.scripted 1000 [] [] [Scripted.grounded "Paris" "https://g.example"]) [] in
  let s1 := snd (GoogleGroundingTool._call "Capital of France" s) in
  let w2 := Scripted.at_time 300000 (world s1) in
  GoogleGroundingTool._call "capital OF France" (later w2 s1) = (Normal "Paris", later w2 s1).
Proof.
  intros s s1 w2.
  assert (Hcall : GoogleGroundingTool._call "Capital of France" s = (Normal "Paris", s1))
    by (vm_compute; reflexivity).
  destruct (google_call_round_trip "Capital of France" "capital OF France" "Paris"
              s s1 Hcall eq_refl) as [_ Hagain].
  apply (Hagain {| GoogleGroundingTool.data := "Paris";
                   GoogleGroundingTool.timestamp := 1001;
                   GoogleGroundingTool.citations :=
                     Some {| Gemini.citationSources :=
                               Some [ {| Gemini.uri := Some "https://g.example";
                                         Gemini.title := None |} ] |} |} w2);
    vm_compute; reflexivity.
Defined.



(** ** The model registry *)

Lemma capable_not_fast (p q : string) : p +:+ "_capable" <> q +:+ "_fast".
Proof.
  intros H.
  change "_capable" with ("_capabl" +:+ "e") in H.
  change "_fast" with ("_fas" +:+ "t") in H.
  rewrite <- !string_app_assoc in H.
  apply string_snoc_inj in H as [_ H]. discriminate H.
Qed.

Lemma capable_inj (p q : string) : p +:+ "_capable" = q +:+ "_capable" -> p = q.
Proof. apply string_app_inv_tail. Qed.

Lemma fast_inj (p q : string) : p +:+ "_fast" = q +:+ "_fast" -> p = q.
Proof. apply string_app_inv_tail. Qed.

(** The two clients the constructor stores for a provider. *)
Lemma models_new_capable (keys : LangChainChatAgent.ApiKeys) (modelProvider : string) :
  LangChainChatAgent.models (LangChainChatAgent.new keys) !! (modelProvider +:+ "_capable")
  = if JS.truthy_opt (key_of keys modelProvider)
    then Some (LangChainChatAgent.mkChat (class_of modelProvider)
                 (key_of keys modelProvider) (capable_id modelProvider) 2)
    else None.
Proof.
  unfold LangChainChatAgent.new, LangChainChatAgent._initializeModels. simpl.
  unfold key_of, class_of, capable_id.
  destruct (String.eqb_spec modelProvider "openai") as [->|Ho];
    [|destruct (String.eqb_spec modelProvider "google") as [->|Hg];
      [|destruct (String.eqb_spec modelProvider "anthropic") as [->|Ha]]].
  1-3: destruct (JS.truthy_opt (LangChainChatAgent.openai keys));
       destruct (JS.truthy_opt (LangChainChatAgent.google keys));
       destruct (JS.truthy_opt (LangChainChatAgent.anthropic keys));
       vm_compute; reflexivity.
  assert (Hc : forall q, q <> modelProvider ->
                 q +:+ "_capable" <> modelProvider +:+ "_capable")
    by (intros q Hq H; apply Hq, capable_inj, H).
  assert (Hf : forall q, q +:+ "_fast" <> modelProvider +:+ "_capable")
    by (intros q H; symmetry in H; exact (capable_not_fast _ _ H)).
  simpl.
  destruct (JS.truthy_opt (LangChainChatAgent.openai keys));
    destruct (JS.truthy_opt (LangChainChatAgent.google keys));
    destruct (JS.truthy_opt (LangChainChatAgent.anthropic keys));
    repeat first
      [ rewrite lookup_empty
      | rewrite (lookup_insert_ne _ ("openai" +:+ "_capable")) by (apply Hc; congruence)
      | rewrite (lookup_insert_ne _ ("google" +:+ "_capable")) by (apply Hc; congruence)
      | rewrite (lookup_insert_ne _ ("anthropic" +:+ "_capable")) by (apply Hc; congruence)
      | rewrite (lookup_insert_ne _ ("openai" +:+ "_fast")) by apply Hf
      | rewrite (lookup_insert_ne _ ("google" +:+ "_fast")) by apply Hf
      | rewrite (lookup_insert_ne _ ("anthropic" +:+ "_fast")) by apply Hf ];
    reflexivity.
Qed.

Lemma models_new_fast (keys : LangChainChatAgent.ApiKeys) (modelProvider : string) :
  LangChainChatAgent.models (LangChainChatAgent.new keys) !! (modelProvider +:+ "_fast")
  = if JS.truthy_opt (key_of keys modelProvider)
    then Some (LangChainChatAgent.mkChat (class_of modelProvider)
                 (key_of keys modelProvider) (fast_id modelProvider) 7)
    else None.
Proof.
  unfold LangChainChatAgent.new, LangChainChatAgent._initializeModels. simpl.
  unfold key_of, class_of, fast_id.
  destruct (String.eqb_spec modelProvider "openai") as [->|Ho];
    [|destruct (String.eqb_spec modelProvider "google") as [->|Hg];
      [|destruct (String.eqb_spec modelProvider "anthropic") as [->|Ha]]].
  1-3: destruct (JS.truthy_opt (LangChainChatAgent.openai keys));
       destruct (JS.truthy_opt (LangChainChatAgent.google keys));
       destruct (JS.truthy_opt (LangChainChatAgent.anthropic keys));
       vm_compute; reflexivity.
  assert (Hf : forall q, q <> modelProvider ->
                 q +:+ "_fast" <> modelProvider +:+ "_fast")
    by (intros q Hq H; apply Hq, fast_inj, H).
  assert (Hc : forall q, q +:+ "_capable" <> modelProvider +:+ "_fast")
    by (intros q H; exact (capable_not_fast _ _ H)).
  simpl.
  destruct (JS.truthy_opt (LangChainChatAgent.openai keys));
    destruct (JS.truthy_opt (LangChainChatAgent.google keys));
    destruct (JS.truthy_opt (LangChainChatAgent.anthropic keys));
    repeat first
      [ rewrite lookup_empty
      | rewrite (lookup_insert_ne _ ("openai" +:+ "_fast")) by (apply Hf; congruence)
      | rewrite (lookup_insert_ne _ ("google" +:+ "_fast")) by (apply Hf; congruence)
      | rewrite (lookup_insert_ne _ ("anthropic" +:+ "_fast")) by (apply Hf; congruence)
      | rewrite (lookup_insert_ne _ ("openai" +:+ "_capable")) by apply Hc
      | rewrite (lookup_insert_ne _ ("google" +:+ "_capable")) by apply Hc
      | rewrite (lookup_insert_ne _ ("anthropic" +:+ "_capable")) by apply Hc ];
    reflexivity.
Qed.



(** X10. A model name that contains [fast] anywhere resolves to the fast
    client of the provider: the provider's cheaper model at temperature
    0.7; the rest of the name is ignored. *)
Theorem getLLM_fast_alias (keys : LangChainChatAgent.ApiKeys)
    (modelProvider modelName : string) :
  JS.truthy_opt (key_of keys modelProvider) = true ->
  JS.includes modelName "fast" = true ->
  LangChainChatAgent._getLLM (LangChainChatAgent.new keys) modelProvider modelName
  = Some (LangChainChatAgent.mkChat (class_of modelProvider) (key_of keys modelProvider)
            (fast_id modelProvider) 7).
Proof.
  intros Hkey Hfast. unfold LangChainChatAgent._getLLM.
  rewrite models_new_capable, models_new_fast, Hkey, Hfast. reflexivity.
Qed.

Lemma getLLM_fast_alias_witness :
  LangChainChatAgent._getLLM (LangChainChatAgent.new Scripted.all_keys)
    "anthropic" "breakfast-model"
  = Some (LangChainChatAgent.mkChat ChatAnthropic (Some "sk-ant")
            "claude-3-haiku-20240307" 7).
Proof.
  apply (getLLM_fast_alias Scripted.all_keys "anthropic" "breakfast-model"); reflexivity.
Defined.



(** ** The streaming generator *)

Section Generator.

Context {World : Type} `{!External World}.

Import LangChainChatAgent.

Abbreviation machine := (Machine World LangChainChatAgent.t).

Lemma streamGenerate_primary llm promptMessages originalQuery (s : machine) :
  failure (fst (llm_stream llm promptMessages (world s))) = None ->
  let s1 := streamed llm promptMessages s in
  _streamGenerate llm promptMessages originalQuery s
  = (map (fun content => (content, s1))
       (List.filter JS.truthy (delivered (fst (llm_stream llm promptMessages (world s))))),
     Normal tt, s1).
Proof.
  intros Hok s1. unfold _streamGenerate, gtry_catch.
  unfold gbind at 1, await at 1. rewrite stream_run. fold (streamed llm promptMessages s).
  fold s1. rewrite (for_await_stream_run _ _ s1 _ (for_of_truthy _ s1)).
  unfold stream_completion. rewrite Hok. rewrite app_nil_l. reflexivity.
Qed.

Lemma streamGenerate_no_fallback llm promptMessages originalQuery (s : machine) message :
  failure (fst (llm_stream llm promptMessages (world s))) = Some message ->
  models (self s) !! "openai_fast" = None ->
  models (self s) !! "google_fast" = None ->
  let s1 := streamed llm promptMessages s in
  _streamGenerate llm promptMessages originalQuery s
  = (map (fun content => (content, s1))
       (List.filter JS.truthy (delivered (fst (llm_stream llm promptMessages (world s)))))
     ++ [("Error generating response: " +:+ message, s1)],
     Normal tt, s1).
Proof.
  intros Hfail Hopenai Hgoogle s1. unfold _streamGenerate, gtry_catch.
  unfold gbind at 1, await at 1. rewrite stream_run. fold (streamed llm promptMessages s).
  fold s1. rewrite (for_await_stream_run _ _ s1 _ (for_of_truthy _ s1)).
  unfold stream_completion at 1. rewrite Hfail.
  unfold gbind, await, get_self. change (self s1) with (self s).
  rewrite Hopenai, Hgoogle. unfold ret, yield. rewrite app_nil_l. reflexivity.
Qed.

(** The generator never changes the agent, and the log only grows, by
    calls to models. *)
Lemma streamGenerate_frame llm promptMessages originalQuery (s : machine) :
  let r := _streamGenerate llm promptMessages originalQuery s in
  self (snd r) = self s
  /\ exists rest,
       calls (snd r) = calls s ++ LLMStream llm promptMessages :: rest
       /\ Forall (fun c => exists m ms, c = LLMStream m ms) rest.
Proof.
  intros r. subst r.
  destruct (failure (fst (llm_stream llm promptMessages (world s)))) as [message|] eqn:Hfail.
  - destruct (models (self s) !! "openai_fast") as [fast|] eqn:Hopenai;
      [|destruct (models (self s) !! "google_fast") as [fast|] eqn:Hgoogle].
    + rewrite (streamGenerate_fallback _ _ originalQuery _ _ fast Hfail (or_introl Hopenai)).
      simpl. split; [reflexivity|]. eexists [_]. rewrite <- app_assoc.
      split; [reflexivity|]. repeat constructor. eauto.
    + rewrite (streamGenerate_fallback _ _ originalQuery _ _ fast Hfail
                 (or_intror (conj Hopenai Hgoogle))).
      simpl. split; [reflexivity|]. eexists [_]. rewrite <- app_assoc.
      split; [reflexivity|]. repeat constructor. eauto.
    + rewrite (streamGenerate_no_fallback _ _ originalQuery _ _ Hfail Hopenai Hgoogle).
      simpl. split; [reflexivity|]. exists []. split; [reflexivity|constructor].
  - rewrite (streamGenerate_primary _ _ originalQuery _ Hfail).
    simpl. split; [reflexivity|]. exists []. split; [reflexivity|constructor].
Qed.

End Generator.

(** X12. When the stream of the model runs to its end, the generator yields
    the non-empty chunks in the order received, drops the empty ones, ends
    normally, and has called the model once and no other. *)
Theorem streamGenerate_success {World : Type} `{!External World}
    (s : Machine World LangChainChatAgent.t) (llm : ChatModel)
    (promptMessages : list BaseMessage) (originalQuery : string) :
  failure (fst (llm_stream llm promptMessages (world s))) = None ->
  let r := LangChainChatAgent._streamGenerate llm promptMessages originalQuery s in
  map fst (fst (fst r))
  = List.filter JS.truthy (delivered (fst (llm_stream llm promptMessages (world s))))
  /\ snd (fst r) = Normal tt
  /\ calls (snd r) = calls s ++ [LLMStream llm promptMessages]
  /\ self (snd r) = self s.
Proof.
  intros Hok r. subst r. rewrite (streamGenerate_primary _ _ originalQuery _ Hok). simpl.
  rewrite map_map. simpl. rewrite map_id. auto.
Qed.

Lemma streamGenerate_success_witness :
  let s := Scripted.boot Scripted.all_keys
             (Scripted.scripted 0 [ {| delivered := ["Hel"; ""; "lo"]; failure := None |} ]
                [] []) in
  let llm := LangChainChatAgent.mkChat ChatOpenAI (Some "sk-openai") "gpt-4-turbo" 2 in
  map fst (fst (fst (LangChainChatAgent._streamGenerate llm (direct_prompt "hi") "hi" s)))
  = ["Hel"; "lo"].
Proof.
  intros s llm.
  assert (Hok : failure (fst (llm_stream llm (direct_prompt "hi") (world s))) = None)
    by (vm_compute; reflexivity).
  destruct (streamGenerate_success s llm (direct_prompt "hi") "hi" Hok) as [H _].
  exact H.
Defined.

(** X13. When the stream of the model fails and the agent has neither an
    [openai_fast] nor a [google_fast] client, the generator yields, after
    the chunks received, one chunk [Error generating response: ] followed by
    the message of the error, and ends normally without calling another
    model.  An agent with only the Anthropic key is in that case: its
    [anthropic_fast] client is not used. *)
Theorem streamGenerate_without_fallback {World : Type} `{!External World}
    (s : Machine World LangChainChatAgent.t) (llm : ChatModel)
    (promptMessages : list BaseMessage) (originalQuery message : string) :
  failure (fst (llm_stream llm promptMessages (world s))) = Some message ->
  LangChainChatAgent.models (self s) !! "openai_fast" = None ->
  LangChainChatAgent.models (self s) !! "google_fast" = None ->
  let r := LangChainChatAgent._streamGenerate llm promptMessages originalQuery s in
  map fst (fst (fst r))
  = List.filter JS.truthy (delivered (fst (llm_stream llm promptMessages (world s))))
    ++ ["Error generating response: " +:+ message]
  /\ snd (fst r) = Normal tt
  /\ calls (snd r) = calls s ++ [LLMStream llm promptMessages].
Proof.
  intros Hfail Hopenai Hgoogle r. subst r.
  rewrite (streamGenerate_no_fallback _ _ originalQuery _ _ Hfail Hopenai Hgoogle). simpl.
  rewrite map_app, map_map. simpl. rewrite map_id. auto.
Qed.

Lemma streamGenerate_without_fallback_witness :
  let only_anthropic :=
    {| LangChainChatAgent.openai := None; LangChainChatAgent.google := None;
       LangChainChatAgent.anthropic := Some "sk-ant";
       LangChainChatAgent.perplexity := None |} in
  let s := Scripted.boot only_anthropic
             (Scripted.scripted 0 [ {| delivered := ["Par"]; failure := Some "overloaded" |} ]
                [] []) in
  let llm := LangChainChatAgent.mkChat ChatAnthropic (Some "sk-ant")
               "claude-3-sonnet-20240229" 2 in
  LangChainChatAgent.models (self s) !! "anthropic_fast"
  = Some (LangChainChatAgent.mkChat ChatAnthropic (Some "sk-ant") "claude-3-haiku-20240307" 7)
  /\ map fst (fst (fst (LangChainChatAgent._streamGenerate llm (direct_prompt "hi") "hi" s)))
     = ["Par"; "Error generating response: overloaded"].
Proof.
  intros only_anthropic s llm. split; [vm_compute; reflexivity|].
  assert (Hfail : failure (fst (llm_stream llm (direct_prompt "hi") (world s)))
                  = Some "overloaded") by (vm_compute; reflexivity).
  assert (Ho : LangChainChatAgent.models (self s) !! "openai_fast" = None)
    by (vm_compute; reflexivity).
  assert (Hg : LangChainChatAgent.models (self s) !! "google_fast" = None)
    by (vm_compute; reflexivity).
  destruct (streamGenerate_without_fallback s llm (direct_prompt "hi") "hi" "overloaded"
              Hfail Ho Hg) as [H _].
  exact H.
Defined.

(** ** The request pipeline *)

Section Pipeline.

Context {World : Type} `{!External World}.

Import LangChainChatAgent.

Abbreviation machine := (Machine World LangChainChatAgent.t).

Lemma same_config_refl (a : LangChainChatAgent.t) : same_config a a.
Proof. repeat split; auto. Qed.

Lemma same_config_trans (a b c : LangChainChatAgent.t) :
  same_config a b -> same_config b c -> same_config a c.
Proof.
  intros (H1 & H2 & H3 & H4 & H5) (G1 & G2 & G3 & G4 & G5).
  repeat split; try congruence; tauto.
Qed.

Lemma callAdapter_config userMessage modelProvider (s : machine) :
  same_config (self (snd (callAdapter userMessage modelProvider s))) (self s).
Proof.
  destruct (selectAdapter modelProvider (tools (self s))) as [tool|tool|] eqn:Hsel.
  - rewrite (callAdapter_google _ _ _ _ Hsel). simpl.
    unfold selectAdapter in Hsel.
    destruct (JS.and_then _ _) as [g|] eqn:Hg; [|destruct (perplexity_web_search _); discriminate].
    assert (is_Some (google_search_grounding (tools (self s)))).
    { unfold JS.and_then in Hg. destruct (_ =? _)%string; [rewrite Hg; eauto|discriminate]. }
    repeat split; simpl; eauto.
  - rewrite (callAdapter_perplexity _ _ _ _ Hsel). simpl.
    unfold selectAdapter in Hsel. destruct (JS.and_then _ _); [discriminate|].
    destruct (perplexity_web_search (tools (self s))) eqn:Hp; [|discriminate].
    repeat split; simpl; eauto.
  - rewrite (callAdapter_none _ _ _ Hsel). apply same_config_refl.
Qed.

Lemma searchStage_config userMessage modelProvider needs (s : machine) :
  same_config (self (snd (searchStage userMessage modelProvider needs s))) (self s).
Proof.
  destruct needs; [|apply same_config_refl].
  destruct (fresh_hit (cacheKey userMessage modelProvider) s) eqn:Hhit.
  - destruct (searchStage_fresh _ _ _ Hhit) as (l & -> & _). apply same_config_refl.
  - rewrite (searchStage_miss _ _ _ Hhit).
    pose proof (callAdapter_config userMessage modelProvider s) as Hcfg.
    destruct (callAdapter_total userMessage modelProvider s) as (l & t & Hcall).
    rewrite (liveSearch_stored _ _ _ _ _ _ Hcall). rewrite Hcall in Hcfg. simpl in Hcfg.
    destruct (isSearchSuccessful l); simpl; [|exact Hcfg].
    destruct Hcfg as (H1 & H2 & H3 & H4 & H5). repeat split; simpl; auto; tauto.
Qed.

Lemma getLLM_same_config (a b : LangChainChatAgent.t) modelProvider modelName :
  same_config a b -> _getLLM a modelProvider modelName = _getLLM b modelProvider modelName.
Proof. intros (H1 & H2 & _). unfold _getLLM. rewrite H1, H2. reflexivity. Qed.

End Pipeline.

(** X14. A request never changes the configuration of the agent: after
    [processMessage] the keys, the models and the TTL are what they were,
    the same tools are configured, and every provider and model name
    resolves to the same client as before.  Only the caches change. *)
Theorem processMessage_keeps_config {World : Type} `{!External World}
    (s : Machine World LangChainChatAgent.t)
    (userMessage modelProvider modelName : string) (forceSearch : bool) :
  let s' := snd (LangChainChatAgent.processMessage
                   userMessage modelProvider modelName forceSearch s) in
  same_config (self s') (self s)
  /\ forall provider name,
       LangChainChatAgent._getLLM (self s') provider name
       = LangChainChatAgent._getLLM (self s) provider name.
Proof.
  intros s'. subst s'.
  assert (Hcfg : same_config
                   (self (snd (LangChainChatAgent.processMessage
                                 userMessage modelProvider modelName forceSearch s)))
                   (self s)).
  { destruct (LangChainChatAgent._getLLM (self s) modelProvider modelName) as [llm|] eqn:Hllm.
    - destruct (processMessage_resolved userMessage modelProvider modelName forceSearch
                  s llm Hllm) as (l & s1 & chunks & c & s2 & Hsearch & Hgen & ->).
      simpl.
      destruct (streamGenerate_frame llm (messagesForLLM l userMessage) userMessage s1)
        as [Hself _].
      rewrite Hgen in Hself. simpl in Hself. rewrite Hself.
      pose proof (searchStage_config userMessage modelProvider
                    (forceSearch || LangChainChatAgent.shouldSearchWeb userMessage)
                    (logged (ResolveModel modelProvider modelName) s)) as H.
      rewrite Hsearch in H. exact H.
    - rewrite (processMessage_unresolved _ _ _ forceSearch _ Hllm). apply same_config_refl. }
  split; [exact Hcfg|]. intros provider name. apply getLLM_same_config, Hcfg.
Qed.

Section Requests.

Context {World : Type} `{!External World}.

Import LangChainChatAgent.

Abbreviation machine := (Machine World LangChainChatAgent.t).

(** A resolved request, seen from outside: the first event, the calls, and
    the agent at the end, in terms of the outcome of the search block. *)
Lemma processMessage_outline userMessage modelProvider modelName forceSearch
    (s : machine) llm locals s1 :
  _getLLM (self s) modelProvider modelName = Some llm ->
  searchStage userMessage modelProvider (forceSearch || shouldSearchWeb userMessage)
    (logged (ResolveModel modelProvider modelName) s) = (Normal locals, s1) ->
  let r := processMessage userMessage modelProvider modelName forceSearch s in
  exists events rest,
    fst (fst r) = (metadata_of locals, s1) :: events
    /\ self (snd r) = self s1
    /\ calls (snd r)
       = calls s1 ++ LLMStream llm (messagesForLLM locals userMessage) :: rest
    /\ Forall is_LLMStream rest.
Proof.
  intros Hllm Hsearch r. subst r.
  destruct (processMessage_resolved userMessage modelProvider modelName forceSearch s llm Hllm)
    as (l & t1 & chunks & c & s2 & Hsearch' & Hgen & ->).
  rewrite Hsearch in Hsearch'. injection Hsearch' as <- <-.
  destruct (streamGenerate_frame llm (messagesForLLM locals userMessage) userMessage s1)
    as (Hself & rest & Hcalls & Hrest).
  rewrite Hgen in Hself, Hcalls. simpl in Hself, Hcalls.
  eexists _, rest. simpl. repeat split; eauto.
Qed.


End Requests.

(** X15. A request with a [message] whose model does not resolve gets
    exactly two frames, an [error] that names the provider and the model
    asked for, then [end]; the response is closed, and neither the agent nor
    the world is touched: no search and no generation is attempted. *)
Theorem unresolved_request {World : Type} `{!External World}
    (req : Server.Request) (s : Machine World LangChainChatAgent.t) :
  JS.truthy_opt (Server.message req) = true ->
  let modelProvider := default "openai" (Server.modelProvider req) in
  let modelName := default "gpt-4-turbo" (Server.modelName req) in
  LangChainChatAgent._getLLM (self s) modelProvider modelName = None ->
  let r := Server.post_chat req Server.fresh s in
  Server.frames (fst r)
  = [ EvError ("Error: Model provider " +:+ JS.dquote +:+ modelProvider +:+ JS.dquote
               +:+ " not initialized or model " +:+ JS.dquote +:+ modelName +:+ JS.dquote
               +:+ " not found. Check API keys.");
      EvEnd ]
  /\ Server.writableEnded (fst r) = true
  /\ self (snd r) = self s
  /\ world (snd r) = world s
  /\ calls (snd r) = calls s ++ [ResolveModel modelProvider modelName].
Proof.
  intros Hm modelProvider modelName Hllm r. subst r.
  pose proof (processMessage_unresolved (default EmptyString (Server.message req)) _ _
                (default false (Server.forceSearch req)) s Hllm) as Hrun.
  simpl in Hrun. rewrite (post_chat_present req s _ _ Hm Hrun). simpl. auto.
Qed.

Lemma unresolved_request_witness :
  let s := Scripted.boot Scripted.all_keys (Scripted.scripted 0 [] [] []) in
  let r := Server.post_chat (Scripted.ask "hi" "unknown_provider") Server.fresh s in
  map is_error (Server.frames (fst r)) = [true; false]
  /\ calls (snd r) = [ResolveModel "unknown_provider" "gpt-4-turbo"].
Proof.
  intros s r.
  assert (Hllm : LangChainChatAgent._getLLM (self s) "unknown_provider" "gpt-4-turbo" = None)
    by (vm_compute; reflexivity).
  destruct (unresolved_request (Scripted.ask "hi" "unknown_provider") s eq_refl Hllm)
    as (Hframes & _ & _ & _ & Hcalls).
  subst r. rewrite Hframes. split; [reflexivity|exact Hcalls].
Defined.

(** X16. A request that does not force a search and whose message holds no
    trigger phrase is answered without search: the first event is the
    [metadata] that reports no search, the model resolved receives the
    direct prompt with the message, the only calls are calls to models, and
    the agent, caches included, is left as it was. *)
Theorem plain_request {World : Type} `{!External World}
    (s : Machine World LangChainChatAgent.t)
    (userMessage modelProvider modelName : string) (llm : ChatModel) :
  LangChainChatAgent._getLLM (self s) modelProvider modelName = Some llm ->
  LangChainChatAgent.shouldSearchWeb userMessage = false ->
  let r := LangChainChatAgent.processMessage userMessage modelProvider modelName false s in
  exists events rest,
    map fst (fst (fst r)) = no_search_metadata :: events
    /\ self (snd r) = self s
    /\ calls (snd r)
       = calls s ++ ResolveModel modelProvider modelName
                 :: LLMStream llm (direct_prompt userMessage) :: rest
    /\ Forall is_LLMStream rest.
Proof.
  intros Hllm Hno r. subst r.
  assert (Hsearch : LangChainChatAgent.searchStage userMessage modelProvider
                      (false || LangChainChatAgent.shouldSearchWeb userMessage)
                      (logged (ResolveModel modelProvider modelName) s)
                    = (Normal {| LangChainChatAgent.needsSearch := false;
                                 LangChainChatAgent.searchToolUsed := "none";
                                 LangChainChatAgent.searchContent := EmptyString;
                                 LangChainChatAgent.searchSources := [];
                                 LangChainChatAgent.isSearchSuccessful := false |},
                       logged (ResolveModel modelProvider modelName) s))
    by (rewrite Hno; reflexivity).
  destruct (processMessage_outline _ _ _ _ _ _ _ _ Hllm Hsearch)
    as (events & rest & Hev & Hself & Hcalls & Hrest).
  exists (map fst events), rest. rewrite Hev, Hself, Hcalls. simpl.
  rewrite <- app_assoc. auto.
Qed.

Lemma plain_request_witness :
  let s := Scripted.boot Scripted.all_keys
             (Scripted.scripted 0 [ {| delivered := ["Hello"]; failure := None |} ] [] []) in
  let llm := LangChainChatAgent.mkChat ChatOpenAI (Some "sk-openai") "gpt-4-turbo" 2 in
  let r := LangChainChatAgent.processMessage "hi" "openai" "gpt-4-turbo" false s in
  exists events rest,
    map fst (fst (fst r)) = no_search_metadata :: events
    /\ self (snd r) = self s
    /\ calls (snd r)
       = calls s ++ ResolveModel "openai" "gpt-4-turbo"
                 :: LLMStream llm (direct_prompt "hi") :: rest
    /\ Forall is_LLMStream rest.
Proof.
  intros s llm.
  apply (plain_request s "hi" "openai" "gpt-4-turbo" llm); vm_compute; reflexivity.
Defined.

(** X17. [forceSearch] overrides the search decision: when the model
    resolves, the dispatcher cache holds no fresh entry and an adapter is
    configured for the provider, a forced request calls that adapter
    whatever the message is, and its [metadata] event reports
    [usedSearch = true]. *)
Theorem forced_search {World : Type} `{!External World}
    (s : Machine World LangChainChatAgent.t)
    (userMessage modelProvider modelName : string) (llm : ChatModel) :
  LangChainChatAgent._getLLM (self s) modelProvider modelName = Some llm ->
  let s0 := logged (ResolveModel modelProvider modelName) s in
  let adapter :=
    LangChainChatAgent.selectAdapter modelProvider (LangChainChatAgent.tools (self s0)) in
  fresh_hit (cacheKey userMessage modelProvider) s0 = false ->
  adapter <> LangChainChatAgent.NoAdapter ->
  let r := LangChainChatAgent.processMessage userMessage modelProvider modelName true s in
  exists data s1 events rest,
    fst (fst r) = (EvMetadata data, s1) :: events
    /\ Metadata.usedSearch data = true
    /\ calls s1
       = calls s ++ ResolveModel modelProvider modelName
                 :: ToolCall (adapter_id adapter) userMessage :: rest.
Proof.
  intros Hllm s0 adapter Hmiss Hadapter r. subst r.
  destruct (callAdapter_total userMessage modelProvider s0) as (l & t & Hcall).
  assert (Hneeds : LangChainChatAgent.needsSearch l = true).
  { destruct (LangChainChatAgent.selectAdapter modelProvider
                (LangChainChatAgent.tools (self s0))) as [tool|tool|] eqn:Hsel.
    - rewrite (callAdapter_google _ _ _ _ Hsel) in Hcall. injection Hcall as <- _.
      unfold google_locals. destruct (fst _); reflexivity.
    - rewrite (callAdapter_perplexity _ _ _ _ Hsel) in Hcall. injection Hcall as <- _.
      unfold perplexity_locals. destruct (fst _); reflexivity.
    - subst adapter. congruence. }
  destruct (callAdapter_frame userMessage modelProvider s0) as (_ & _ & _ & rest & Hcalls & _).
  rewrite Hcall in Hcalls. simpl in Hcalls.
  assert (Hc : calls t = calls s ++ ResolveModel modelProvider modelName
                         :: ToolCall (adapter_id adapter) userMessage :: rest).
  { rewrite Hcalls, <- app_assoc. unfold adapter, s0 in *. simpl in *.
    destruct (LangChainChatAgent.selectAdapter modelProvider
                (LangChainChatAgent.tools (self s))); [reflexivity..|congruence]. }
  assert (Hsearch : LangChainChatAgent.searchStage userMessage modelProvider
                      (true || LangChainChatAgent.shouldSearchWeb userMessage) s0
                    = (Normal l, if LangChainChatAgent.isSearchSuccessful l
                                 then stored (cacheKey userMessage modelProvider) l t else t)).
  { cbn [orb]. rewrite (searchStage_miss _ _ _ Hmiss).
    apply (liveSearch_stored _ _ _ _ _ _ Hcall). }
  destruct (processMessage_outline _ _ _ _ _ _ _ _ Hllm Hsearch)
    as (events & rest' & Hev & _).
  eexists _, _, events, rest. split; [exact Hev|]. split; [exact Hneeds|].
  destruct (LangChainChatAgent.isSearchSuccessful l); exact Hc.
Qed.

Lemma forced_search_witness :
  let s := Scripted.boot Scripted.all_keys
             (Scripted.scripted 0 [ {| delivered := ["Hi."]; failure := None |} ]
                [Scripted.answer "nothing new" "https://a.example"] []) in
  let llm := LangChainChatAgent.mkChat ChatOpenAI (Some "sk-openai") "gpt-4-turbo" 2 in
  LangChainChatAgent.shouldSearchWeb "hi" = false
  /\ exists data s1 events rest,
       fst (fst (LangChainChatAgent.processMessage "hi" "openai" "gpt-4-turbo" true s))
       = (EvMetadata data, s1) :: events
       /\ Metadata.usedSearch data = true
       /\ calls s1
          = calls s ++ ResolveModel "openai" "gpt-4-turbo"
                    :: ToolCall "perplexity_web_search" "hi" :: rest.
Proof.
  intros s llm. split; [vm_compute; reflexivity|].
  apply (forced_search s "hi" "openai" "gpt-4-turbo" llm);
    [vm_compute; reflexivity | vm_compute; reflexivity | vm_compute; discriminate].
Defined.

(** X18. When a search is asked for, the dispatcher cache holds no fresh
    entry and no adapter is configured for the provider, the request is
    answered like one without search: [metadata] reports
    [usedSearch = false] with tool [none], the model receives the direct
    prompt, no tool is called and the agent is left as it was.  That is so
    even with [forceSearch]. *)
Theorem search_without_adapter {World : Type} `{!External World}
    (s : Machine World LangChainChatAgent.t)
    (userMessage modelProvider modelName : string) (forceSearch : bool) (llm : ChatModel) :
  LangChainChatAgent._getLLM (self s) modelProvider modelName = Some llm ->
  (forceSearch || LangChainChatAgent.shouldSearchWeb userMessage)%bool = true ->
  let s0 := logged (ResolveModel modelProvider modelName) s in
  fresh_hit (cacheKey userMessage modelProvider) s0 = false ->
  LangChainChatAgent.selectAdapter modelProvider (LangChainChatAgent.tools (self s0))
  = LangChainChatAgent.NoAdapter ->
  let r := LangChainChatAgent.processMessage
             userMessage modelProvider modelName forceSearch s in
  exists events rest,
    map fst (fst (fst r)) = no_search_metadata :: events
    /\ self (snd r) = self s
    /\ calls (snd r)
       = calls s ++ ResolveModel modelProvider modelName
                 :: LLMStream llm (direct_prompt userMessage) :: rest
    /\ Forall is_LLMStream rest.
Proof.
  intros Hllm Hneeds s0 Hmiss Hnone r. subst r.
  assert (Hsearch : LangChainChatAgent.searchStage userMessage modelProvider
                      (forceSearch || LangChainChatAgent.shouldSearchWeb userMessage) s0
                    = (Normal {| LangChainChatAgent.needsSearch := false;
                                 LangChainChatAgent.searchToolUsed := "none";
                                 LangChainChatAgent.searchContent :=
                                   "(No search tool available for your request.)";
                                 LangChainChatAgent.searchSources := [];
                                 LangChainChatAgent.isSearchSuccessful := false |}, s0)).
  { rewrite Hneeds, (searchStage_miss _ _ _ Hmiss).
    rewrite (liveSearch_stored _ _ _ _ _ _ (callAdapter_none _ _ _ Hnone)). reflexivity. }
  destruct (processMessage_outline _ _ _ _ _ _ _ _ Hllm Hsearch)
    as (events & rest & Hev & Hself & Hcalls & Hrest).
  exists (map fst events), rest. rewrite Hev, Hself, Hcalls. simpl.
  rewrite <- app_assoc. auto.
Qed.

Lemma search_without_adapter_witness :
  let no_perplexity :=
    {| LangChainChatAgent.openai := Some "sk-openai"; LangChainChatAgent.google := None;
       LangChainChatAgent.anthropic := None; LangChainChatAgent.perplexity := None |} in
  let s := Scripted.boot no_perplexity
             (Scripted.scripted 0 [ {| delivered := ["Hi."]; failure := None |} ] [] []) in
  let llm := LangChainChatAgent.mkChat ChatOpenAI (Some "sk-openai") "gpt-4-turbo" 2 in
  let r := LangChainChatAgent.processMessage "latest news" "openai" "gpt-4-turbo" true s in
  exists events rest,
    map fst (fst (fst r)) = no_search_metadata :: events
    /\ self (snd r) = self s
    /\ calls (snd r)
       = calls s ++ ResolveModel "openai" "gpt-4-turbo"
                 :: LLMStream llm (direct_prompt "latest news") :: rest
    /\ Forall is_LLMStream rest.
Proof.
  intros no_perplexity s llm.
  apply (search_without_adapter s "latest news" "openai" "gpt-4-turbo" true llm);
    vm_compute; reflexivity.
Defined.



(** ** Live searches *)

Lemma parseCitations_urls (citationMetadata : option Gemini.CitationMetadata) :
  map GoogleGroundingTool.url (GoogleGroundingTool._parseCitations citationMetadata)
  = map Gemini.uri (default [] (citationMetadata ≫= Gemini.citationSources)).
Proof.
  destruct citationMetadata as [[[sources|]]|]; simpl; [|reflexivity..].
  rewrite map_map. reflexivity.
Qed.

(** X20. A live search through the Perplexity tool (no fresh entry in the
    tool, a key, an answer from the endpoint) gives the dispatcher the
    content of the answer and, read back from the cache of the tool, the
    non-empty citation [url]s as sources; it is reported successful under
    the tool's identifier, and the log shows the tool call and one request. *)
Theorem perplexity_live_search {World : Type} `{!External World}
    (s : Machine World LangChainChatAgent.t) (userMessage modelProvider : string)
    (tool : PerplexitySearchTool.t) (data : Perplexity.Data) (w' : World) :
  LangChainChatAgent.selectAdapter modelProvider (LangChainChatAgent.tools (self s))
  = LangChainChatAgent.UsePerplexity tool ->
  let agent := PerplexitySearchTool.perplexityAgent tool in
  JS.truthy_opt (PerplexitySearchAgent.apiKey agent) = true ->
  perplexity_fresh_entry userMessage
    (tool_machine tool PerplexitySearchTool.name userMessage s) = None ->
  axios_post (PerplexitySearchAgent.baseUrl agent)
    (default EmptyString (PerplexitySearchAgent.apiKey agent))
    ("Search for: " +:+ userMessage) (world s) = (inl data, w') ->
  let parsed := PerplexitySearchAgent._parseSearchResult data in
  let r := LangChainChatAgent.callAdapter userMessage modelProvider s in
  fst r = Normal {| LangChainChatAgent.needsSearch := true;
                    LangChainChatAgent.searchToolUsed := "perplexity_web_search";
                    LangChainChatAgent.searchContent := SearchResult.content parsed;
                    LangChainChatAgent.searchSources := SearchResult.sources parsed;
                    LangChainChatAgent.isSearchSuccessful := true |}
  /\ calls (snd r)
     = calls s ++ [ ToolCall "perplexity_web_search" userMessage;
                    AxiosPost (PerplexitySearchAgent.baseUrl agent) userMessage ]
  /\ world (snd r) = w'.
Proof.
  intros Hsel agent Hkey Hmiss Hpost parsed r. subst r.
  rewrite (callAdapter_perplexity _ _ _ _ Hsel). simpl.
  rewrite perplexity_call_cases, Hmiss, perplexity_live_cases.
  simpl. fold agent. rewrite Hkey, Hpost. simpl.
  unfold perplexity_locals. simpl. rewrite lookup_insert_eq. simpl.
  rewrite <- app_assoc. auto.
Qed.

Lemma perplexity_live_search_witness :
  let s := Scripted.boot Scripted.all_keys
             (Scripted.scripted 0 []
                [ inl {| Perplexity.choices_0_message_content := Some "Sunny";
                         Perplexity.citations :=
                           Some [ {| Perplexity.url := Some "https://a.example" |};
                                  {| Perplexity.url := None |};
                                  {| Perplexity.url := Some EmptyString |} ] |} ] []) in
  fst (LangChainChatAgent.callAdapter "weather in Paris" "anthropic" s)
  = Normal {| LangChainChatAgent.needsSearch := true;
              LangChainChatAgent.searchToolUsed := "perplexity_web_search";
              LangChainChatAgent.searchContent := "Sunny";
              LangChainChatAgent.searchSources := ["https://a.example"];
              LangChainChatAgent.isSearchSuccessful := true |}.
Proof.
  intros s.
  destruct (perplexity_live_search s "weather in Paris" "anthropic"
              (PerplexitySearchTool.new (Some "pplx-key"))
              {| Perplexity.choices_0_message_content := Some "Sunny";
                 Perplexity.citations :=
                   Some [ {| Perplexity.url := Some "https://a.example" |};
                          {| Perplexity.url := None |};
                          {| Perplexity.url := Some EmptyString |} ] |}
              (snd (Scripted.next_axios (world s))))
    as [H _]; [vm_compute; reflexivity ..|].
  exact H.
Defined.

(** X21. A live search through the Google grounding tool (a key, no fresh
    entry in the tool, an answer from Gemini) gives the dispatcher the text
    of the answer and, read back from the cache of the tool, the non-empty
    [uri]s of the citation sources, in order; titles play no part.  The log
    shows the tool call and one call to Gemini. *)
Theorem google_live_search {World : Type} `{!External World}
    (s : Machine World LangChainChatAgent.t) (userMessage modelProvider : string)
    (tool : GoogleGroundingTool.t) (response : Gemini.Response) (w' : World) :
  LangChainChatAgent.selectAdapter modelProvider (LangChainChatAgent.tools (self s))
  = LangChainChatAgent.UseGoogleGrounding tool ->
  JS.truthy_opt (GoogleGroundingTool.apiKey tool) = true ->
  GoogleGroundingTool.genAI tool = true ->
  google_fresh_entry userMessage
    (tool_machine tool GoogleGroundingTool.name userMessage s) = None ->
  generateContent (default EmptyString (GoogleGroundingTool.apiKey tool))
    (GoogleGroundingTool.modelName tool) userMessage (world s) = (inl response, w') ->
  let r := LangChainChatAgent.callAdapter userMessage modelProvider s in
  fst r = Normal {| LangChainChatAgent.needsSearch := true;
                    LangChainChatAgent.searchToolUsed := "google_search_grounding";
                    LangChainChatAgent.searchContent := Gemini.text response;
                    LangChainChatAgent.searchSources :=
                      JS.filter_Boolean
                        (map Gemini.uri
                           (default [] (Gemini.candidates_0_citationMetadata response
                                        ≫= Gemini.citationSources)));
                    LangChainChatAgent.isSearchSuccessful := true |}
  /\ calls (snd r)
     = calls s ++ [ ToolCall "google_search_grounding" userMessage;
                    GenerateContent (GoogleGroundingTool.modelName tool) userMessage ]
  /\ world (snd r) = w'.
Proof.
  intros Hsel Hkey Hgen Hmiss Hanswer r. subst r.
  rewrite (callAdapter_google _ _ _ _ Hsel). simpl.
  rewrite google_call_cases. simpl. rewrite Hkey, Hgen, Hmiss, google_live_cases.
  simpl. rewrite Hanswer. simpl.
  unfold google_locals. simpl. fold (grounded_key userMessage).
  rewrite lookup_insert_eq. simpl. rewrite parseCitations_urls.
  rewrite <- app_assoc. auto.
Qed.

Lemma google_live_search_witness :
  let s := Scripted.boot Scripted.all_keys
             (Scripted.scripted 0 [] []
                [Scripted.grounded "Sunny in Paris" "https://g.example"]) in
  fst (LangChainChatAgent.callAdapter "weather in Paris" "google" s)
  = Normal {| LangChainChatAgent.needsSearch := true;
              LangChainChatAgent.searchToolUsed := "google_search_grounding";
              LangChainChatAgent.searchContent := "Sunny in Paris";
              LangChainChatAgent.searchSources := ["https://g.example"];
              LangChainChatAgent.isSearchSuccessful := true |}.
Proof.
  intros s.
  destruct (google_live_search s "weather in Paris" "google"
              (GoogleGroundingTool.new (Some "google-key"))
              {| Gemini.text := "Sunny in Paris";
                 Gemini.candidates_0_citationMetadata :=
                   Some {| Gemini.citationSources :=
                             Some [ {| Gemini.uri := Some "https://g.example";
                                       Gemini.title := None |} ] |} |}
              (snd (Scripted.next_gemini (world s))))
    as [H _]; [vm_compute; reflexivity ..|].
  exact H.
Defined.

(** X22. The two cache levels: when the dispatcher cache misses and the
    Perplexity tool holds a fresh entry for the lowercased message (stored
    for any provider), the live search calls the tool but makes no request,
    returns the content and the sources of that entry, and stores them in
    the dispatcher cache with the current time as timestamp, whatever the
    age of the entry of the tool. *)
Theorem tool_cache_hit_restamps {World : Type} `{!External World}
    (s : Machine World LangChainChatAgent.t) (userMessage modelProvider key : string)
    (tool : PerplexitySearchTool.t) (cachedResult : PerplexitySearchTool.CacheEntry) :
  LangChainChatAgent.selectAdapter modelProvider (LangChainChatAgent.tools (self s))
  = LangChainChatAgent.UsePerplexity tool ->
  perplexity_fresh_entry userMessage
    (tool_machine tool PerplexitySearchTool.name userMessage s) = Some cachedResult ->
  let found := PerplexitySearchTool.data cachedResult in
  let r := LangChainChatAgent.liveSearch userMessage modelProvider key s in
  fst r = Normal {| LangChainChatAgent.needsSearch := true;
                    LangChainChatAgent.searchToolUsed := "perplexity_web_search";
                    LangChainChatAgent.searchContent := SearchResult.content found;
                    LangChainChatAgent.searchSources := SearchResult.sources found;
                    LangChainChatAgent.isSearchSuccessful := true |}
  /\ calls (snd r) = calls s ++ [ToolCall "perplexity_web_search" userMessage]
  /\ world (snd r) = world s
  /\ LangChainChatAgent.searchCache (self (snd r)) !! key
     = Some {| LangChainChatAgent.data :=
                 {| LangChainChatAgent.content := SearchResult.content found;
                    LangChainChatAgent.sources := SearchResult.sources found;
                    LangChainChatAgent.toolUsed := "perplexity_web_search" |};
               LangChainChatAgent.timestamp := Date_now (world s) |}.
Proof.
  intros Hsel Hhit found r. subst r found.
  assert (Hlook : PerplexitySearchTool.cache tool !! JS.toLowerCase userMessage
                  = Some cachedResult).
  { unfold perplexity_fresh_entry in Hhit. simpl in Hhit.
    destruct (PerplexitySearchTool.cache tool !! JS.toLowerCase userMessage) as [e|];
      [|discriminate]. destruct (_ <? _); [congruence|discriminate]. }
  pose proof (callAdapter_perplexity userMessage modelProvider s tool Hsel) as Hcall.
  simpl in Hcall. rewrite perplexity_call_cases, Hhit in Hcall.
  unfold perplexity_locals in Hcall. simpl in Hcall. rewrite Hlook in Hcall. simpl in Hcall.
  rewrite (liveSearch_stored _ _ _ _ _ _ Hcall). simpl.
  repeat split. apply lookup_insert_eq.
Qed.

Lemma tool_cache_hit_restamps_witness :
  let s := Scripted.boot Scripted.all_keys
             (Scripted.scripted 0 [] [Scripted.answer "Paris" "https://a.example"] []) in
  let s1 := snd (LangChainChatAgent.searchStage "Capital of France" "openai" true s) in
  let s2 := later (Scripted.at_time 299000 (world s1)) s1 in
  let r := LangChainChatAgent.liveSearch "capital of france" "anthropic"
             "capital of france-anthropic" s2 in
  calls (snd r) = calls s1 ++ [ToolCall "perplexity_web_search" "capital of france"]
  /\ LangChainChatAgent.timestamp
       <$> LangChainChatAgent.searchCache (self (snd r)) !! "capital of france-anthropic"
     = Some 299000.
Proof.
  intros s s1 s2 r.
  destruct (tool_cache_hit_restamps s2 "capital of france" "anthropic"
              "capital of france-anthropic"
              (PerplexitySearchTool.set_cache "capital of france"
                 {| PerplexitySearchTool.data :=
                      {| SearchResult.content := "Paris";
                         SearchResult.sources := ["https://a.example"];
                         SearchResult.citations :=
                           [ {| Perplexity.url := Some "https://a.example" |} ] |};
                    PerplexitySearchTool.timestamp := 1 |}
                 (PerplexitySearchTool.new (Some "pplx-key")))
              {| PerplexitySearchTool.data :=
                   {| SearchResult.content := "Paris";
                      SearchResult.sources := ["https://a.example"];
                      SearchResult.citations :=
                        [ {| Perplexity.url := Some "https://a.example" |} ] |};
                 PerplexitySearchTool.timestamp := 1 |})
    as (_ & Hcalls & _ & Hentry); [vm_compute; reflexivity ..|].
  split; [exact Hcalls|]. subst r. rewrite Hentry. reflexivity.
Defined.

(** ** The key of the dispatcher cache, and the response *)



(** X24. For every request the handler closes the response, and the frames
    it wrote are in protocol order: either an [error] then [end], or one
    [metadata], then the chunks, then at most one [error], then [end]. *)
Theorem response_closed_in_order {World : Type} `{!External World}
    (req : Server.Request) (s : Machine World LangChainChatAgent.t) :
  let res := fst (Server.post_chat req Server.fresh s) in
  Server.writableEnded res = true
  /\ ((exists message, Server.frames res = [EvError message; EvEnd])
      \/ exists data chunks errors,
           Server.frames res
           = EvMetadata data :: map EvChunk chunks ++ errors ++ [EvEnd]
           /\ (errors = [] \/ exists message, errors = [EvError message])).
Proof.
  intros res. subst res. split.
  - destruct (JS.truthy_opt (Server.message req)) eqn:Hm.
    + destruct (LangChainChatAgent._getLLM (self s)
                  (default "openai" (Server.modelProvider req))
                  (default "gpt-4-turbo" (Server.modelName req))) as [llm|] eqn:Hllm.
      * destruct (processMessage_resolved (default EmptyString (Server.message req)) _ _
                    (default false (Server.forceSearch req)) s llm Hllm)
          as (l & s1 & chunks & c & s2 & _ & _ & Hrun).
        rewrite (post_chat_present req s _ s2 Hm Hrun). reflexivity.
      * pose proof (processMessage_unresolved (default EmptyString (Server.message req)) _ _
                      (default false (Server.forceSearch req)) s Hllm) as Hrun.
        simpl in Hrun. rewrite (post_chat_present req s _ _ Hm Hrun). reflexivity.
    + rewrite (post_chat_missing req s Hm). reflexivity.
  - destruct (post_chat_frames req s) as [message|data chunks errors Herr]; eauto 10.
Qed.

(** ** Dispatch on the agent the constructor builds *)

(** X25. An expired entry of the dispatcher cache does not stop the search:
    when a search is asked for, the entry under the key is as old as the TTL
    or older and an adapter is configured for the provider, the adapter is
    called. *)
Theorem expired_dispatch_calls_adapter {World : Type} `{!External World}
    (s : Machine World LangChainChatAgent.t) (userMessage modelProvider : string)
    (cachedResult : LangChainChatAgent.CacheEntry) :
  LangChainChatAgent.searchCache (self s) !! cacheKey userMessage modelProvider
  = Some cachedResult ->
  LangChainChatAgent.searchCacheTTL (self s)
  <= Date_now (world s) - LangChainChatAgent.timestamp cachedResult ->
  let adapter :=
    LangChainChatAgent.selectAdapter modelProvider (LangChainChatAgent.tools (self s)) in
  adapter <> LangChainChatAgent.NoAdapter ->
  exists rest,
    calls (snd (LangChainChatAgent.searchStage userMessage modelProvider true s))
    = calls s ++ ToolCall (adapter_id adapter) userMessage :: rest.
Proof.
  intros Hlook Hold adapter Hadapter.
  rewrite (searchStage_expired _ _ _ _ Hlook Hold).
  destruct (callAdapter_total userMessage modelProvider s) as (l & t & Hcall).
  rewrite (liveSearch_stored _ _ _ _ _ _ Hcall).
  destruct (callAdapter_frame userMessage modelProvider s) as (_ & _ & _ & rest & Hcalls & _).
  rewrite Hcall in Hcalls. simpl in Hcalls. fold adapter in Hcalls.
  exists rest.
  assert (Hc : calls t = calls s ++ ToolCall (adapter_id adapter) userMessage :: rest)
    by (rewrite Hcalls; destruct adapter; [reflexivity..|congruence]).
  destruct (LangChainChatAgent.isSearchSuccessful l); exact Hc.
Qed.

Lemma expired_dispatch_calls_adapter_witness :
  let old := {| LangChainChatAgent.data :=
                  {| LangChainChatAgent.content := "stale";
                     LangChainChatAgent.sources := [];
                     LangChainChatAgent.toolUsed := "perplexity_web_search" |};
                LangChainChatAgent.timestamp := 0 |} in
  let s : Machine Scripted.World LangChainChatAgent.t :=
    {| self := LangChainChatAgent.set_searchCache "news-openai" old
                 (LangChainChatAgent.new Scripted.all_keys);
       world := Scripted.scripted 300000 [] [Scripted.answer "fresh" "https://a.example"] [];
       calls := [] |} in
  exists rest,
    calls (snd (LangChainChatAgent.searchStage "news" "openai" true s))
    = ToolCall "perplexity_web_search" "news" :: rest.
Proof.
  intros old s.
  apply (expired_dispatch_calls_adapter s "news" "openai" old);
    [vm_compute; reflexivity | vm_compute; discriminate | vm_compute; discriminate].
Defined.

(** X26. On the agent the constructor builds, the adapter of a provider that
    resolves is fixed by the keys: [google] always searches through the
    grounding tool, since the Google key configures both its models and that
    tool; [openai] and [anthropic] search through Perplexity when its key is
    configured and have no adapter otherwise. *)
Theorem adapter_of_built_agent (keys : LangChainChatAgent.ApiKeys) (modelProvider : string) :
  JS.truthy_opt (key_of keys modelProvider) = true ->
  LangChainChatAgent.selectAdapter modelProvider
    (LangChainChatAgent.tools (LangChainChatAgent.new keys))
  = if (modelProvider =? "google")%string
    then LangChainChatAgent.UseGoogleGrounding
           (GoogleGroundingTool.new (LangChainChatAgent.google keys))
    else if JS.truthy_opt (LangChainChatAgent.perplexity keys)
    then LangChainChatAgent.UsePerplexity
           (PerplexitySearchTool.new (LangChainChatAgent.perplexity keys))
    else LangChainChatAgent.NoAdapter.
Proof.
  intros Hkey. unfold LangChainChatAgent.selectAdapter. simpl.
  destruct (String.eqb_spec modelProvider "google") as [->|Hne]; simpl.
  - unfold key_of in Hkey. simpl in Hkey. rewrite Hkey. reflexivity.
  - destruct (JS.truthy_opt (LangChainChatAgent.perplexity keys)); reflexivity.
Qed.

Lemma adapter_of_built_agent_witness :
  adapter_id (LangChainChatAgent.selectAdapter "google"
                (LangChainChatAgent.tools (LangChainChatAgent.new Scripted.all_keys)))
  = "google_search_grounding".
Proof.
  rewrite (adapter_of_built_agent Scripted.all_keys "google"); reflexivity.
Defined.
